(** * tg-chat-itmo: curriculum parsing, course categorisation,
      profile classification, recommendations and FAQ matching

    A shallow embedding of [final_parser.py] ([extract_curriculum_data],
    [categorize_subjects], [generate_recommendations]) and of the question
    matcher of [bot.py] ([is_relevant_question], [find_best_answer]),
    followed by the properties of the specification that were checked
    against them; then of [calculate_program_match] (of [bot.py] and of
    [final_demo.py]), of the profile store of [profile_handler] and of
    what [get_recommendations] shows of a result, with further
    properties of all of these.

    Conventions.
    - A Python [str] is a list of Unicode code points ([pystr]); [len],
      slicing, [in] and the regular expressions all work on code points.
      Literals are written as UTF-8 Rocq strings and decoded by [u].
    - Python [int] is [Z]. The profile scores, which the program computes
      itself, are binary64 [float]s with the kernel's arithmetic; the FAQ
      scores, whose formula calls [difflib], are given by a parameter and
      carried as the rationals they denote.
    - Dictionary keys that are identifiers of the program (category and
      profile keys) are Rocq [string]s; a [dict] whose iteration order
      matters is an association list in insertion order.
    - What the Python runtime owns and the repository does not (the
      decimal-digit table behind [\d] and [int()], the case mapping behind
      [str.lower]) is a parameter, collected in the record [Unicode].
    - [int()] refuses a digit string of more than 4300 digits with a
      [ValueError] that the parser does not catch. The module [Parser]
      gives the parser as it runs when no conversion is refused; the
      module [Limited] gives it with the refusal, and whatever it returns
      is the value [Parser] computes. *)

From Stdlib Require Import ZArith NArith QArith List Bool Lia.
From Stdlib Require Import Sorting.Sorted Sorting.Permutation.
From Stdlib Require Import Floats.PrimFloat Numbers.Cyclic.Int63.Uint63.
From Stdlib Require Import Strings.String Strings.Ascii.
From stdpp Require Import base option gmap strings.
Import ListNotations.

Local Open Scope Z_scope.
Local Open Scope list_scope.

(* ===================================================================== *)
(** ** Python strings *)
(* ===================================================================== *)

Module Py.

(** A code point. *)
Definition char := N.
Definition pystr := list char.

Definition char_eqb (a b : char) : bool := N.eqb a b.

Fixpoint str_eqb (a b : pystr) : bool :=
  match a, b with
  | [], [] => true
  | x :: a', y :: b' => char_eqb x y && str_eqb a' b'
  | _, _ => false
  end.

(** [startswith p s]: [s.startswith(p)]. *)
Fixpoint startswith (p s : pystr) : bool :=
  match p, s with
  | [], _ => true
  | x :: p', y :: s' => char_eqb x y && startswith p' s'
  | _ :: _, [] => false
  end.

(** [contains needle hay]: Python's [needle in hay]. *)
Fixpoint contains (needle hay : pystr) : bool :=
  startswith needle hay ||
  match hay with
  | [] => false
  | _ :: hay' => contains needle hay'
  end.

(** *** UTF-8 literals *)

Fixpoint bytes_of (s : string) : list N :=
  match s with
  | EmptyString => []
  | String a s' => N_of_ascii a :: bytes_of s'
  end.

(** Decoder for well-formed UTF-8 (the literals of this file). *)
Fixpoint utf8 (fuel : nat) (bs : list N) : pystr :=
  match fuel with
  | O => []
  | S fuel' =>
    match bs with
    | [] => []
    | b0 :: r0 =>
      if (b0 <? 128)%N then b0 :: utf8 fuel' r0
      else if (b0 <? 224)%N then
        match r0 with
        | b1 :: r1 => ((b0 - 192) * 64 + (b1 - 128))%N :: utf8 fuel' r1
        | _ => []
        end
      else if (b0 <? 240)%N then
        match r0 with
        | b1 :: b2 :: r2 =>
          ((b0 - 224) * 4096 + (b1 - 128) * 64 + (b2 - 128))%N :: utf8 fuel' r2
        | _ => []
        end
      else
        match r0 with
        | b1 :: b2 :: b3 :: r3 =>
          ((b0 - 240) * 262144 + (b1 - 128) * 4096 + (b2 - 128) * 64
           + (b3 - 128))%N :: utf8 fuel' r3
        | _ => []
        end
    end
  end.

Definition u (s : string) : pystr :=
  let bs := bytes_of s in utf8 (List.length bs) bs.

(** *** Whitespace

    [str.strip], [str.split] and the [\s] of [re] on [str] patterns share
    one predicate, [Py_UNICODE_ISSPACE]. *)
Definition is_space (c : char) : bool :=
  ((9 <=? c) && (c <=? 13) || (28 <=? c) && (c <=? 32)
   || (c =? 133) || (c =? 160) || (c =? 5760)
   || (8192 <=? c) && (c <=? 8202)
   || (c =? 8232) || (c =? 8233) || (c =? 8239) || (c =? 8287)
   || (c =? 12288))%N.

Fixpoint lstrip (s : pystr) : pystr :=
  match s with
  | [] => []
  | c :: s' => if is_space c then lstrip s' else s
  end.

Definition rstrip (s : pystr) : pystr := rev (lstrip (rev s)).

(** [s.strip()] *)
Definition strip (s : pystr) : pystr := rstrip (lstrip s).

(** [s.split(sep)] for a one-character separator. *)
Fixpoint split_on (sep : char) (s : pystr) : list pystr :=
  match s with
  | [] => [[]]
  | c :: s' =>
    if char_eqb c sep then [] :: split_on sep s'
    else
      match split_on sep s' with
      | [] => [[c]]
      | w :: ws => (c :: w) :: ws
      end
  end.

Definition newline : char := 10%N.

(** What the interpreter's Unicode database supplies. Its one law is a
    fact of that database: no decimal digit is a whitespace character. *)
Record Unicode := {
  (** [Py_UNICODE_ISDECIMAL]: the class [\d] of [re] on [str]. *)
  is_decimal : char -> bool;
  (** the value [int()] gives a decimal digit, in 0..9 *)
  decimal_value : char -> Z;
  (** [str.lower] *)
  lower : pystr -> pystr;
  decimal_not_space : forall c, is_decimal c = true -> is_space c = false
}.

(** The value [int(s)] has for a string [s] of decimal digits. Integers
    are unbounded. The interpreter refuses to convert a string of more
    than 4300 digits; that refusal is [Limited.int_of]. *)
Definition int_of (U : Unicode) (s : pystr) : Z :=
  fold_left (fun acc c => 10 * acc + decimal_value U c) s 0.

(** The database restricted to ASCII and the Russian alphabet: the digits
    0-9, and lower-casing of A-Z, of U+0410..U+042F and of U+0401. It agrees
    with Python on every string made of such characters; the examples of
    this file are run with it. *)
Definition basic_lower_char (c : char) : char :=
  (if (65 <=? c) && (c <=? 90) then c + 32
   else if (1040 <=? c) && (c <=? 1071) then c + 32
   else if c =? 1025 then 1105
   else c)%N.

Definition ascii_digit (c : char) : bool := ((48 <=? c) && (c <=? 57))%N.

Definition ascii_digit_not_space (c : char) :
  ascii_digit c = true -> is_space c = false.
Proof.
  unfold ascii_digit. intros H.
  apply andb_prop in H as [H1 H2].
  apply N.leb_le in H1. apply N.leb_le in H2.
  assert (E : exists k, (k < 10)%nat /\ c = (48 + N.of_nat k)%N).
  { exists (N.to_nat (c - 48)). split; lia. }
  destruct E as (k & Hk & ->).
  do 10 (destruct k as [|k]; [reflexivity|]). lia.
Qed.

Definition basic : Unicode := {|
  is_decimal := ascii_digit;
  decimal_value := fun c => Z.of_N c - 48;
  lower := map basic_lower_char;
  decimal_not_space := ascii_digit_not_space
|}.

End Py.

(* ===================================================================== *)
(** ** The fragment of [re] the parser uses *)
(* ===================================================================== *)

Module Re.
Import Py.

(** A pattern is a sequence of atoms. Every repetition of the program's
    patterns repeats a one-character class, so a repetition is an atom:
    class, minimum count, greedy or lazy, and the group that captures it. *)
Inductive atom :=
| Rep (cls : char -> bool) (lo : nat) (greedy : bool) (grp : option nat)
| Lit (s : pystr)
| Eos
| LitOrEos (s : pystr).

Definition groups := list (nat * pystr).

Definition group (n : nat) (g : groups) : pystr :=
  match find (fun e => Nat.eqb (fst e) n) g with
  | Some e => snd e
  | None => []
  end.

Definition capture (grp : option nat) (s : pystr) (g : groups) : groups :=
  match grp with
  | Some n => (n, s) :: g
  | None => g
  end.

(** Length of the longest prefix of [s] inside the class. *)
Fixpoint run (cls : char -> bool) (s : pystr) : nat :=
  match s with
  | c :: s' => if cls c then S (run cls s') else O
  | [] => O
  end.

(** The counts a repetition tries, in the order it tries them: from the
    longest down to [lo] when greedy, from [lo] upwards when lazy. *)
Definition counts (lo hi : nat) (greedy : bool) : list nat :=
  let up := seq lo (S hi - lo) in
  if greedy then rev up else up.

Fixpoint first_some {A} (f : nat -> option A) (ks : list nat) : option A :=
  match ks with
  | [] => None
  | k :: ks' =>
    match f k with
    | Some a => Some a
    | None => first_some f ks'
    end
  end.

(** [$] without [re.MULTILINE]: the end, or just before a final newline. *)
Definition at_end (s : pystr) : bool :=
  match s with
  | [] => true
  | [c] => char_eqb c newline
  | _ => false
  end.

(** Backtracking match of the atoms [p] at the head of [s]. *)
Fixpoint exec (p : list atom) (s : pystr) (g : groups) : option groups :=
  match p with
  | [] => Some g
  | Rep cls lo greedy grp :: p' =>
    first_some
      (fun k => exec p' (skipn k s) (capture grp (firstn k s) g))
      (counts lo (run cls s) greedy)
  | Lit t :: p' =>
    if startswith t s then exec p' (skipn (List.length t) s) g else None
  | Eos :: p' =>
    if at_end s then exec p' s g else None
  | LitOrEos t :: p' =>
    match (if startswith t s then exec p' (skipn (List.length t) s) g
           else None) with
    | Some g' => Some g'
    | None => if at_end s then exec p' s g else None
    end
  end.

(** [re.match(p, s)] *)
Definition rmatch (p : list atom) (s : pystr) : option groups :=
  exec p s [].

(** [re.search(p, s)]: the leftmost start at which [p] matches. *)
Fixpoint search (p : list atom) (s : pystr) : option groups :=
  match exec p s [] with
  | Some g => Some g
  | None =>
    match s with
    | [] => None
    | _ :: s' => search p s'
    end
  end.

(** [.]: anything but a newline. *)
Definition dot (c : char) : bool := negb (char_eqb c newline).

End Re.

(* ===================================================================== *)
(** ** [final_parser.py] *)
(* ===================================================================== *)

Module Parser.
Import Py Re.

Inductive section := mandatory | elective.

Definition section_eqb (a b : section) : bool :=
  match a, b with
  | mandatory, mandatory | elective, elective => true
  | _, _ => false
  end.

Record Course := {
  name : pystr;
  credits : Z;
  hours : Z;
  semester : Z;
  type : section
}.

(** The value of [curriculum["semesters"][n]]. *)
Record Buckets := {
  b_mandatory : list Course;
  b_elective : list Course
}.

Record Curriculum := {
  program_name : pystr;
  semesters : gmap Z Buckets;
  elective_courses : list Course;
  mandatory_courses : list Course;
  all_courses : list Course
}.

Section Extract.
Variable U : Unicode.

(** [r'ОП\s+(.+?)(?:Семестры|$)'] *)
Definition program_re : list atom :=
  [ Lit (u "ОП"); Rep is_space 1 true None; Rep dot 1 false (Some 1%nat);
    LitOrEos (u "Семестры") ].

(** [r'(\d+)\s*семестр'] *)
Definition semester_re : list atom :=
  [ Rep (is_decimal U) 1 true (Some 1%nat); Rep is_space 0 true None;
    Lit (u "семестр") ].

(** [r'^(\d+)(.+?)\s+(\d+)\s*$'] *)
Definition course_re : list atom :=
  [ Rep (is_decimal U) 1 true (Some 1%nat); Rep dot 1 false (Some 2%nat);
    Rep is_space 1 true None; Rep (is_decimal U) 1 true (Some 3%nat);
    Rep is_space 0 true None; Eos ].

(** The split of the merged token into credits and hours. *)
Definition split_credits (combined_number : pystr) : Z * Z :=
  if (4 <=? List.length combined_number)%nat then
    (int_of U (firstn 1 combined_number), int_of U (skipn 1 combined_number))
  else
    (int_of U combined_number, 0).

(** The loop state: the dictionary under construction and the two
    trackers. *)
Record State := {
  curriculum : Curriculum;
  current_semester : option Z;
  current_section : option section
}.

Definition init_semester (n : Z) (m : gmap Z Buckets) : gmap Z Buckets :=
  match m !! n with
  | Some _ => m
  | None => <[ n := {| b_mandatory := []; b_elective := [] |} ]> m
  end.

Definition semester_bucket (n : Z) (m : gmap Z Buckets) : Buckets :=
  match m !! n with
  | Some b => b
  | None => {| b_mandatory := []; b_elective := [] |}
  end.

Definition infer_section (course_name : pystr) : section :=
  if existsb (fun keyword => contains keyword (lower U course_name))
       [u "обязательн"; u "воркшоп"]
  then mandatory else elective.

Definition add_course (cur : Curriculum) (c : Course) : Curriculum :=
  let sems := init_semester (semester c) (semesters cur) in
  let b := semester_bucket (semester c) sems in
  match type c with
  | mandatory =>
    {| program_name := program_name cur;
       semesters :=
         <[ semester c := {| b_mandatory := b_mandatory b ++ [c];
                             b_elective := b_elective b |} ]> sems;
       elective_courses := elective_courses cur;
       mandatory_courses := mandatory_courses cur ++ [c];
       all_courses := all_courses cur ++ [c] |}
  | elective =>
    {| program_name := program_name cur;
       semesters :=
         <[ semester c := {| b_mandatory := b_mandatory b;
                             b_elective := b_elective b ++ [c] |} ]> sems;
       elective_courses := elective_courses cur ++ [c];
       mandatory_courses := mandatory_courses cur;
       all_courses := all_courses cur ++ [c] |}
  end.

(** The course a line denotes, when it matches [course_re]. *)
Definition course_of_line (sec : option section) (line : pystr)
  : option Course :=
  match rmatch course_re line with
  | None => None
  | Some g =>
    let semester_num := int_of U (group 1 g) in
    let course_name := strip (group 2 g) in
    let '(cr, hr) := split_credits (group 3 g) in
    let section_type :=
      match sec with
      | None => infer_section course_name
      | Some s => s
      end in
    Some {| name := course_name; credits := cr; hours := hr;
            semester := semester_num; type := section_type |}
  end.

(** One iteration of [for line in lines]. *)
Definition process_line (st : State) (raw : pystr) : State :=
  let line := strip raw in
  match line with
  | [] => st
  | _ =>
    match search semester_re line with
    | Some g =>
      let n := int_of U (group 1 g) in
      let cur := curriculum st in
      {| curriculum :=
           {| program_name := program_name cur;
              semesters := init_semester n (semesters cur);
              elective_courses := elective_courses cur;
              mandatory_courses := mandatory_courses cur;
              all_courses := all_courses cur |};
         current_semester := Some n;
         current_section := current_section st |}
    | None =>
      if contains (u "Обязательные дисциплины") line then
        {| curriculum := curriculum st;
           current_semester := current_semester st;
           current_section := Some mandatory |}
      else if contains (u "Пул выборных дисциплин") line
              || contains (u "выборных") (lower U line) then
        {| curriculum := curriculum st;
           current_semester := current_semester st;
           current_section := Some elective |}
      else
        match course_of_line (current_section st) line with
        | Some c =>
          {| curriculum := add_course (curriculum st) c;
             current_semester := current_semester st;
             current_section := current_section st |}
        | None => st
        end
    end
  end.

Definition initial_state (text : pystr) : State :=
  {| curriculum :=
       {| program_name :=
            match search program_re text with
            | Some g => strip (group 1 g)
            | None => []
            end;
          semesters := ∅;
          elective_courses := [];
          mandatory_courses := [];
          all_courses := [] |};
     current_semester := None;
     current_section := None |}.

Definition scan (text : pystr) : State :=
  fold_left process_line (split_on newline text) (initial_state text).

Definition extract_curriculum_data (text : pystr) : Curriculum :=
  curriculum (scan text).

End Extract.
End Parser.

(* ===================================================================== *)
(** ** [extract_curriculum_data] under the limit on [int()] *)
(* ===================================================================== *)

Module Limited.
Import Py Re Parser.

(** What a piece of the parser does: it returns a value, or it raises the
    [ValueError] of [int()], which nothing in [final_parser.py] catches. *)
Inductive outcome (A : Type) : Type :=
| Returns (a : A)
| ValueError.

Arguments Returns {A} a.
Arguments ValueError {A}.

Definition bind {A B} (m : outcome A) (k : A -> outcome B) : outcome B :=
  match m with
  | Returns a => k a
  | ValueError => ValueError
  end.

Notation "'attempt' x <- m 'in' k" := (bind m (fun x => k))
  (at level 10, x name, m at level 100, k at level 200).

(** [sys.int_info.default_max_str_digits] *)
Definition max_str_digits : nat := 4300.

Section Extract.
Variable U : Unicode.

(** [int(s)] for a string [s] of decimal digits. *)
Definition int_of (s : pystr) : outcome Z :=
  if (List.length s <=? max_str_digits)%nat then Returns (Py.int_of U s)
  else ValueError.

Definition split_credits (combined_number : pystr) : outcome (Z * Z) :=
  if (4 <=? List.length combined_number)%nat then
    attempt cr <- int_of (firstn 1 combined_number) in
    attempt hr <- int_of (skipn 1 combined_number) in
    Returns (cr, hr)
  else
    attempt cr <- int_of combined_number in
    Returns (cr, 0).

(** The course a line denotes, when it matches [course_re]. *)
Definition course_of_line (sec : option section) (line : pystr)
  : outcome (option Course) :=
  match rmatch (course_re U) line with
  | None => Returns None
  | Some g =>
    attempt semester_num <- int_of (group 1 g) in
    let course_name := strip (group 2 g) in
    attempt numbers <- split_credits (group 3 g) in
    let section_type :=
      match sec with
      | None => infer_section U course_name
      | Some s => s
      end in
    Returns (Some {| name := course_name; credits := fst numbers;
                     hours := snd numbers; semester := semester_num;
                     type := section_type |})
  end.

(** One iteration of [for line in lines]. *)
Definition process_line (st : State) (raw : pystr) : outcome State :=
  let line := strip raw in
  match line with
  | [] => Returns st
  | _ =>
    match search (semester_re U) line with
    | Some g =>
      attempt n <- int_of (group 1 g) in
      let cur := curriculum st in
      Returns
        {| curriculum :=
             {| program_name := program_name cur;
                semesters := init_semester n (semesters cur);
                elective_courses := elective_courses cur;
                mandatory_courses := mandatory_courses cur;
                all_courses := all_courses cur |};
           current_semester := Some n;
           current_section := current_section st |}
    | None =>
      if contains (u "Обязательные дисциплины") line then
        Returns {| curriculum := curriculum st;
                   current_semester := current_semester st;
                   current_section := Some mandatory |}
      else if contains (u "Пул выборных дисциплин") line
              || contains (u "выборных") (lower U line) then
        Returns {| curriculum := curriculum st;
                   current_semester := current_semester st;
                   current_section := Some elective |}
      else
        attempt found <- course_of_line (current_section st) line in
        match found with
        | Some c =>
          Returns {| curriculum := add_course (curriculum st) c;
                     current_semester := current_semester st;
                     current_section := current_section st |}
        | None => Returns st
        end
    end
  end.

(** [for line in lines], from the state [st]. *)
Fixpoint scan_lines (lines : list pystr) (st : State) : outcome State :=
  match lines with
  | [] => Returns st
  | raw :: rest =>
    attempt st' <- process_line st raw in scan_lines rest st'
  end.

Definition extract_curriculum_data (text : pystr) : outcome Curriculum :=
  attempt st <- scan_lines (split_on newline text) (initial_state text) in
  Returns (curriculum st).

End Extract.
End Limited.

(* ===================================================================== *)
(** ** [list.sort(key=..., reverse=True)] *)
(* ===================================================================== *)

Module PySort.

(** Python's sort is stable, also with [reverse=True]: the result is in
    descending key order and elements with equal keys keep their original
    order. Insertion from the right computes exactly that list. [ltK] is
    [<] on keys, the only comparison the sort uses. *)
Section Desc.
Context {A K : Type}.
Variable ltK : K -> K -> bool.
Variable key : A -> K.

Fixpoint insert_desc (x : A) (l : list A) : list A :=
  match l with
  | [] => [x]
  | y :: r =>
    if ltK (key x) (key y) then y :: insert_desc x r else x :: y :: r
  end.

Fixpoint sort_desc (l : list A) : list A :=
  match l with
  | [] => []
  | x :: r => insert_desc x (sort_desc r)
  end.

(** [x] has the key [k]: neither is below the other. *)
Definition same_key (k : K) (x : A) : bool :=
  negb (ltK (key x) k) && negb (ltK k (key x)).

(** [a] may stand before [b]: the key of [a] is not below that of [b]. *)
Definition ge (a b : A) : Prop := ltK (key a) (key b) = false.

End Desc.

(** [<] on the tuples [(a, b)] of integers. *)
Definition pair_ltb (p q : Z * Z) : bool :=
  (fst p <? fst q) || ((fst p =? fst q) && (snd p <? snd q)).

End PySort.

(* ===================================================================== *)
(** ** [categorize_subjects] *)
(* ===================================================================== *)

Module Categorizer.
Import Py Parser.

Record Category := {
  c_key : string;
  keywords : list pystr;
  description : pystr
}.

(** The dictionary [categories], in insertion order. *)
Definition categories : list Category := [
  {| c_key := "machine_learning";
     keywords := [u "машинное обучение"; u "machine learning"; u "ml";
                  u "глубокое обучение"; u "deep learning";
                  u "нейронные сети"; u "neural networks";
                  u "автоматическое"];
     description := u "Машинное обучение и ИИ" |};
  {| c_key := "programming";
     keywords := [u "программирование"; u "python"; u "c++"; u "разработка";
                  u "веб-приложений"; u "микросервисов"; u "backend";
                  u "языки программирования"];
     description := u "Программирование и разработка" |};
  {| c_key := "computer_vision";
     keywords := [u "компьютерное зрение"; u "computer vision";
                  u "изображений"; u "обработка изображений";
                  u "генерация изображений"; u "мультимодальные"];
     description := u "Компьютерное зрение" |};
  {| c_key := "nlp";
     keywords := [u "естественного языка"; u "nlp"; u "обработка текстов";
                  u "языковые модели"; u "llm"; u "генеративные модели";
                  u "разговорного"];
     description := u "Обработка естественного языка" |};
  {| c_key := "data_science";
     keywords := [u "данные"; u "data"; u "статистика"; u "анализ";
                  u "визуализация"; u "временные ряды"; u "big data";
                  u "больших данных"];
     description := u "Наука о данных" |};
  {| c_key := "systems";
     keywords := [u "системы"; u "mlops"; u "devops"; u "контейнеризация";
                  u "gpu"; u "unix"; u "базы данных"; u "инфраструктура";
                  u "архитектура"];
     description := u "Системы и инфраструктура" |};
  {| c_key := "product";
     keywords := [u "продукт"; u "product"; u "бизнес"; u "управление";
                  u "проект"; u "аналитика"; u "дизайн";
                  u "прототипирование"];
     description := u "Продуктовое управление" |}
].

(** The result dictionary: category key to its list of courses. *)
Definition categorized := list (string * list Course).

(** [d.get(k, [])] *)
Definition get (k : string) (d : categorized) : list Course :=
  match find (fun e => String.eqb (fst e) k) d with
  | Some e => snd e
  | None => []
  end.

(** [d[k].append(c)] *)
Definition append (k : string) (c : Course) (d : categorized) : categorized :=
  map (fun e => if String.eqb (fst e) k then (fst e, snd e ++ [c]) else e) d.

(** [k in d] *)
Definition has_key (k : string) (d : categorized) : bool :=
  existsb (fun e => String.eqb (fst e) k) d.

(** The number of entries of [d] under the key [k]. *)
Definition entries_of (k : string) (d : categorized) : nat :=
  List.length (List.filter (fun e => String.eqb (fst e) k) d).

Section Categorize.
Variable U : Unicode.

(** [any(keyword in course_name for keyword in category_data['keywords'])] *)
Definition hits (course_name : pystr) (cat : Category) : bool :=
  existsb (fun keyword => contains keyword course_name) (keywords cat).

(** The inner [for ... break] over [registry]: the first category that
    hits. *)
Definition first_hit (registry : list Category) (course_name : pystr)
  : option Category :=
  find (hits course_name) registry.

(** The bucket a course goes to. *)
Definition bucket_of (registry : list Category) (course : Course) : string :=
  match first_hit registry (lower U (name course)) with
  | Some cat => c_key cat
  | None => "other"
  end.

Definition empty_buckets (registry : list Category) : categorized :=
  map (fun cat => (c_key cat, [])) registry ++ [("other", [])].

(** The body of [for course in all_courses]. *)
Definition assign (registry : list Category) (d : categorized)
  (course : Course) : categorized :=
  append (bucket_of registry course) course d.

Definition categorize_with (registry : list Category) (courses : list Course)
  : categorized :=
  fold_left (assign registry) courses (empty_buckets registry).

Definition categorize_subjects (cur : Curriculum) : categorized :=
  categorize_with categories (all_courses cur).

End Categorize.
End Categorizer.

(* ===================================================================== *)
(** ** [generate_recommendations] *)
(* ===================================================================== *)

Module Recommender.
Import Py Parser Categorizer PySort.

Record Profile := {
  p_key : string;
  p_keywords : list pystr;
  preferences : list string;
  p_description : pystr
}.

(** The dictionary [user_profiles], in insertion order. *)
Definition user_profiles : list Profile := [
  {| p_key := "fullstack_developer";
     p_keywords := [
       u "фуллстек"; u "fullstack"; u "full-stack"; u "full stack";
       u "разработчик"; u "программист"; u "developer"; u "programmer";
       u "фронтенд"; u "frontend"; u "front-end"; u "бэкенд"; u "backend";
       u "back-end"; u "сервисы"; u "services"; u "веб"; u "web";
       u "приложения"; u "applications"; u "инфраструктура";
       u "infrastructure"; u "devops";
       u "python"; u "javascript"; u "react"; u "node"; u "django";
       u "flask"; u "api"; u "rest"; u "микросервисы"; u "microservices";
       u "яндекс"; u "yandex"; u "опыт"; u "experience"; u "работаю";
       u "работал" ];
     preferences := ["programming"; "systems"; "machine_learning"];
     p_description := u "Fullstack разработчик" |};
  {| p_key := "ml_engineer";
     p_keywords := [
       u "ml engineer"; u "машинное обучение"; u "machine learning"; u "ml";
       u "модели"; u "models"; u "алгоритмы"; u "algorithms";
       u "нейронные сети"; u "deep learning"; u "глубокое обучение";
       u "tensorflow"; u "pytorch"; u "sklearn"; u "data science"; u "ai";
       u "artificial intelligence"; u "kaggle"; u "соревнования";
       u "competitions" ];
     preferences := ["machine_learning"; "programming"; "systems"];
     p_description := u "ML Engineer" |};
  {| p_key := "data_scientist";
     p_keywords := [
       u "data scientist"; u "данные"; u "data"; u "аналитик"; u "analyst";
       u "статистика"; u "statistics"; u "анализ данных"; u "data analysis";
       u "pandas"; u "numpy"; u "jupyter"; u "visualization";
       u "визуализация"; u "bi"; u "business intelligence"; u "дашборды";
       u "dashboards" ];
     preferences := ["data_science"; "machine_learning"; "programming"];
     p_description := u "Data Scientist" |};
  {| p_key := "cv_specialist";
     p_keywords := [
       u "computer vision"; u "компьютерное зрение"; u "cv";
       u "изображения"; u "images"; u "opencv"; u "обработка изображений";
       u "image processing"; u "распознавание"; u "recognition";
       u "детекция"; u "detection"; u "сегментация"; u "segmentation";
       u "yolo"; u "cnn" ];
     preferences := ["computer_vision"; "machine_learning"; "programming"];
     p_description := u "Computer Vision специалист" |};
  {| p_key := "nlp_specialist";
     p_keywords := [
       u "nlp"; u "natural language processing"; u "естественный язык";
       u "обработка языка"; u "текст"; u "text"; u "языковые модели";
       u "language models"; u "llm"; u "bert"; u "gpt"; u "transformers";
       u "чатботы"; u "chatbots"; u "sentiment"; u "тональность" ];
     preferences := ["nlp"; "machine_learning"; "programming"];
     p_description := u "NLP специалист" |};
  {| p_key := "product_manager";
     p_keywords := [
       u "product manager"; u "продукт"; u "product"; u "менеджер";
       u "manager"; u "управление"; u "management"; u "бизнес";
       u "business"; u "стратегия"; u "strategy"; u "roadmap";
       u "планирование"; u "planning"; u "продуктовый"; u "аналитика";
       u "analytics"; u "метрики"; u "metrics"; u "a/b тесты" ];
     preferences := ["product"; "data_science"; "machine_learning"];
     p_description := u "Product Manager" |};
  {| p_key := "systems_architect";
     p_keywords := [
       u "архитектор"; u "architect"; u "системы"; u "systems";
       u "архитектура"; u "architecture"; u "высоконагруженные";
       u "highload"; u "high-load"; u "масштабирование"; u "scaling";
       u "производительность"; u "performance"; u "инфраструктура";
       u "infrastructure"; u "облако"; u "cloud"; u "kubernetes";
       u "docker"; u "микросервисы" ];
     preferences := ["systems"; "programming"; "machine_learning"];
     p_description := u "Системный архитектор" |};
  {| p_key := "backend_developer";
     p_keywords := [
       u "backend"; u "бэкенд"; u "серверная разработка"; u "server-side";
       u "api"; u "rest"; u "graphql"; u "базы данных"; u "databases";
       u "postgresql"; u "mysql"; u "mongodb"; u "redis"; u "java"; u "go";
       u "c#"; u "node.js"; u "spring" ];
     preferences := ["programming"; "systems"; "data_science"];
     p_description := u "Backend разработчик" |};
  {| p_key := "frontend_developer";
     p_keywords := [
       u "frontend"; u "фронтенд"; u "клиентская разработка";
       u "client-side"; u "react"; u "vue"; u "angular"; u "javascript";
       u "typescript"; u "html"; u "css"; u "ui"; u "ux"; u "интерфейсы";
       u "interfaces" ];
     preferences := ["programming"; "product"; "machine_learning"];
     p_description := u "Frontend разработчик" |};
  {| p_key := "mobile_developer";
     p_keywords := [
       u "mobile"; u "мобильная разработка"; u "android"; u "ios";
       u "react native"; u "flutter"; u "swift"; u "kotlin"; u "приложения";
       u "apps"; u "мобильные приложения" ];
     preferences := ["programming"; "product"; "systems"];
     p_description := u "Mobile разработчик" |};
  {| p_key := "devops_engineer";
     p_keywords := [
       u "devops"; u "деплой"; u "deployment"; u "ci/cd"; u "jenkins";
       u "gitlab"; u "github actions"; u "terraform"; u "ansible";
       u "мониторинг"; u "monitoring"; u "логирование"; u "logging" ];
     preferences := ["systems"; "programming"; "machine_learning"];
     p_description := u "DevOps Engineer" |};
  {| p_key := "qa_engineer";
     p_keywords := [
       u "qa"; u "тестирование"; u "testing"; u "автотесты"; u "automation";
       u "selenium"; u "pytest"; u "качество"; u "quality assurance";
       u "баги"; u "bugs"; u "тест-кейсы"; u "test cases" ];
     preferences := ["programming"; "systems"; "product"];
     p_description := u "QA Engineer" |};
  {| p_key := "business_analyst";
     p_keywords := [
       u "business analyst"; u "бизнес-аналитик"; u "аналитик";
       u "требования"; u "requirements"; u "процессы"; u "processes";
       u "документация"; u "documentation"; u "stakeholders" ];
     preferences := ["product"; "data_science"; "programming"];
     p_description := u "Бизнес-аналитик" |};
  {| p_key := "researcher";
     p_keywords := [
       u "исследователь"; u "researcher"; u "наука"; u "science";
       u "исследования"; u "research"; u "публикации"; u "papers";
       u "эксперименты"; u "experiments"; u "phd"; u "кандидат наук" ];
     preferences := ["machine_learning"; "data_science"; "programming"];
     p_description := u "Исследователь" |};
  {| p_key := "student";
     p_keywords := [
       u "студент"; u "student"; u "учусь"; u "studying"; u "университет";
       u "вуз"; u "институт"; u "курсовые"; u "дипломная"; u "thesis";
       u "бакалавр"; u "bachelor"; u "магистр"; u "master" ];
     preferences := ["machine_learning"; "programming"; "data_science"];
     p_description := u "Студент" |}
].

(** *** Scores

    A score is the integer 0 or a binary64 float; 0 is kept as the float
    0, which compares the same. *)

Definition float_of_nat (n : nat) : float :=
  of_uint63 (Uint63.of_Z (Z.of_nat n)).

(** The bonus step [if score > 0: score = score * (1 +
    len(matched_keywords) * 0.1)]; the literal is the double [0.1]. *)
Definition adjust (score n_matched : nat) : float :=
  match score with
  | O => 0%float
  | S _ =>
    (float_of_nat score
     * (1 + float_of_nat n_matched * 0x1.999999999999ap-4))%float
  end.

(** The score of a profile with [n] matched keywords. *)
Definition adjusted (n : nat) : float := adjust n n.

Record ProfileScore := {
  score : float;
  matched_keywords : list pystr
}.

Record Recommendation := {
  subject : Course;
  category : string;
  reason : pystr;
  priority : Z
}.

Record Analysis := {
  total_courses : nat;
  n_elective_courses : nat;
  categories_found : nat
}.

Record Result := {
  user_profile : pystr;
  dominant_profile_key : option string;
  profile_scores : list (string * float);
  r_matched_keywords : list pystr;
  recommendations : list Recommendation;
  category_distribution : list (string * nat);
  analysis : Analysis
}.

(** The sort key of the final ranking, [(priority, credits)]. *)
Definition rank_key (r : Recommendation) : Z * Z :=
  (priority r, credits (subject r)).

Section Recommend.
Variable U : Unicode.

(** One iteration of [for keyword in profile_data['keywords']]; the state
    is [(score, matched_keywords)]. *)
Definition count_keyword (background_lower : pystr)
  (st : nat * list pystr) (keyword : pystr) : nat * list pystr :=
  if contains keyword background_lower
  then (S (fst st), snd st ++ [keyword])
  else st.

(** One iteration of the scoring loop. *)
Definition score_profile (background_lower : pystr) (p : Profile)
  : ProfileScore :=
  let '(n, matched) :=
    fold_left (count_keyword background_lower) (p_keywords p) (O, []) in
  {| score := adjust n (List.length matched); matched_keywords := matched |}.

Definition score_all (registry : list Profile) (background_lower : pystr)
  : list (string * ProfileScore) :=
  map (fun p => (p_key p, score_profile background_lower p)) registry.

(** One iteration of the loop that finds the dominant profile; the state
    is [(best_profile, best_score)]. *)
Definition better (st : option string * float) (e : string * ProfileScore)
  : option string * float :=
  if (snd st <? score (snd e))%float then (Some (fst e), score (snd e))
  else st.

Definition find_best (scores : list (string * ProfileScore))
  : option string * float :=
  fold_left better scores (None, 0%float).

(** Truth value of [best_profile] / [dominant_profile]: [None] and the
    empty string are false. *)
Definition truthy (k : option string) : bool :=
  match k with
  | Some s => negb (String.eqb s "")
  | None => false
  end.

Definition lookup_profile (registry : list Profile) (k : string)
  : option Profile :=
  find (fun p => String.eqb (p_key p) k) registry.

(** [(dominant_profile, preferences, profile_description)] *)
Definition resolve (registry : list Profile) (background_lower : pystr)
  : option string * list string * pystr :=
  let '(best_profile, best_score) :=
    find_best (score_all registry background_lower) in
  let fallback :=
    if existsb (fun word => contains word background_lower)
         [u "программист"; u "разработчик"; u "developer"; u "код";
          u "code"]
    then (Some "general_developer",
          ["programming"; "systems"; "machine_learning"],
          u "Разработчик (общий профиль)")
    else (None, ["machine_learning"; "programming"; "data_science"],
          u "Не определен") in
  if truthy best_profile && (0 <? best_score)%float then
    match best_profile with
    | Some k =>
      match lookup_profile registry k with
      | Some p => (Some k, preferences p, p_description p)
      | None => fallback
      end
    | None => fallback
    end
  else fallback.

Definition base_reason (dominant_profile : option string)
  (profile_description : pystr) : pystr :=
  if truthy dominant_profile
  then u "Рекомендовано для " ++ profile_description
  else u "Базовая рекомендация".

Definition reason_at (dominant_profile : option string)
  (profile_description : pystr) (i : Z) : pystr :=
  let reason := base_reason dominant_profile profile_description in
  if i =? 0 then reason ++ u " (приоритетная область)" else reason.

(** [elective_subjects[:limit]] for the category at position [i]. *)
Definition top_electives (cats : categorized) (i : Z) (cat : string)
  : list Course :=
  let subjects := get cat cats in
  let elective_subjects :=
    List.filter (fun s => section_eqb (type s) elective) subjects in
  let sorted := sort_desc Z.ltb credits elective_subjects in
  let limit := Z.max 1 (4 - i) in
  firstn (Z.to_nat limit) sorted.

Definition recommend (dominant_profile : option string)
  (profile_description : pystr) (n_preferences : Z) (i : Z) (cat : string)
  (s : Course) : Recommendation :=
  {| subject := s; category := cat;
     reason := reason_at dominant_profile profile_description i;
     priority := n_preferences - i |}.

(** [for i, category in enumerate(preferences)], from position [i] on,
    appending to [recs]. *)
Fixpoint collect (dominant_profile : option string)
  (profile_description : pystr) (cats : categorized) (n_preferences : Z)
  (i : Z) (prefs : list string) (recs : list Recommendation)
  : list Recommendation :=
  match prefs with
  | [] => recs
  | cat :: rest =>
    collect dominant_profile profile_description cats n_preferences
      (i + 1) rest
      (recs ++ map (recommend dominant_profile profile_description
                      n_preferences i cat)
                   (top_electives cats i cat))
  end.

(** The candidate pool before the final sort. *)
Definition candidates (registry : list Profile) (background_text : pystr)
  (cur : Curriculum) : list Recommendation :=
  let '(dominant_profile, prefs, profile_description) :=
    resolve registry (lower U background_text) in
  collect dominant_profile profile_description (categorize_subjects U cur)
    (Z.of_nat (List.length prefs)) 0 prefs [].

Definition generate_with (registry : list Profile) (background_text : pystr)
  (cur : Curriculum) : Result :=
  let background_lower := lower U background_text in
  let scores := score_all registry background_lower in
  let best_profile := fst (find_best scores) in
  let '(dominant_profile, prefs, profile_description) :=
    resolve registry background_lower in
  let cats := categorize_subjects U cur in
  let recs := candidates registry background_text cur in
  let recs := sort_desc pair_ltb rank_key recs in
  {| user_profile := profile_description;
     dominant_profile_key := dominant_profile;
     profile_scores := map (fun e => (fst e, score (snd e))) scores;
     r_matched_keywords :=
       if truthy best_profile then
         match best_profile with
         | Some k =>
           match find (fun e => String.eqb (fst e) k) scores with
           | Some e => matched_keywords (snd e)
           | None => []
           end
         | None => []
         end
       else [];
     recommendations := firstn 10 recs;
     category_distribution := map (fun e => (fst e, List.length (snd e))) cats;
     analysis :=
       {| total_courses := List.length (all_courses cur);
          n_elective_courses := List.length (elective_courses cur);
          categories_found :=
            List.length
              (List.filter (fun e => negb (Nat.eqb (List.length (snd e)) 0))
                           cats) |} |}.

Definition generate_recommendations (background_text : pystr)
  (cur : Curriculum) : Result :=
  generate_with user_profiles background_text cur.

End Recommend.
End Recommender.

(* ===================================================================== *)
(** ** [bot.py]: the question matcher of [ITMOChatBot] *)
(* ===================================================================== *)

Module Bot.
Import Py.

(** [self.relevant_keywords]; a set in the program, and only ever asked
    whether some member occurs in the question. *)
Definition relevant_keywords : list pystr := [
  u "поступление"; u "поступить"; u "экзамен"; u "экзамены";
  u "магистратура"; u "обучение"; u "программа"; u "программы";
  u "диплом"; u "стипендия"; u "карьера"; u "образование"; u "учеба";
  u "учебный"; u "план"; u "планы";
  u "курс"; u "курсы"; u "предмет"; u "предметы"; u "дисциплина";
  u "дисциплины"; u "проект"; u "практика"; u "стажировка";
  u "искусственный интеллект"; u "ии"; u "ai"; u "машинное обучение";
  u "ml"; u "продукт"; u "продуктовый";
  u "высоконагруженные"; u "системы"; u "highload";
  u "программное обеспечение"; u "по";
  u "итмо"; u "itmo"; u "университет"; u "вуз"; u "институт";
  u "содержание"; u "содержании"; u "что изучают"; u "что изучается";
  u "чему учат"; u "чему обучают";
  u "количество"; u "сколько"; u "места"; u "мест"; u "бюджет";
  u "бюджетные"; u "платные";
  u "стоимость"; u "цена"; u "оплата"; u "стоит"; u "стоимости";
  u "требования"; u "условия"; u "как поступить"; u "документы";
  u "длительность"; u "срок"; u "года"; u "лет"; u "семестр"; u "семестры";
  u "преподаватели"; u "кафедра"; u "факультет"; u "направление";
  u "выпускники"; u "трудоустройство"; u "работа"; u "карьера"
].

Record FaqItem := {
  question : pystr;
  answer : pystr
}.

(** A value of [self.programs_data]; the key ['faq'] may be missing. *)
Record Program := {
  faq : option (list FaqItem)
}.

(** The dictionary a match is returned as. A score is a finite double and
    is carried as the rational number it denotes, so that [>] on scores is
    [<] on [Q]. *)
Record Match := {
  m_question : pystr;
  m_answer : pystr;
  m_program : pystr;
  m_score : Q;
  matched_words : list pystr
}.

(** The literal [0.2], i.e. the double [0x1.999999999999ap-3]. *)
Definition floor : Q := 3602879701896397 # 18014398509481984.

Definition Qgtb (a b : Q) : bool := negb (Qle_bool a b).

(** *** Scoring as an observable effect

    Every evaluation of the composite score is recorded in a log of the
    entries scored so far, threaded through the matcher. *)
Definition Log := list (pystr * FaqItem).
Definition M (A : Type) : Type := Log -> A * Log.

Definition ret {A} (a : A) : M A := fun log => (a, log).
Definition bind {A B} (m : M A) (f : A -> M B) : M B :=
  fun log => let '(a, log') := m log in f a log'.
Definition record_scored (e : pystr * FaqItem) : M unit :=
  fun log => (tt, log ++ [e]).

Notation "'run' x <- m 'in' k" := (bind m (fun x => k))
  (at level 10, x name, m at level 100, k at level 200).

(** [for x in l: s = body(s, x)] *)
Fixpoint for_each {A S} (body : S -> A -> M S) (l : list A) (s : S) : M S :=
  match l with
  | [] => ret s
  | x :: r => run s' <- body s x in for_each body r s'
  end.

Section Matcher.
Variable U : Unicode.

(** The composite score of lines 99-137, a function of the lower-cased
    question and the entry ([difflib] and the float arithmetic are the
    interpreter's), and the list made of the set [common_words]. *)
Variable total_score : pystr -> FaqItem -> Q.
Variable common_words : pystr -> FaqItem -> list pystr.

Variable programs_data : list (pystr * Program).

Definition is_relevant_question (q : pystr) : bool :=
  let question_lower := lower U q in
  existsb (fun keyword => contains keyword question_lower) relevant_keywords.

Definition score_entry (question_lower program_name : pystr)
  (faq_item : FaqItem) : M Q :=
  run _ <- record_scored (program_name, faq_item) in
  ret (total_score question_lower faq_item).

Definition make_match (question_lower program_name : pystr)
  (faq_item : FaqItem) : Match :=
  {| m_question := question faq_item;
     m_answer := answer faq_item;
     m_program := program_name;
     m_score := total_score question_lower faq_item;
     matched_words := common_words question_lower faq_item |}.

(** The body of [for faq_item in program_data['faq']]; the state is
    [(best_match, best_score)]. *)
Definition consider (question_lower program_name : pystr)
  (st : option Match * Q) (faq_item : FaqItem) : M (option Match * Q) :=
  run total <- score_entry question_lower program_name faq_item in
  if Qgtb total (snd st) && Qgtb total floor
  then ret (Some (make_match question_lower program_name faq_item), total)
  else ret st.

(** The body of [for program_name, program_data in ....items()]. *)
Definition scan_program (question_lower : pystr) (st : option Match * Q)
  (p : pystr * Program) : M (option Match * Q) :=
  match faq (snd p) with
  | None => ret st
  | Some items => for_each (consider question_lower (fst p)) items st
  end.

Definition find_best_answer (q : pystr) : M (option Match) :=
  if negb (is_relevant_question q) then ret None
  else
    let question_lower := lower U q in
    run st <- for_each (scan_program question_lower) programs_data
                (None, 0%Q) in
    ret (fst st).

(** The entries in the order the scan meets them. *)
Definition entries : list (pystr * FaqItem) :=
  flat_map (fun p => match faq (snd p) with
                     | None => []
                     | Some items => map (fun i => (fst p, i)) items
                     end) programs_data.

End Matcher.
End Bot.

(* ===================================================================== *)
(** ** Vocabulary of the properties *)
(* ===================================================================== *)

Module Spec.
Import Py Re Parser Categorizer Recommender PySort Bot.

(** *** Curriculum lines *)




(** [line] contains a digit sequence followed, after optional whitespace,
    by the semester marker. *)
Definition has_semester_marker (U : Unicode) (line : pystr) : Prop :=
  exists pre ds ws post,
    line = pre ++ ds ++ ws ++ u "семестр" ++ post /\
    ds <> [] /\ forallb (is_decimal U) ds = true /\
    forallb is_space ws = true.

(** *** Buckets *)

Definition bucket_keys : list string :=
  ["machine_learning"; "programming"; "computer_vision"; "nlp";
   "data_science"; "systems"; "product"; "other"].

Definition total_size (d : categorized) : nat :=
  list_sum (map (fun e => List.length (snd e)) d).

(** [k] is the key of the earliest category of the registry with a keyword
    inside the lower-cased name of [c], or ["other"] when there is none. *)
Definition earliest_hit (U : Unicode) (c : Course) (k : string) : Prop :=
  let nm := lower U (name c) in
  (exists pre cat post,
      categories = pre ++ cat :: post /\ c_key cat = k /\
      hits nm cat = true /\
      Forall (fun cat' => hits nm cat' = false) pre)
  \/ (k = "other" /\ Forall (fun cat' => hits nm cat' = false) categories).

(** *** Rankings *)

Definition credits_desc (l : list Course) : Prop :=
  StronglySorted (fun a b => credits b <= credits a) l.

(** Courses with equal credits are in [l'] in the order they have in
    [l]. *)
Definition keeps_ties (l' l : list Course) : Prop :=
  forall k, List.filter (fun c => credits c =? k) l'
            = List.filter (fun c => credits c =? k) l.

(** [a] ranks at least as high as [b] under the key (priority, credits). *)
Definition rank_ge (a b : Recommendation) : Prop :=
  priority b < priority a \/
  (priority b = priority a /\ credits (subject b) <= credits (subject a)).

(** [enumerate(l, start=i)] and [enumerate(l)] *)
Fixpoint enumerate_from {A} (i : Z) (l : list A) : list (Z * A) :=
  match l with
  | [] => []
  | x :: r => (i, x) :: enumerate_from (i + 1) r
  end.

Definition enumerate {A} (l : list A) : list (Z * A) := enumerate_from 0 l.

(** The recommendations made for the category at position [fst e]. *)
Definition picks (dominant_profile : option string)
  (profile_description : pystr) (cats : categorized) (n_preferences : Z)
  (e : Z * string) : list Recommendation :=
  map (recommend dominant_profile profile_description n_preferences
         (fst e) (snd e))
      (top_electives cats (fst e) (snd e)).

Definition baseline : pystr := u "Базовая рекомендация".
Definition top_area : pystr := u " (приоритетная область)".

Definition electives_of (cats : categorized) (cat : string) : list Course :=
  List.filter (fun s => section_eqb (type s) elective) (get cat cats).

(** *** Profiles *)

(** The number of distinct keywords of [p] occurring in the text. *)
Definition raw_score (background_lower : pystr) (p : Profile) : nat :=
  List.length
    (List.filter (fun keyword => contains keyword background_lower)
                 (p_keywords p)).

(** [r] is the stable arg-max of the scores [l] under the order [lt]:
    the first entry with a positive score that no entry exceeds. *)
Definition stable_argmax {V} (lt : V -> V -> Prop) (zero : V)
  (l : list (string * V)) (r : option string) : Prop :=
  match r with
  | Some k =>
    exists pre v post,
      l = pre ++ (k, v) :: post /\ lt zero v /\
      Forall (fun e => lt (snd e) v) pre /\
      Forall (fun e => ~ lt v (snd e)) post
  | None => Forall (fun e => ~ lt zero (snd e)) l
  end.

(** The state [(best, best_score)] of an arg-max loop after the entries
    [l]. *)
Definition argmax_state {V} (lt : V -> V -> Prop) (zero : V)
  (l : list (string * V)) (st : option string * V) : Prop :=
  match fst st with
  | Some k =>
    exists pre post,
      l = pre ++ (k, snd st) :: post /\ lt zero (snd st) /\
      Forall (fun e => lt (snd e) (snd st)) pre /\
      Forall (fun e => ~ lt (snd st) (snd e)) post
  | None => snd st = zero /\ Forall (fun e => ~ lt zero (snd e)) l
  end.

Definition float_lt (a b : float) : Prop := (a <? b)%float = true.

(** The running arg-max over raw counts: a later entry replaces the best
    one only with a strictly greater count. *)
Definition better_raw (st : option string * nat) (e : string * nat)
  : option string * nat :=
  if (snd st <? snd e)%nat then (Some (fst e), snd e) else st.

Definition raw_scores (registry : list Profile) (background_lower : pystr)
  : list (string * nat) :=
  map (fun p => (p_key p, raw_score background_lower p)) registry.

Definition adjusted_scores (registry : list Profile)
  (background_lower : pystr) : list (string * float) :=
  map (fun p => (p_key p, score (score_profile background_lower p)))
      registry.

(** The longest keyword list of the registry. *)
Definition max_keywords : nat := 39.

(** On counts up to [bound], [<] on adjusted scores is [<] on counts. *)
Definition order_agrees (bound : nat) : bool :=
  forallb (fun a =>
    forallb (fun b =>
      Bool.eqb (adjusted a <? adjusted b)%float (a <? b)%nat)
      (seq 0 (S bound)))
    (seq 0 (S bound)).

Fixpoint distinct (l : list pystr) : bool :=
  match l with
  | [] => true
  | x :: r => negb (existsb (str_eqb x) r) && distinct r
  end.

(** *** Question matching *)

(** One step of the scan over the entries [(program, item)], without the
    log. *)
Definition consider_entry (total_score : pystr -> FaqItem -> Q)
  (common_words : pystr -> FaqItem -> list pystr) (question_lower : pystr)
  (st : option Match * Q) (e : pystr * FaqItem) : option Match * Q :=
  let total := total_score question_lower (snd e) in
  if Qgtb total (snd st) && Qgtb total floor
  then (Some (make_match total_score common_words question_lower
                (fst e) (snd e)), total)
  else st.

(** The state [(best_match, best_score)] after the entries [seen]: either
    nothing cleared the floor, or the best match is the first entry of
    greatest score, and that score is above the floor. *)
Definition best_state (total_score : pystr -> FaqItem -> Q)
  (common_words : pystr -> FaqItem -> list pystr) (question_lower : pystr)
  (seen : list (pystr * FaqItem)) (st : option Match * Q) : Prop :=
  let sc := fun e : pystr * FaqItem => total_score question_lower (snd e) in
  match fst st with
  | Some m =>
    exists pre e post,
      seen = pre ++ e :: post /\
      m = make_match total_score common_words question_lower
            (fst e) (snd e) /\
      snd st = sc e /\ Qlt floor (sc e) /\
      Forall (fun x => Qlt (sc x) (sc e)) pre /\
      Forall (fun x => Qle (sc x) (sc e)) post
  | None => snd st = 0%Q /\ Forall (fun x => Qle (sc x) floor) seen
  end.

(** *** Examples *)

Definition sample_programs : list (pystr * Program) :=
  [ (u "Искусственный интеллект",
     {| faq := Some [ {| question := u "Сколько стоит обучение?";
                         answer := u "Стоимость указана на сайте" |};
                      {| question := u "Какие экзамены нужно сдавать?";
                         answer := u "Вступительный экзамен" |} ] |});
    (u "Управление продуктами", {| faq := None |}) ].

Definition greeting : pystr := u "Привет как дела?".

Definition unit_score (_ : pystr) (_ : FaqItem) : Q := 1%Q.
Definition no_words (_ : pystr) (_ : FaqItem) : list pystr := [].


Definition course (n : string) (cr : Z) (t : section) : Course :=
  {| name := u n; credits := cr; hours := 0; semester := 1; type := t |}.

Definition sample_curriculum : Curriculum :=
  {| program_name := u "Искусственный интеллект";
     semesters := ∅;
     elective_courses := [];
     mandatory_courses := [];
     all_courses :=
       [ course "Машинное обучение" 6 elective;
         course "Deep Learning" 6 elective;
         course "Python" 3 elective;
         course "Анализ данных" 4 elective;
         course "ML ops" 8 mandatory;
         course "История" 2 elective ] |}.

Definition plain_bio : pystr := u "Просто интересуюсь технологиями".

Definition sample_rec : Recommendation :=
  {| subject := course "Машинное обучение" 6 elective;
     category := "machine_learning";
     reason := u "Базовая рекомендация (приоритетная область)";
     priority := 3 |}.

Definition sample_text : pystr :=
  u "1 семестр
Обязательные дисциплины
1Воркшоп по созданию продукта 3108
Пул выборных дисциплин
2Машинное обучение 1306
2 Этика 3".

Definition sample_course : Course :=
  {| name := u "Машинное обучение"; credits := 1; hours := 306;
     semester := 2; type := elective |}.

(** Five machine-learning electives with credits 6, 8, 2, 6, 4, then
    courses of other categories. *)
Definition ranking_curriculum : Curriculum :=
  {| program_name := [];
     semesters := ∅;
     elective_courses := [];
     mandatory_courses := [];
     all_courses :=
       [ course "ML 1" 6 elective; course "ML 2" 8 elective;
         course "ML 3" 2 elective; course "ML 4" 6 elective;
         course "ML 5" 4 elective; course "Python" 3 elective;
         course "Анализ данных" 4 elective;
         course "Data engineering" 5 elective;
         course "Статистика" 5 elective; course "Big Data" 1 elective;
         course "Unix" 9 elective ] |}.

Definition course_fields (c : Course) : pystr * Z * Z * Z * section :=
  (name c, credits c, hours c, semester c, type c).

Definition rec_fields (r : Recommendation) : pystr * Z * string * Z :=
  (name (subject r), credits (subject r), category r, priority r).

Definition marker_line : pystr := u "  1 Курс 2 семестра 3108 ".

(** A marker line whose digit sequence has 4301 digits. *)
Definition long_marker_line : pystr :=
  repeat 49%N 4301 ++ u " семестр".

End Spec.

(* ===================================================================== *)
(** ** [bot.py]: program match and the profile store *)
(* ===================================================================== *)

Module Advisor.
Import Py.

(** The keys of a program record that [calculate_program_match] reads;
    a missing key is [None]. *)
Record ProgramData := {
  title : option pystr;
  description : option pystr
}.

(** [d.get(k, '')] *)
Definition get_str (v : option pystr) : pystr :=
  match v with
  | Some s => s
  | None => []
  end.

(** [any(word in s for word in words)] *)
Definition any_in (words : list pystr) (s : pystr) : bool :=
  existsb (fun word => contains word s) words.

Section Match.
Variable U : Unicode.

(** [ITMOChatBot.calculate_program_match] *)
Definition calculate_program_match (background : pystr)
  (program_data : ProgramData) : Z :=
  let background_lower := lower U background in
  let score := 50 in
  let description := lower U (get_str (description program_data)) in
  let title_has := fun w : pystr =>
    contains w (lower U (get_str (title program_data))) in
  let score :=
    if any_in [u "программист"; u "разработчик"; u "python"; u "код"]
              background_lower then
      if title_has (u "искусственный интеллект") then score + 35
      else if title_has (u "программное обеспечение") then score + 30
      else if title_has (u "продукт") then score - 5
      else score
    else if any_in [u "менеджер"; u "продукт"; u "product"; u "бизнес"]
                   background_lower then
      if title_has (u "продукт") then score + 35
      else if title_has (u "искусственный интеллект") then score - 5
      else score
    else if any_in [u "системы"; u "архитектура"; u "highload";
                    u "нагрузка"] background_lower then
      if title_has (u "высоконагруженные") then score + 40
      else score
    else score in
  Z.min 100 (Z.max 0 score).

End Match.

(** *** The profile store *)

Record UserProfile := {
  background : pystr;
  interests : list pystr;
  experience_level : pystr;
  preferred_program : pystr
}.

(** [UserProfile()], after [__post_init__]. *)
Definition new_profile : UserProfile :=
  {| background := []; interests := []; experience_level := [];
     preferred_program := [] |}.

(** [sep.join(parts)] *)
Fixpoint join (sep : pystr) (parts : list pystr) : pystr :=
  match parts with
  | [] => []
  | [p] => p
  | p :: rest => p ++ sep ++ join sep rest
  end.

Definition usage_reply : pystr :=
  u "Пожалуйста, укажите ваш бэкграунд после команды.
Например: `/profile Я программист на Python с опытом 3 года`".

Definition updated_reply (bg : pystr) : pystr :=
  u "✅ **Профиль обновлен!**

Ваш бэкграунд: " ++ bg ++ u "

Теперь вы можете получить персонализированные рекомендации с помощью кнопки 'Получить рекомендации' или команды /recommendations".

(** [profile_handler]: the new value of [self.user_profiles] and the text
    replied, from the user id and [context.args]. *)
Definition profile_handler (user_profiles : gmap Z UserProfile)
  (user_id : Z) (args : list pystr) : gmap Z UserProfile * pystr :=
  match args with
  | [] => (user_profiles, usage_reply)
  | _ :: _ =>
    let bg := join (u " ") args in
    let profiles :=
      match user_profiles !! user_id with
      | Some _ => user_profiles
      | None => <[ user_id := new_profile ]> user_profiles
      end in
    let profiles :=
      match profiles !! user_id with
      | Some p =>
        <[ user_id := {| background := bg;
                         interests := interests p;
                         experience_level := experience_level p;
                         preferred_program := preferred_program p |} ]>
          profiles
      | None => profiles
      end in
    (profiles, updated_reply bg)
  end.

(** [self.user_profiles.get(user_id, UserProfile())] *)
Definition profile_of (user_profiles : gmap Z UserProfile) (user_id : Z)
  : UserProfile :=
  match user_profiles !! user_id with
  | Some p => p
  | None => new_profile
  end.

End Advisor.

(* ===================================================================== *)
(** ** [final_demo.py]: program match *)
(* ===================================================================== *)

Module Demo.
Import Py Advisor.

Section Match.
Variable U : Unicode.

(** The module-level [calculate_program_match]. *)
Definition calculate_program_match (background : pystr)
  (program_data : ProgramData) : Z :=
  let background_lower := lower U background in
  let score := 50 in
  let title_has := fun w : pystr =>
    contains w (lower U (get_str (title program_data))) in
  let score :=
    if any_in [u "программист"; u "разработчик"; u "python"; u "код"]
              background_lower then
      if title_has (u "искусственный интеллект") then score + 35
      else if title_has (u "программное обеспечение") then score + 30
      else if title_has (u "продукт") then score - 5
      else score
    else if any_in [u "менеджер"; u "продукт"; u "product"; u "бизнес"]
                   background_lower then
      if title_has (u "продукт") then score + 35
      else if title_has (u "искусственный интеллект") then score - 5
      else score
    else if any_in [u "системы"; u "архитектура"; u "highload";
                    u "нагрузка"] background_lower then
      if title_has (u "высоконагруженные") then score + 40
      else score
    else score in
  Z.min 100 (Z.max 0 score).

End Match.
End Demo.

(* ===================================================================== *)
(** ** [bot.py]: what [get_recommendations] shows *)
(* ===================================================================== *)

Module Render.
Import Py PySort Recommender.

(** [s.replace(old, new)] for a one-character [old]. *)
Definition replace_char (old : char) (new s : pystr) : pystr :=
  flat_map (fun c => if char_eqb c old then new else [c]) s.

Definition backslash : char := 92%N.
Definition star : char := 42%N.
Definition underscore : char := 95%N.
Definition lbracket : char := 91%N.
Definition rbracket : char := 93%N.
Definition lparen : char := 40%N.
Definition rparen : char := 41%N.

(** The chain of six [replace] calls applied to [rec['name']]. *)
Definition escape_name (name : pystr) : pystr :=
  replace_char rparen [backslash; rparen]
    (replace_char lparen [backslash; lparen]
      (replace_char rbracket [backslash; rbracket]
        (replace_char lbracket [backslash; lbracket]
          (replace_char underscore [backslash; underscore]
            (replace_char star [backslash; star] name))))).

(** [recs.get('recommendations', [])[:8]] *)
Definition shown (recs : Result) : list Recommendation :=
  firstn 8 (recommendations recs).

(** The pairs [top_categories] is formatted from: of the distribution
    sorted by count, descending, the first five, those among them with a
    count above 0. *)
Definition top_categories (cat_dist : list (string * nat))
  : list (string * nat) :=
  let sorted_categories := sort_desc Nat.ltb snd cat_dist in
  List.filter (fun e => Nat.ltb 0 (snd e)) (firstn 5 sorted_categories).

End Render.

(* ===================================================================== *)
(** ** Vocabulary of the further properties *)
(* ===================================================================== *)

Module Terms.
Import Py Re Parser Categorizer Recommender PySort Bot Spec Advisor Render.

(** *** Curricula *)

Definition of_type (t : section) (l : list Course) : list Course :=
  List.filter (fun c => section_eqb (type c) t) l.

Definition of_semester (n : Z) (l : list Course) : list Course :=
  List.filter (fun c => semester c =? n) l.

(** The three lists and the semester buckets of a curriculum agree. *)
Definition lists_agree (cur : Curriculum) : Prop :=
  mandatory_courses cur = of_type mandatory (all_courses cur) /\
  elective_courses cur = of_type elective (all_courses cur).

Definition buckets_agree (cur : Curriculum) : Prop :=
  (forall c, In c (all_courses cur) ->
             semesters cur !! semester c <> None) /\
  (forall n b, semesters cur !! n = Some b ->
     b_mandatory b = of_semester n (mandatory_courses cur) /\
     b_elective b = of_semester n (elective_courses cur)).

(** The shape [course_re] asks of a line. *)
Definition course_shape (U : Unicode) (line : pystr) : Prop :=
  exists lead nm ws tok tail,
    line = lead ++ nm ++ ws ++ tok ++ tail /\
    lead <> [] /\ forallb (is_decimal U) lead = true /\
    nm <> [] /\ forallb dot nm = true /\
    ws <> [] /\ forallb is_space ws = true /\
    tok <> [] /\ forallb (is_decimal U) tok = true /\
    forallb is_space tail = true.

(** Decimal digits have the values 0 to 9. *)
Definition digit_values (U : Unicode) : Prop :=
  forall c, is_decimal U c = true -> 0 <= decimal_value U c <= 9.

Definition no_digit (U : Unicode) (s : pystr) : bool :=
  forallb (fun c => negb (is_decimal U c)) s.

(** *** Profiles *)

(** Some keyword of some profile of the registry occurs in the text. *)
Definition keyword_occurs (background_lower : pystr) : Prop :=
  exists p kw,
    In p user_profiles /\ In kw (p_keywords p) /\
    contains kw background_lower = true.

(** What [generate_recommendations] falls back to when no profile
    scores. *)
Definition fallback (background_lower : pystr)
  : option string * list string * pystr :=
  if existsb (fun word => contains word background_lower)
       [u "программист"; u "разработчик"; u "developer"; u "код";
        u "code"]
  then (Some "general_developer",
        ["programming"; "systems"; "machine_learning"],
        u "Разработчик (общий профиль)")
  else (None, ["machine_learning"; "programming"; "data_science"],
        u "Не определен").

Definition count_of (k : string) (d : list (string * nat)) : nat :=
  match find (fun e => String.eqb (fst e) k) d with
  | Some e => snd e
  | None => O
  end.

(** *** Examples *)

Definition header_state : State :=
  {| curriculum := curriculum (initial_state []);
     current_semester := None;
     current_section := Some elective |}.

Definition workshop_lines : list pystr := [u "2 Этика 3"].

Definition workshop_line : pystr := u "1Воркшоп по ML 3108".

Definition workshop_course : Course :=
  {| name := u "Воркшоп по ML"; credits := 3; hours := 108; semester := 1;
     type := elective |}.

Definition prose : pystr :=
  u "Обязательные дисциплины
Машинное обучение и анализ данных".

Definition alice : Z := 1001.
Definition bob : Z := 1002.

(** *** Program match *)

Definition developer_words : list pystr :=
  [u "программист"; u "разработчик"; u "python"; u "код"].
Definition manager_words : list pystr :=
  [u "менеджер"; u "продукт"; u "product"; u "бизнес"].
Definition systems_words : list pystr :=
  [u "системы"; u "архитектура"; u "highload"; u "нагрузка"].

Definition title_has (U : Unicode) (program_data : ProgramData)
  (w : pystr) : bool :=
  contains w (lower U (get_str (title program_data))).

(** The number of FAQ items of a program. *)
Definition faq_size (p : pystr * Program) : nat :=
  match faq (snd p) with
  | Some items => List.length items
  | None => O
  end.

(** *** Escaped names *)

(** The six characters that are escaped. *)
Definition special (c : char) : bool :=
  existsb (char_eqb c)
    [star; underscore; lbracket; rbracket; lparen; rparen].

Definition escape_one (c : char) : pystr :=
  if special c then [backslash; c] else [c].

(** Every special character of [s] stands right after a backslash;
    [after_backslash] tells whether [s] itself does. *)
Fixpoint guarded (after_backslash : bool) (s : pystr) : bool :=
  match s with
  | [] => true
  | c :: r =>
    (negb (special c) || after_backslash)
    && guarded (char_eqb c backslash) r
  end.

(** Drops the backslash in front of a special character. *)
Fixpoint unescape (s : pystr) : pystr :=
  match s with
  | [] => []
  | c :: t =>
    match t with
    | d :: r =>
      if char_eqb c backslash && special d then d :: unescape r
      else c :: unescape t
    | [] => [c]
    end
  end.

Definition bracketed : pystr := u "ML_1 [basics]".

End Terms.

(* ===================================================================== *)
(** ** Facts about strings and patterns *)
(* ===================================================================== *)

Module PyFacts.
Import Py.

Lemma char_eqb_eq a b : char_eqb a b = true <-> a = b.
Proof. apply N.eqb_eq. Qed.

Lemma startswith_app t s : startswith t (t ++ s) = true.
Proof.
  induction t as [|x t IH]; simpl; [reflexivity|].
  unfold char_eqb. now rewrite N.eqb_refl.
Qed.

Lemma startswith_split t s :
  startswith t s = true -> s = t ++ skipn (List.length t) s.
Proof.
  revert s. induction t as [|x t IH]; intros [|y s] H; simpl in *;
    try reflexivity; try discriminate.
  apply andb_prop in H as [E H]. apply char_eqb_eq in E. subst y.
  f_equal. now apply IH.
Qed.

Lemma contains_app pre t post : contains t (pre ++ t ++ post) = true.
Proof.
  induction pre as [|c pre IH].
  - destruct (t ++ post) eqn:E; simpl; rewrite <- E;
      now rewrite startswith_app.
  - simpl. rewrite IH. apply orb_true_r.
Qed.

Lemma lstrip_head s c r : lstrip s = c :: r -> is_space c = false.
Proof.
  induction s as [|x s IH]; simpl; [discriminate|].
  destruct (is_space x) eqn:E; [exact IH|].
  intros H. injection H as -> _. exact E.
Qed.

Lemma lstrip_keeps a x b :
  is_space x = false -> lstrip (a ++ x :: b) = lstrip a ++ x :: b.
Proof.
  intros Hx. induction a as [|y a IH]; simpl.
  - now rewrite Hx.
  - destruct (is_space y); [exact IH | reflexivity].
Qed.

Lemma rstrip_keeps a x b :
  is_space x = false -> rstrip (a ++ x :: b) = a ++ x :: rstrip b.
Proof.
  intros Hx. unfold rstrip.
  rewrite rev_app_distr. simpl. rewrite <- app_assoc. simpl.
  rewrite (lstrip_keeps _ _ _ Hx).
  rewrite rev_app_distr. simpl. rewrite rev_involutive.
  now rewrite <- app_assoc.
Qed.

Lemma rstrip_last s a c : rstrip s = a ++ [c] -> is_space c = false.
Proof.
  unfold rstrip. intros H.
  apply (f_equal (@rev char)) in H.
  rewrite rev_involutive, rev_app_distr in H. simpl in H.
  exact (lstrip_head _ _ _ H).
Qed.


Lemma lstrip_suffix s : exists t, s = t ++ lstrip s.
Proof.
  induction s as [|c s [t IH]]; [now exists []|].
  cbn [lstrip]. destruct (is_space c); [|now exists []].
  exists (c :: t). cbn. now rewrite <- IH.
Qed.

Lemma rstrip_prefix s : exists t, s = rstrip s ++ t.
Proof.
  destruct (lstrip_suffix (rev s)) as [t E].
  exists (rev t). unfold rstrip.
  rewrite <- rev_app_distr, <- E. now rewrite rev_involutive.
Qed.

Lemma strip_length s : (List.length (strip s) <= List.length s)%nat.
Proof.
  unfold strip.
  destruct (rstrip_prefix (lstrip s)) as [t Et].
  destruct (lstrip_suffix s) as [t' Et'].
  rewrite Et' at 2. rewrite length_app.
  rewrite Et at 2. rewrite length_app. lia.
Qed.

End PyFacts.

Module ReFacts.
Import Py Re PyFacts.

Lemma first_some_sound {A} (f : nat -> option A) ks a :
  first_some f ks = Some a -> exists k, In k ks /\ f k = Some a.
Proof.
  induction ks as [|k ks IH]; simpl; [discriminate|].
  destruct (f k) eqn:E.
  - intros H. injection H as ->. exists k. auto.
  - intros H. destruct (IH H) as (k' & Hin & Hk'). exists k'. auto.
Qed.

Lemma first_some_complete {A} (f : nat -> option A) ks k :
  In k ks -> f k <> None -> first_some f ks <> None.
Proof.
  induction ks as [|k0 ks IH]; simpl; [tauto|].
  intros [-> | Hin] Hk.
  - destruct (f k); [discriminate | congruence].
  - destruct (f k0); [discriminate | auto].
Qed.

Lemma counts_In lo hi greedy k :
  In k (counts lo hi greedy) <-> (lo <= k <= hi)%nat.
Proof.
  unfold counts.
  destruct greedy; [rewrite <- in_rev|]; rewrite in_seq; lia.
Qed.

Lemma run_firstn cls s k :
  (k <= run cls s)%nat ->
  forallb cls (firstn k s) = true /\ List.length (firstn k s) = k.
Proof.
  revert k. induction s as [|c s IH]; intros k Hk; simpl in Hk.
  - assert (k = O) by lia. subst. auto.
  - destruct k as [|k]; [auto|].
    destruct (cls c) eqn:E; [|lia].
    destruct (IH k) as [H1 H2]; [lia|].
    simpl. rewrite E, H1, H2. auto.
Qed.

Lemma run_prefix cls a b :
  forallb cls a = true -> (List.length a <= run cls (a ++ b))%nat.
Proof.
  induction a as [|c a IH]; simpl; [lia|].
  intros H. apply andb_prop in H as [Hc Ha].
  rewrite Hc. specialize (IH Ha). lia.
Qed.

(** What a successful repetition did: it took [k] characters of the
    class, within its bounds, and the rest of the pattern matched the
    remainder. *)
Lemma exec_rep cls lo greedy grp p s g g' :
  exec (Rep cls lo greedy grp :: p) s g = Some g' ->
  exists a b,
    s = a ++ b /\ (lo <= List.length a)%nat /\ forallb cls a = true /\
    exec p b (capture grp a g) = Some g'.
Proof.
  simpl. intros H.
  apply first_some_sound in H as (k & Hin & Hk).
  apply counts_In in Hin.
  destruct (run_firstn cls s k) as [H1 H2]; [lia|].
  exists (firstn k s), (skipn k s).
  rewrite firstn_skipn, H2. repeat split; auto. lia.
Qed.

(** Conversely, a repetition followed by a pattern matches as soon as
    some admissible count lets the rest match. *)
Lemma exec_rep_complete cls lo greedy grp p a b g :
  (lo <= List.length a)%nat -> forallb cls a = true ->
  exec p b (capture grp a g) <> None ->
  exec (Rep cls lo greedy grp :: p) (a ++ b) g <> None.
Proof.
  intros Hlo Ha Hp. simpl.
  apply first_some_complete with (k := List.length a).
  - apply counts_In. split; [exact Hlo | now apply run_prefix].
  - rewrite skipn_app, skipn_all, Nat.sub_diag, firstn_app, firstn_all,
      Nat.sub_diag. simpl. now rewrite app_nil_r.
Qed.

Lemma exec_lit_complete t p s g :
  exec p s g <> None -> exec (Lit t :: p) (t ++ s) g <> None.
Proof.
  intros H. simpl. rewrite startswith_app.
  rewrite skipn_app, skipn_all, Nat.sub_diag. exact H.
Qed.

Lemma search_complete p pre s :
  exec p s [] <> None -> search p (pre ++ s) <> None.
Proof.
  intros H. induction pre as [|c pre IH]; simpl.
  - destruct s; simpl; destruct (exec p _ []); congruence.
  - destruct (exec p (c :: pre ++ s) []); [discriminate | exact IH].
Qed.

Lemma at_end_space s : at_end s = true -> forallb is_space s = true.
Proof.
  destruct s as [|c [|d s]]; simpl; try reflexivity; try discriminate.
  intros H. apply char_eqb_eq in H. now subst.
Qed.

Lemma search_sound p s g :
  search p s = Some g ->
  exists pre s', s = pre ++ s' /\ exec p s' [] = Some g.
Proof.
  induction s as [|c s IH]; cbn [search].
  - destruct (exec p [] []) as [g'|] eqn:E; [|discriminate].
    intros H. injection H as ->. now exists [], [].
  - destruct (exec p (c :: s) []) as [g'|] eqn:E.
    + intros H. injection H as ->. now exists [], (c :: s).
    + intros H. destruct (IH H) as (pre & s' & -> & Hs').
      now exists (c :: pre), s'.
Qed.

Lemma exec_lit t p s g g' :
  exec (Lit t :: p) s g = Some g' ->
  startswith t s = true /\ exec p (skipn (List.length t) s) g = Some g'.
Proof.
  change (exec (Lit t :: p) s g)
    with (if startswith t s then exec p (skipn (List.length t) s) g
          else None).
  destruct (startswith t s); [auto | discriminate].
Qed.

End ReFacts.

(* ===================================================================== *)
(** ** The curriculum extractor *)
(* ===================================================================== *)

Module ParserFacts.
Import Py Re Parser Spec PyFacts ReFacts.

Section WithUnicode.
Variable U : Unicode.

(** The shape of a line that [course_re] accepts, and what the three
    groups hold. *)
Lemma course_match_shape line g :
  rmatch (course_re U) line = Some g ->
  exists lead nm ws tok tail,
    line = lead ++ nm ++ ws ++ tok ++ tail /\
    group 1 g = lead /\ group 2 g = nm /\ group 3 g = tok /\
    (1 <= List.length lead)%nat /\ forallb (is_decimal U) lead = true /\
    (1 <= List.length nm)%nat /\ forallb dot nm = true /\
    (1 <= List.length ws)%nat /\ forallb is_space ws = true /\
    (1 <= List.length tok)%nat /\ forallb (is_decimal U) tok = true /\
    forallb is_space tail = true.
Proof.
  unfold rmatch, course_re. intros H.
  apply exec_rep in H as (lead & r1 & -> & Hl1 & Hl2 & H).
  apply exec_rep in H as (nm & r2 & -> & Hn1 & Hn2 & H).
  apply exec_rep in H as (ws & r3 & -> & Hw1 & Hw2 & H).
  apply exec_rep in H as (tok & r4 & -> & Ht1 & Ht2 & H).
  apply exec_rep in H as (ws' & r5 & -> & _ & Hs & H).
  simpl in H. destruct (at_end r5) eqn:E; [|discriminate].
  injection H as <-.
  exists lead, nm, ws, tok, (ws' ++ r5).
  repeat split; auto.
  rewrite forallb_app, Hs. now apply at_end_space.
Qed.


Lemma split_credits_rule tok :
  (4 <= List.length tok)%nat /\
    split_credits U tok = (int_of U (firstn 1 tok), int_of U (skipn 1 tok))
  \/ (List.length tok < 4)%nat /\ split_credits U tok = (int_of U tok, 0).
Proof.
  unfold split_credits.
  destruct (4 <=? List.length tok)%nat eqn:E.
  - left. apply Nat.leb_le in E. auto.
  - right. apply Nat.leb_gt in E. auto.
Qed.


(** One line either leaves the course list alone or appends the course
    it denotes. *)
Lemma process_line_courses st raw :
  all_courses (curriculum (process_line U st raw))
    = all_courses (curriculum st)
  \/ exists c,
      course_of_line U (current_section st) (strip raw) = Some c /\
      all_courses (curriculum (process_line U st raw))
        = all_courses (curriculum st) ++ [c].
Proof.
  unfold process_line.
  destruct (strip raw) as [|x line]; [left; reflexivity|].
  generalize (x :: line). intros l.
  destruct (search (semester_re U) l); [left; reflexivity|].
  destruct (contains (u "Обязательные дисциплины") l); [left; reflexivity|].
  destruct (contains (u "Пул выборных дисциплин") l
            || contains (u "выборных") (lower U l)); [left; reflexivity|].
  destruct (course_of_line U (current_section st) l) as [c|];
    [|left; reflexivity].
  right. exists c. split; [reflexivity|].
  cbn [curriculum]. unfold add_course. destruct (type c); reflexivity.
Qed.

Lemma scan_courses ls st c :
  In c (all_courses (curriculum (fold_left (process_line U) ls st))) ->
  In c (all_courses (curriculum st))
  \/ exists raw sec, In raw ls /\ course_of_line U sec (strip raw) = Some c.
Proof.
  revert st. induction ls as [|raw ls IH]; intros st H; simpl in H;
    [now left|].
  apply IH in H as [H | (raw' & sec & Hin & Hc)].
  - destruct (process_line_courses st raw) as [E | (c' & Hc' & E)];
      rewrite E in H.
    + now left.
    + apply in_app_or in H as [H | [<- | []]]; [now left|].
      right. exists raw, (current_section st). simpl. auto.
  - right. exists raw', sec. simpl. auto.
Qed.

Lemma strip_between (pre : pystr) d (ds ws w : pystr) x (post : pystr) :
  is_space d = false -> is_space x = false ->
  strip (pre ++ (d :: ds) ++ ws ++ (w ++ [x]) ++ post)
    = lstrip pre ++ (d :: ds) ++ ws ++ (w ++ [x]) ++ rstrip post.
Proof.
  intros Hd Hx. unfold strip.
  rewrite <- app_comm_cons, (lstrip_keeps _ _ _ Hd).
  assert (E : forall a b : pystr,
             a ++ d :: ds ++ ws ++ (w ++ [x]) ++ b
             = (a ++ d :: ds ++ ws ++ w) ++ x :: b).
  { intros a b. rewrite <- !app_assoc. simpl.
    now rewrite <- !app_assoc. }
  rewrite E, (rstrip_keeps _ _ _ Hx). now rewrite <- E.
Qed.

Lemma marker_word :
  u "семестр" = [1089; 1077; 1084; 1077; 1089; 1090]%N ++ [1088%N].
Proof. vm_compute. reflexivity. Qed.

(** The marker survives stripping. *)
Lemma strip_marker raw :
  has_semester_marker U raw -> has_semester_marker U (strip raw).
Proof.
  intros (pre & ds & ws & post & -> & Hne & Hds & Hws).
  destruct ds as [|d ds]; [congruence|].
  assert (Hsp : is_space d = false).
  { apply (decimal_not_space U). simpl in Hds.
    now apply andb_prop in Hds as [Hd _]. }
  exists (lstrip pre), (d :: ds), ws, (rstrip post).
  repeat split; auto.
  rewrite marker_word.
  apply strip_between; [exact Hsp | reflexivity].
Qed.

Lemma marker_found line :
  has_semester_marker U line -> search (semester_re U) line <> None.
Proof.
  intros (pre & ds & ws & post & -> & Hne & Hds & Hws).
  apply search_complete. unfold semester_re.
  apply exec_rep_complete.
  - destruct ds; [congruence | simpl; lia].
  - exact Hds.
  - apply exec_rep_complete.
    + apply Nat.le_0_l.
    + exact Hws.
    + apply exec_lit_complete. discriminate.
Qed.

Lemma init_semester_lookup n (m : gmap Z Buckets) :
  init_semester n m !! n = Some (semester_bucket n m) /\
  forall k, k <> n -> init_semester n m !! k = m !! k.
Proof.
  unfold init_semester, semester_bucket.
  destruct (m !! n) as [b|] eqn:E.
  - split; [exact E | reflexivity].
  - split; [apply lookup_insert_eq|].
    intros k Hk. apply lookup_insert_ne. congruence.
Qed.

(** *** The trailing token of a line is unique *)




(** *** The limit on [int()] *)

Lemma limit_positive : (1 <= Limited.max_str_digits)%nat.
Proof. apply Nat.leb_le. reflexivity. Qed.

Lemma int_of_within s :
  (List.length s <= Limited.max_str_digits)%nat ->
  Limited.int_of U s = Limited.Returns (int_of U s).
Proof.
  intros H. unfold Limited.int_of. apply Nat.leb_le in H.
  rewrite H. reflexivity.
Qed.

Lemma int_of_returns s n :
  Limited.int_of U s = Limited.Returns n -> n = int_of U s.
Proof.
  unfold Limited.int_of.
  destruct (List.length s <=? Limited.max_str_digits)%nat;
    [|discriminate].
  intros H. injection H as <-. reflexivity.
Qed.

Lemma split_credits_returns tok p :
  Limited.split_credits U tok = Limited.Returns p ->
  p = split_credits U tok.
Proof.
  unfold Limited.split_credits, split_credits, Limited.bind.
  destruct (4 <=? List.length tok)%nat.
  - destruct (Limited.int_of U (firstn 1 tok)) as [cr|] eqn:E1;
      [|discriminate].
    destruct (Limited.int_of U (skipn 1 tok)) as [hr|] eqn:E2;
      [|discriminate].
    apply int_of_returns in E1, E2. subst cr hr.
    intros H. injection H as <-. reflexivity.
  - destruct (Limited.int_of U tok) as [cr|] eqn:E1; [|discriminate].
    apply int_of_returns in E1. subst cr.
    intros H. injection H as <-. reflexivity.
Qed.

Lemma split_credits_within tok :
  (List.length tok <= Limited.max_str_digits)%nat ->
  Limited.split_credits U tok = Limited.Returns (split_credits U tok).
Proof.
  intros H. unfold Limited.split_credits, split_credits, Limited.bind.
  pose proof limit_positive as Hp.
  destruct (4 <=? List.length tok)%nat.
  - assert (H1 : (List.length (firstn 1 tok)
                  <= Limited.max_str_digits)%nat)
      by (rewrite length_firstn; lia).
    assert (H2 : (List.length (skipn 1 tok)
                  <= Limited.max_str_digits)%nat)
      by (rewrite length_skipn; lia).
    rewrite (int_of_within _ H1), (int_of_within _ H2). reflexivity.
  - rewrite (int_of_within _ H). reflexivity.
Qed.

Lemma course_of_line_returns sec line found :
  Limited.course_of_line U sec line = Limited.Returns found ->
  found = course_of_line U sec line.
Proof.
  unfold Limited.course_of_line, course_of_line, Limited.bind.
  destruct (rmatch (course_re U) line) as [g|].
  - destruct (Limited.int_of U (group 1 g)) as [n|] eqn:En;
      [|discriminate].
    apply int_of_returns in En. subst n.
    destruct (Limited.split_credits U (group 3 g)) as [p|] eqn:Ep;
      [|discriminate].
    apply split_credits_returns in Ep. subst p.
    destruct (split_credits U (group 3 g)) as [cr hr]. cbn [fst snd].
    intros H. injection H as <-. reflexivity.
  - intros H. injection H as <-. reflexivity.
Qed.

Lemma course_of_line_within sec line :
  (List.length line <= Limited.max_str_digits)%nat ->
  Limited.course_of_line U sec line
  = Limited.Returns (course_of_line U sec line).
Proof.
  intros H. unfold Limited.course_of_line, course_of_line, Limited.bind.
  destruct (rmatch (course_re U) line) as [g|] eqn:E; [|reflexivity].
  destruct (course_match_shape _ _ E)
    as (lead & nm & ws & tok & tail & El & G1 & _ & G3 & _).
  rewrite El, !length_app in H.
  assert (L1 : (List.length (group 1 g) <= Limited.max_str_digits)%nat)
    by (rewrite G1; lia).
  assert (L3 : (List.length (group 3 g) <= Limited.max_str_digits)%nat)
    by (rewrite G3; lia).
  rewrite (int_of_within _ L1), (split_credits_within _ L3).
  destruct (split_credits U (group 3 g)) as [cr hr]. reflexivity.
Qed.

Lemma semester_group_length l g :
  search (semester_re U) l = Some g ->
  (List.length (group 1 g) <= List.length l)%nat.
Proof.
  intros H. apply search_sound in H as (pre & s & -> & H).
  unfold semester_re in H.
  apply exec_rep in H as (ds & r1 & -> & _ & _ & H).
  apply exec_rep in H as (ws & r2 & -> & _ & _ & H).
  apply exec_lit in H as [_ H]. cbn [exec capture] in H.
  injection H as <-. unfold group. cbn [find fst snd Nat.eqb].
  rewrite !length_app. lia.
Qed.

(** Whatever an iteration returns is the state [process_line] computes. *)
Lemma process_line_returns st raw st' :
  Limited.process_line U st raw = Limited.Returns st' ->
  st' = process_line U st raw.
Proof.
  unfold Limited.process_line, process_line, Limited.bind.
  destruct (strip raw) as [|x line].
  { intros H. injection H as <-. reflexivity. }
  generalize (x :: line). intros l.
  destruct (search (semester_re U) l) as [g|].
  - destruct (Limited.int_of U (group 1 g)) as [n|] eqn:En;
      [|discriminate].
    apply int_of_returns in En. subst n.
    intros H. injection H as <-. reflexivity.
  - destruct (contains (u "Обязательные дисциплины") l).
    { intros H. injection H as <-. reflexivity. }
    destruct (contains (u "Пул выборных дисциплин") l
              || contains (u "выборных") (lower U l)).
    { intros H. injection H as <-. reflexivity. }
    destruct (Limited.course_of_line U (current_section st) l)
      as [found|] eqn:Ec; [|discriminate].
    apply course_of_line_returns in Ec. subst found.
    destruct (course_of_line U (current_section st) l);
      intros H; injection H as <-; reflexivity.
Qed.

(** An iteration returns when its line is within the limit. *)
Lemma process_line_within st raw :
  (List.length (strip raw) <= Limited.max_str_digits)%nat ->
  Limited.process_line U st raw = Limited.Returns (process_line U st raw).
Proof.
  unfold Limited.process_line, process_line, Limited.bind.
  destruct (strip raw) as [|x line]; [reflexivity|].
  generalize (x :: line). intros l Hl.
  destruct (search (semester_re U) l) as [g|] eqn:Es.
  - apply semester_group_length in Es.
    rewrite int_of_within by lia. reflexivity.
  - destruct (contains (u "Обязательные дисциплины") l); [reflexivity|].
    destruct (contains (u "Пул выборных дисциплин") l
              || contains (u "выборных") (lower U l)); [reflexivity|].
    rewrite (course_of_line_within _ _ Hl).
    destruct (course_of_line U (current_section st) l); reflexivity.
Qed.

Lemma scan_lines_returns ls st st' :
  Limited.scan_lines U ls st = Limited.Returns st' ->
  st' = fold_left (process_line U) ls st.
Proof.
  revert st. induction ls as [|raw ls IH]; intros st;
    cbn [Limited.scan_lines fold_left].
  - intros H. injection H as <-. reflexivity.
  - unfold Limited.bind.
    destruct (Limited.process_line U st raw) as [st1|] eqn:E;
      [|discriminate].
    apply process_line_returns in E. subst st1. apply IH.
Qed.

Lemma scan_lines_within ls st :
  (forall raw, In raw ls ->
     (List.length raw <= Limited.max_str_digits)%nat) ->
  Limited.scan_lines U ls st
  = Limited.Returns (fold_left (process_line U) ls st).
Proof.
  revert st. induction ls as [|raw ls IH]; intros st H;
    cbn [Limited.scan_lines fold_left]; [reflexivity|].
  unfold Limited.bind. rewrite process_line_within.
  - apply IH. intros r Hr. apply H. now right.
  - pose proof (strip_length raw). pose proof (H raw (or_introl eq_refl)).
    lia.
Qed.

(** Whenever the parser returns, it returns the curriculum
    [extract_curriculum_data] computes. *)
Lemma extract_returns text cur :
  Limited.extract_curriculum_data U text = Limited.Returns cur ->
  cur = extract_curriculum_data U text.
Proof.
  unfold Limited.extract_curriculum_data, extract_curriculum_data, scan,
    Limited.bind.
  destruct (Limited.scan_lines U (split_on newline text)
              (initial_state text)) as [st|] eqn:E; [|discriminate].
  apply scan_lines_returns in E. subst st.
  intros H. injection H as <-. reflexivity.
Qed.

(** The parser returns on every text whose lines have at most 4300
    characters. *)
Lemma extract_within_limit text :
  (forall raw, In raw (split_on newline text) ->
     (List.length raw <= Limited.max_str_digits)%nat) ->
  Limited.extract_curriculum_data U text
  = Limited.Returns (extract_curriculum_data U text).
Proof.
  intros H.
  unfold Limited.extract_curriculum_data, extract_curriculum_data, scan,
    Limited.bind.
  rewrite (scan_lines_within _ _ H). reflexivity.
Qed.

(** *** Accepted lines *)





(** C10. A line that contains a digit sequence followed, after optional
    whitespace, by the semester marker - anywhere in the line - is a
    match of the semester pattern. When the digit sequence matched has at
    most 4300 digits, the iteration only sets the tracked semester and
    pre-initialises that semester's bucket: the section tracker, the
    other buckets and the three course lists are left as they were,
    whether or not the line also has the shape of a course line. When it
    has more, the iteration raises [ValueError]. *)
Theorem C10_semester_marker_line st raw :
  has_semester_marker U raw ->
  exists g,
    search (semester_re U) (strip raw) = Some g /\
    ((List.length (group 1 g) <= Limited.max_str_digits)%nat ->
     exists st',
       Limited.process_line U st raw = Limited.Returns st' /\
       let n := int_of U (group 1 g) in
       current_semester st' = Some n /\
       current_section st' = current_section st /\
       semesters (curriculum st') !! n
         = Some (semester_bucket n (semesters (curriculum st))) /\
       (forall k, k <> n ->
          semesters (curriculum st') !! k
          = semesters (curriculum st) !! k) /\
       all_courses (curriculum st') = all_courses (curriculum st) /\
       mandatory_courses (curriculum st')
       = mandatory_courses (curriculum st) /\
       elective_courses (curriculum st')
       = elective_courses (curriculum st) /\
       program_name (curriculum st') = program_name (curriculum st)) /\
    ((Limited.max_str_digits < List.length (group 1 g))%nat ->
     Limited.process_line U st raw = Limited.ValueError).
Proof.
  intros H. apply strip_marker in H.
  assert (Hne : strip raw <> []).
  { destruct H as (pre & ds & ws & post & -> & Hds & _).
    destruct ds; [congruence|]. now destruct pre. }
  apply marker_found in H.
  destruct (search (semester_re U) (strip raw)) as [g|] eqn:E; [|congruence].
  exists g. split; [reflexivity|].
  unfold Limited.process_line, Limited.bind, Limited.int_of.
  destruct (strip raw) as [|x line]; [congruence|].
  rewrite E. split.
  - intros Hlen. apply Nat.leb_le in Hlen. rewrite Hlen.
    eexists. split; [reflexivity|].
    cbn [current_semester current_section curriculum semesters
         all_courses mandatory_courses elective_courses program_name].
    destruct (init_semester_lookup (int_of U (group 1 g))
                (semesters (curriculum st))) as [H1 H2].
    repeat split; auto.
  - intros Hlen. apply Nat.leb_gt in Hlen. rewrite Hlen. reflexivity.
Qed.

End WithUnicode.



Lemma marker_line_has_marker : has_semester_marker basic marker_line.
Proof.
  exists (u "  1 Курс "), (u "2"), (u " "), (u "а 3108 ").
  repeat split; try (vm_compute; reflexivity).
  intros H. vm_compute in H. discriminate.
Defined.

Lemma C10_semester_marker_line_witness :
  has_semester_marker basic marker_line /\
  rmatch (course_re basic) (strip marker_line) <> None /\
  exists g,
    search (semester_re basic) (strip marker_line) = Some g /\
    ((List.length (group 1 g) <= Limited.max_str_digits)%nat ->
     exists st',
       Limited.process_line basic (initial_state []) marker_line
       = Limited.Returns st' /\
       let n := int_of basic (group 1 g) in
       let st := initial_state [] in
       current_semester st' = Some n /\
       current_section st' = current_section st /\
       semesters (curriculum st') !! n
         = Some (semester_bucket n (semesters (curriculum st))) /\
       (forall k, k <> n ->
          semesters (curriculum st') !! k
          = semesters (curriculum st) !! k) /\
       all_courses (curriculum st') = all_courses (curriculum st) /\
       mandatory_courses (curriculum st')
       = mandatory_courses (curriculum st) /\
       elective_courses (curriculum st')
       = elective_courses (curriculum st) /\
       program_name (curriculum st') = program_name (curriculum st)) /\
    ((Limited.max_str_digits < List.length (group 1 g))%nat ->
     Limited.process_line basic (initial_state []) marker_line
     = Limited.ValueError).
Proof.
  split; [exact marker_line_has_marker|].
  split; [vm_compute; discriminate|].
  exact (C10_semester_marker_line basic (initial_state []) marker_line
           marker_line_has_marker).
Defined.

Lemma C10_counterexample :
  has_semester_marker basic long_marker_line /\
  Limited.process_line basic (initial_state []) long_marker_line
  = Limited.ValueError /\
  Limited.extract_curriculum_data basic long_marker_line
  = Limited.ValueError.
Proof.
  split.
  - exists [], (repeat 49%N 4301), [32%N], [].
    split; [vm_compute; reflexivity|].
    split; [intros H; apply (f_equal (@List.length N)) in H;
            vm_compute in H; discriminate|].
    split; vm_compute; reflexivity.
  - split; vm_compute; reflexivity.
Qed.

End ParserFacts.

(* ===================================================================== *)
(** ** The descending stable sort *)
(* ===================================================================== *)

Module PySortFacts.
Import PySort.

Section Desc.
Context {A K : Type}.
Variable ltK : K -> K -> bool.
Variable key : A -> K.

Hypothesis lt_asym : forall a b, ltK a b = true -> ltK b a = false.
Hypothesis ge_trans :
  forall a b c, ltK a b = false -> ltK b c = false -> ltK a c = false.

Local Abbreviation ge := (ge ltK key).

Lemma insert_desc_perm x l : Permutation (insert_desc ltK key x l) (x :: l).
Proof.
  induction l as [|y l IH]; simpl; [reflexivity|].
  destruct (ltK (key x) (key y)); [|reflexivity].
  rewrite IH. apply perm_swap.
Qed.

Lemma sort_desc_perm l : Permutation (sort_desc ltK key l) l.
Proof.
  induction l as [|x l IH]; simpl; [reflexivity|].
  rewrite insert_desc_perm. now constructor.
Qed.

Lemma sort_desc_length l : List.length (sort_desc ltK key l) = List.length l.
Proof. apply Permutation_length, sort_desc_perm. Qed.

Lemma sort_desc_In x l : In x (sort_desc ltK key l) <-> In x l.
Proof.
  split; apply Permutation_in;
    [|symmetry]; apply sort_desc_perm.
Qed.

Lemma insert_desc_sorted x l :
  StronglySorted ge l -> StronglySorted ge (insert_desc ltK key x l).
Proof.
  induction 1 as [|y l Hl IH Hy]; simpl.
  - repeat constructor.
  - destruct (ltK (key x) (key y)) eqn:E.
    + constructor; [exact IH|].
      rewrite List.Forall_forall in *. intros z Hz.
      apply (Permutation_in _ (insert_desc_perm x l)) in Hz.
      destruct Hz as [<- | Hz]; [now apply lt_asym | now apply Hy].
    + constructor; [now constructor|].
      constructor; [exact E|].
      rewrite List.Forall_forall in *. intros z Hz.
      unfold ge in *. eapply ge_trans; [exact E | now apply Hy].
Qed.

Lemma sort_desc_sorted l : StronglySorted ge (sort_desc ltK key l).
Proof.
  induction l as [|x l IH]; simpl; [constructor|].
  now apply insert_desc_sorted.
Qed.

Lemma same_key_ge k x y :
  same_key ltK key k x = true -> same_key ltK key k y = true ->
  ltK (key x) (key y) = false.
Proof.
  unfold same_key. intros Hx Hy.
  apply andb_prop in Hx as [Hx _]. apply andb_prop in Hy as [_ Hy].
  apply negb_true_iff in Hx, Hy. eapply ge_trans; eauto.
Qed.

Lemma insert_desc_stable k x l :
  List.filter (same_key ltK key k) (insert_desc ltK key x l)
  = List.filter (same_key ltK key k) (x :: l).
Proof.
  induction l as [|y l IH]; [reflexivity|].
  cbn [insert_desc].
  destruct (ltK (key x) (key y)) eqn:E; [|reflexivity].
  cbn [List.filter] in *. rewrite IH.
  destruct (same_key ltK key k x) eqn:Ex; [|reflexivity].
  destruct (same_key ltK key k y) eqn:Ey; [|reflexivity].
  pose proof (same_key_ge k x y Ex Ey). congruence.
Qed.

(** Stability: the elements of any one key come out in the order they
    went in. *)
Lemma sort_desc_stable k l :
  List.filter (same_key ltK key k) (sort_desc ltK key l)
  = List.filter (same_key ltK key k) l.
Proof.
  induction l as [|x l IH]; [reflexivity|].
  cbn [sort_desc]. rewrite insert_desc_stable.
  cbn [List.filter]. now rewrite IH.
Qed.

End Desc.

Lemma firstn_In {A} (x : A) n l : In x (firstn n l) -> In x l.
Proof.
  intros H. rewrite <- (firstn_skipn n l). apply in_or_app. now left.
Qed.

Lemma firstn_sorted {A} (R : A -> A -> Prop) n l :
  StronglySorted R l -> StronglySorted R (firstn n l).
Proof.
  intros H. revert n. induction H as [|x l Hl IH Hx]; intros [|n]; simpl;
    try constructor; auto.
  rewrite List.Forall_forall in *. intros y Hy.
  apply Hx. eapply firstn_In; eauto.
Qed.

Lemma Zltb_asym a b : (a <? b) = true -> (b <? a) = false.
Proof. intros H. apply Z.ltb_lt in H. apply Z.ltb_ge. lia. Qed.

Lemma Zgeb_trans a b c :
  (a <? b) = false -> (b <? c) = false -> (a <? c) = false.
Proof. rewrite !Z.ltb_ge. lia. Qed.

Lemma pair_ltb_lt p q :
  pair_ltb p q = true <->
  fst p < fst q \/ (fst p = fst q /\ snd p < snd q).
Proof.
  unfold pair_ltb.
  rewrite orb_true_iff, andb_true_iff, !Z.ltb_lt, Z.eqb_eq. tauto.
Qed.

Lemma pair_ltb_ge p q :
  pair_ltb p q = false <->
  fst q < fst p \/ (fst q = fst p /\ snd q <= snd p).
Proof.
  destruct (pair_ltb p q) eqn:E.
  - apply pair_ltb_lt in E. split; [discriminate | lia].
  - split; [intros _ | reflexivity].
    assert (H : ~ (fst p < fst q \/ (fst p = fst q /\ snd p < snd q))).
    { rewrite <- pair_ltb_lt. congruence. }
    lia.
Qed.

Lemma pair_ltb_asym p q : pair_ltb p q = true -> pair_ltb q p = false.
Proof. rewrite pair_ltb_lt, pair_ltb_ge. lia. Qed.

Lemma pair_geb_trans p q r :
  pair_ltb p q = false -> pair_ltb q r = false -> pair_ltb p r = false.
Proof. rewrite !pair_ltb_ge. lia. Qed.

End PySortFacts.

(* ===================================================================== *)
(** ** The categoriser *)
(* ===================================================================== *)

Module CategorizerFacts.
Import Py Parser Categorizer Spec.

Lemma find_first {A} (f : A -> bool) l x :
  find f l = Some x ->
  exists pre post,
    l = pre ++ x :: post /\ f x = true /\
    Forall (fun y => f y = false) pre.
Proof.
  induction l as [|y l IH]; simpl; [discriminate|].
  destruct (f y) eqn:E.
  - intros H. injection H as ->. exists [], l. auto.
  - intros H. destruct (IH H) as (pre & post & -> & Hx & Hpre).
    exists (y :: pre), post. auto.
Qed.

Lemma find_none_all {A} (f : A -> bool) l :
  find f l = None -> Forall (fun y => f y = false) l.
Proof.
  induction l as [|y l IH]; simpl; [constructor|].
  destruct (f y) eqn:E; [discriminate|]. auto.
Qed.

Lemma append_keys k c d : map fst (append k c d) = map fst d.
Proof.
  unfold append. rewrite map_map. apply map_ext.
  intros e. now destruct (String.eqb (fst e) k).
Qed.

Lemma has_key_In k d : has_key k d = true <-> In k (map fst d).
Proof.
  unfold has_key. rewrite existsb_exists, in_map_iff.
  split; intros (e & H1 & H2).
  - apply String.eqb_eq in H2. eauto.
  - exists e. split; [exact H2 | now apply String.eqb_eq].
Qed.

Lemma has_key_keys k d d' :
  map fst d = map fst d' -> has_key k d = has_key k d'.
Proof.
  intros H. apply eq_true_iff_eq. rewrite !has_key_In. now rewrite H.
Qed.

Lemma get_missing k d : has_key k d = false -> get k d = [].
Proof.
  unfold get, has_key. induction d as [|e d IH]; simpl; [reflexivity|].
  destruct (String.eqb (fst e) k); [discriminate | exact IH].
Qed.

Lemma get_append k' k c d :
  get k' (append k c d)
  = if String.eqb k k' && has_key k' d then get k' d ++ [c] else get k' d.
Proof.
  unfold get, has_key.
  induction d as [|e d IH]; simpl; [now rewrite andb_false_r|].
  destruct (String.eqb (fst e) k) eqn:Ek; simpl.
  - destruct (String.eqb (fst e) k') eqn:Ek'; simpl.
    + apply String.eqb_eq in Ek, Ek'. subst.
      now rewrite String.eqb_refl.
    + exact IH.
  - destruct (String.eqb (fst e) k') eqn:Ek'; simpl.
    + apply String.eqb_eq in Ek'. subst.
      rewrite String.eqb_sym, Ek. reflexivity.
    + exact IH.
Qed.

Lemma total_size_append k c d :
  total_size (append k c d) = (total_size d + entries_of k d)%nat.
Proof.
  unfold total_size, entries_of, append.
  induction d as [|e d IH]; simpl; [reflexivity|].
  rewrite IH. destruct (String.eqb (fst e) k); simpl;
    rewrite ?length_app; simpl; lia.
Qed.

Lemma entries_of_keys k d d' :
  map fst d = map fst d' -> entries_of k d = entries_of k d'.
Proof.
  unfold entries_of. revert d'.
  induction d as [|e d IH]; intros [|e' d'] H; simpl in *;
    try discriminate; [reflexivity|].
  injection H as H1 H2. rewrite H1.
  destruct (String.eqb (fst e') k); simpl; auto.
Qed.

Section WithUnicode.
Variable U : Unicode.
Variable registry : list Category.

Local Abbreviation step := (assign U registry).

Lemma fold_keys courses d :
  map fst (fold_left step courses d) = map fst d.
Proof.
  revert d. induction courses as [|c cs IH]; intros d; simpl;
    [reflexivity|].
  rewrite IH. apply append_keys.
Qed.

(** A bucket ends up with what it had, followed by the courses assigned
    to it, in input order. *)
Lemma fold_get courses d k :
  has_key k d = true ->
  get k (fold_left step courses d)
  = get k d
    ++ List.filter (fun c => String.eqb (bucket_of U registry c) k) courses.
Proof.
  revert d. induction courses as [|c cs IH]; intros d Hk; simpl;
    [now rewrite app_nil_r|].
  rewrite IH.
  - unfold assign. rewrite get_append, Hk, andb_true_r.
    destruct (String.eqb (bucket_of U registry c) k);
      [now rewrite <- app_assoc | reflexivity].
  - rewrite <- Hk. apply has_key_keys, append_keys.
Qed.

Lemma fold_total courses d :
  (forall c, entries_of (bucket_of U registry c) d = 1%nat) ->
  total_size (fold_left step courses d)
  = (total_size d + List.length courses)%nat.
Proof.
  revert d. induction courses as [|c cs IH]; intros d H; simpl; [lia|].
  rewrite IH.
  - unfold assign. rewrite total_size_append, H. lia.
  - intros c'. rewrite <- (H c'). apply entries_of_keys, append_keys.
Qed.

Lemma bucket_of_key c :
  In (bucket_of U registry c) (map c_key registry ++ ["other"]).
Proof.
  unfold bucket_of, first_hit. apply in_or_app.
  destruct (find _ registry) as [cat|] eqn:E.
  - left. apply find_some in E as [Hin _]. now apply in_map.
  - right. now left.
Qed.

End WithUnicode.

Lemma entries_of_bucket U c d :
  map fst d = bucket_keys ->
  entries_of (bucket_of U categories c) d = 1%nat.
Proof.
  intros Hd.
  rewrite (entries_of_keys _ d (map (fun k => (k, [])) bucket_keys)).
  - pose proof (bucket_of_key U categories c) as H.
    change (map c_key categories ++ ["other"]) with bucket_keys in H.
    unfold bucket_keys in H. cbn [In] in H.
    repeat (destruct H as [<- | H]; [reflexivity|]). destruct H.
  - rewrite Hd. reflexivity.
Qed.

Lemma earliest U c : earliest_hit U c (bucket_of U categories c).
Proof.
  unfold earliest_hit, bucket_of, first_hit.
  destruct (find _ categories) as [cat|] eqn:E.
  - left. apply find_first in E as (pre & post & E & Hx & Hpre).
    exists pre, cat, post. auto.
  - right. split; [reflexivity | now apply find_none_all].
Qed.

Lemma get_empty k registry : get k (empty_buckets registry) = [].
Proof.
  unfold get. destruct (find _ (empty_buckets registry)) as [e|] eqn:E;
    [|reflexivity].
  apply find_some in E as [Hin _]. unfold empty_buckets in Hin.
  apply in_app_or in Hin as [Hin | [<- | []]]; [|reflexivity].
  apply in_map_iff in Hin as (cat & <- & _). reflexivity.
Qed.

Lemma categorize_keys U registry courses :
  map fst (categorize_with U registry courses)
  = map c_key registry ++ ["other"].
Proof.
  unfold categorize_with. rewrite fold_keys. unfold empty_buckets.
  now rewrite map_app, map_map.
Qed.

Lemma categorize_get U registry courses k :
  get k (categorize_with U registry courses)
  = List.filter (fun c => String.eqb (bucket_of U registry c) k) courses.
Proof.
  destruct (has_key k (empty_buckets registry)) eqn:Hk.
  - unfold categorize_with.
    now rewrite (fold_get U registry _ _ k Hk), get_empty.
  - assert (Hk' : has_key k (categorize_with U registry courses) = false).
    { rewrite <- Hk. apply has_key_keys. apply fold_keys. }
    rewrite (get_missing _ _ Hk').
    rewrite (filter_ext _ (fun _ => false)); [now rewrite filter_false|].
    intros c. apply not_true_is_false. intros E.
    apply String.eqb_eq in E.
    assert (has_key k (categorize_with U registry courses) = true);
      [|congruence].
    apply has_key_In. rewrite categorize_keys, <- E.
    apply bucket_of_key.
Qed.

(** C3. [categorize_subjects] returns the eight buckets, in registry order
    followed by "other". The bucket of a key holds, in input order, the
    courses whose bucket is that key, and the bucket of a course is the
    earliest category of the registry with a keyword inside the
    lower-cased name, or "other" without one. Hence the bucket sizes add
    up to the number of courses, every course is in a bucket, and no
    course is in two. *)
Theorem C3_partition U cur :
  let d := categorize_subjects U cur in
  map fst d = bucket_keys /\
  (forall k, get k d
             = List.filter
                 (fun c => String.eqb (bucket_of U categories c) k)
                 (all_courses cur)) /\
  (forall c, earliest_hit U c (bucket_of U categories c)) /\
  total_size d = List.length (all_courses cur) /\
  (forall c, In c (all_courses cur) ->
             exists k, In k bucket_keys /\ In c (get k d)) /\
  (forall c k1 k2, In c (get k1 d) -> In c (get k2 d) -> k1 = k2).
Proof.
  cbv zeta. unfold categorize_subjects.
  split; [apply categorize_keys|].
  split; [intros k; apply categorize_get|].
  split; [apply earliest|].
  split; [|split].
  - unfold categorize_with. rewrite fold_total; [reflexivity|].
    intros c. now apply entries_of_bucket.
  - intros c Hc. exists (bucket_of U categories c). split.
    + apply (bucket_of_key U categories c).
    + rewrite categorize_get. apply filter_In. split; [exact Hc|].
      apply String.eqb_refl.
  - intros c k1 k2. rewrite !categorize_get, !filter_In.
    intros [_ H1] [_ H2]. apply String.eqb_eq in H1, H2. congruence.
Qed.

End CategorizerFacts.

(* ===================================================================== *)
(** ** The recommendation engine *)
(* ===================================================================== *)

Module RecommenderFacts.
Import Py Parser Categorizer Recommender PySort Spec PySortFacts.

Lemma sorted_weaken {A} (R R' : A -> A -> Prop) l :
  (forall a b, R a b -> R' a b) -> StronglySorted R l -> StronglySorted R' l.
Proof.
  intros HR. induction 1 as [|x l Hl IH Hx]; constructor; auto.
  eapply List.Forall_impl; [|exact Hx]. auto.
Qed.

Lemma collect_picks dom desc cats n i prefs recs :
  collect dom desc cats n i prefs recs
  = recs ++ flat_map (picks dom desc cats n) (enumerate_from i prefs).
Proof.
  revert i recs. induction prefs as [|cat prefs IH]; intros i recs; simpl.
  - now rewrite app_nil_r.
  - rewrite IH. now rewrite <- app_assoc.
Qed.

Section WithUnicode.
Variable U : Unicode.

Lemma recommendations_eq registry text cur :
  recommendations (generate_with U registry text cur)
  = firstn 10 (sort_desc pair_ltb rank_key (candidates U registry text cur)).
Proof.
  unfold generate_with.
  now destruct (resolve registry (lower U text)) as [[dom prefs] desc].
Qed.

Lemma dominant_eq registry text cur :
  dominant_profile_key (generate_with U registry text cur)
  = fst (fst (resolve registry (lower U text))).
Proof.
  unfold generate_with.
  now destruct (resolve registry (lower U text)) as [[dom prefs] desc].
Qed.

Lemma candidates_eq registry text cur :
  candidates U registry text cur
  = let '(dom, prefs, desc) := resolve registry (lower U text) in
    flat_map (picks dom desc (categorize_subjects U cur)
                (Z.of_nat (List.length prefs)))
             (enumerate prefs).
Proof.
  unfold candidates.
  destruct (resolve registry (lower U text)) as [[dom prefs] desc].
  apply collect_picks.
Qed.

(** The sort applied to the electives of a category. *)
Lemma credits_sort l :
  let sorted := sort_desc Z.ltb credits l in
  Permutation sorted l /\ credits_desc sorted /\ keeps_ties sorted l.
Proof.
  cbv zeta. split; [apply sort_desc_perm|]. split.
  - eapply sorted_weaken;
      [|apply (sort_desc_sorted Z.ltb credits Zltb_asym Zgeb_trans)].
    unfold ge. intros a b H. now apply Z.ltb_ge.
  - intros k.
    assert (E : forall c, (credits c =? k) = same_key Z.ltb credits k c).
    { intros c. unfold same_key.
      destruct (Z.eqb_spec (credits c) k);
        destruct (Z.ltb_spec (credits c) k);
        destruct (Z.ltb_spec k (credits c)); simpl; auto; lia. }
    rewrite !(filter_ext _ _ E).
    apply (sort_desc_stable Z.ltb credits Zgeb_trans).
Qed.

Lemma top_electives_length cats i cat :
  (List.length (top_electives cats i cat) <= Z.to_nat (Z.max 1 (4 - i)))%nat.
Proof. unfold top_electives. rewrite length_firstn. lia. Qed.

End WithUnicode.

(** Every profile of the registry prefers three categories, and so do the
    two fallbacks. *)
Lemma registry_three :
  Forall (fun p => List.length (preferences p) = 3%nat) user_profiles.
Proof. repeat constructor. Qed.

Lemma resolve_three bl :
  List.length (snd (fst (resolve user_profiles bl))) = 3%nat.
Proof.
  unfold resolve.
  destruct (find_best _) as [bp bs].
  destruct (existsb _ _);
    (destruct (truthy bp && _); [|reflexivity]);
    (destruct bp as [k|]; [|reflexivity]);
    (destruct (lookup_profile user_profiles k) as [p|] eqn:E;
       [|reflexivity]);
    apply find_some in E as [Hin _];
    exact (proj1 (List.Forall_forall _ _) registry_three p Hin).
Qed.

(** Without a dominant profile the preferences are the default ones. *)
Lemma resolve_undetermined bl :
  fst (fst (resolve user_profiles bl)) = None ->
  snd (fst (resolve user_profiles bl))
  = ["machine_learning"; "programming"; "data_science"].
Proof.
  unfold resolve.
  destruct (find_best _) as [bp bs].
  destruct (existsb _ _);
    (destruct (truthy bp && _); [|try discriminate; reflexivity]);
    (destruct bp as [k|]; [|try discriminate; reflexivity]);
    (destruct (lookup_profile user_profiles k) as [p|];
       [|try discriminate; reflexivity]);
    discriminate.
Qed.

(** C6. The list of recommendations has at most ten entries and is in
    descending order of the key (priority, credits). *)
Theorem C6_ranked_top_ten U text cur :
  let rs := recommendations (generate_recommendations U text cur) in
  (List.length rs <= 10)%nat /\ StronglySorted rank_ge rs.
Proof.
  cbv zeta. unfold generate_recommendations. rewrite recommendations_eq.
  split; [rewrite length_firstn; lia|].
  apply firstn_sorted.
  eapply sorted_weaken;
    [|apply (sort_desc_sorted pair_ltb rank_key pair_ltb_asym
               pair_geb_trans)].
  unfold ge, rank_ge. intros a b H. apply pair_ltb_ge in H. exact H.
Qed.

(** C7. The preferences have positions 0, 1 and 2. The recommendations
    returned are, up to the final ranking, those picked position by
    position: at position [i] the electives of the category, sorted by
    credits in descending order with equal credits left in their original
    order, cut to their first [max(1, 4 - i)], each with the category and
    the priority [len(preferences) - i]. *)
Theorem C7_picks_per_category U text cur :
  let '(dom, prefs, desc) := resolve user_profiles (lower U text) in
  let cats := categorize_subjects U cur in
  let n := Z.of_nat (List.length prefs) in
  (forall i cat, In (i, cat) (enumerate prefs) -> 0 <= i < 3) /\
  Permutation (recommendations (generate_recommendations U text cur))
              (flat_map (picks dom desc cats n) (enumerate prefs)) /\
  (forall i cat,
     exists sorted,
       Permutation sorted (electives_of cats cat) /\
       credits_desc sorted /\
       keeps_ties sorted (electives_of cats cat) /\
       top_electives cats i cat
         = firstn (Z.to_nat (Z.max 1 (4 - i))) sorted) /\
  (forall i cat r,
     In r (picks dom desc cats n (i, cat)) ->
     priority r = n - i /\ category r = cat /\
     In (subject r) (top_electives cats i cat)).
Proof.
  pose proof (resolve_three (lower U text)) as Hlen.
  pose proof (recommendations_eq U user_profiles text cur) as Hrec.
  rewrite candidates_eq in Hrec.
  unfold generate_recommendations.
  destruct (resolve user_profiles (lower U text)) as [[dom prefs] desc].
  cbn [fst snd] in Hlen. cbv zeta.
  destruct prefs as [|a [|b [|c [|]]]]; try discriminate Hlen.
  set (cats := categorize_subjects U cur) in *.
  change (enumerate [a; b; c]) with [(0, a); (1, b); (2, c)] in *.
  split; [|split; [|split]].
  - intros i cat [H | [H | [H | []]]]; injection H as <- _; lia.
  - rewrite Hrec.
    set (pool := flat_map _ _).
    rewrite firstn_all2; [apply sort_desc_perm|].
    rewrite sort_desc_length. subst pool. cbn [flat_map].
    rewrite !length_app. unfold picks. rewrite !length_map.
    cbn [fst snd List.length].
    pose proof (top_electives_length cats 0 a).
    pose proof (top_electives_length cats 1 b).
    pose proof (top_electives_length cats 2 c).
    change (Z.to_nat (Z.max 1 (4 - 0))) with 4%nat in *.
    change (Z.to_nat (Z.max 1 (4 - 1))) with 3%nat in *.
    change (Z.to_nat (Z.max 1 (4 - 2))) with 2%nat in *.
    lia.
  - intros i cat.
    exists (sort_desc Z.ltb credits (electives_of cats cat)).
    destruct (credits_sort (electives_of cats cat)) as (H1 & H2 & H3).
    repeat split; assumption.
  - intros i cat r Hr. unfold picks in Hr. cbn [fst snd] in Hr.
    apply in_map_iff in Hr as (s & <- & Hs). auto.
Qed.

(** C1 (amended). When no profile is determined, a recommendation for the
    category at position [i] of the default preferences has priority
    [3 - i], and its reason is the baseline string at positions 1 and 2
    and the baseline string followed by the top-area suffix at
    position 0. *)
Theorem C1_undetermined_reason U text cur r :
  dominant_profile_key (generate_recommendations U text cur) = None ->
  In r (recommendations (generate_recommendations U text cur)) ->
  exists i,
    In (i, category r)
       (enumerate ["machine_learning"; "programming"; "data_science"]) /\
    priority r = 3 - i /\
    reason r = if i =? 0 then baseline ++ top_area else baseline.
Proof.
  unfold generate_recommendations.
  rewrite dominant_eq, recommendations_eq, candidates_eq.
  intros Hdom Hr.
  apply firstn_In, sort_desc_In in Hr.
  pose proof (resolve_undetermined (lower U text) Hdom) as Hprefs.
  destruct (resolve user_profiles (lower U text)) as [[dom prefs] desc].
  cbn [fst snd] in Hdom, Hprefs. subst dom prefs.
  apply in_flat_map in Hr as ([i cat] & He & Hr).
  unfold picks in Hr. cbn [fst snd] in Hr.
  apply in_map_iff in Hr as (s & <- & Hs).
  exists i. split; [exact He|]. split; [reflexivity|].
  unfold recommend, reason_at, base_reason, baseline, top_area.
  cbn [reason truthy]. reflexivity.
Qed.

Lemma C1_undetermined_reason_witness :
  dominant_profile_key
    (generate_recommendations basic plain_bio sample_curriculum) = None /\
  In sample_rec
     (recommendations
        (generate_recommendations basic plain_bio sample_curriculum)) /\
  exists i,
    In (i, category sample_rec)
       (enumerate ["machine_learning"; "programming"; "data_science"]) /\
    priority sample_rec = 3 - i /\
    reason sample_rec = if i =? 0 then baseline ++ top_area else baseline.
Proof.
  assert (H1 : dominant_profile_key
                 (generate_recommendations basic plain_bio sample_curriculum)
               = None) by (vm_compute; reflexivity).
  assert (H2 : In sample_rec
                 (recommendations
                    (generate_recommendations basic plain_bio
                       sample_curriculum)))
    by (vm_compute; left; reflexivity).
  split; [exact H1|]. split; [exact H2|].
  exact (C1_undetermined_reason basic plain_bio sample_curriculum sample_rec
           H1 H2).
Defined.

(** C1 fails as stated: for a text without any profile keyword, the first
    recommendation of the top category carries the baseline string with
    the top-area suffix appended, not the baseline string alone. *)
Lemma C1_counterexample :
  dominant_profile_key
    (generate_recommendations basic plain_bio sample_curriculum) = None /\
  In sample_rec
     (recommendations
        (generate_recommendations basic plain_bio sample_curriculum)) /\
  priority sample_rec = 3 - 0 /\
  reason sample_rec <> baseline.
Proof.
  split; [vm_compute; reflexivity|].
  split; [vm_compute; left; reflexivity|].
  split; [reflexivity|].
  vm_compute. discriminate.
Qed.

End RecommenderFacts.

(* ===================================================================== *)
(** ** The profile classifier *)
(* ===================================================================== *)

Module ClassifierFacts.
Import Py Recommender Spec.

Lemma str_eqb_eq a b : str_eqb a b = true <-> a = b.
Proof.
  revert b. induction a as [|x a IH]; intros [|y b]; simpl;
    try (split; [discriminate | discriminate]); [tauto|].
  rewrite andb_true_iff, IH. unfold char_eqb. rewrite N.eqb_eq.
  split; [intros [-> ->]; reflexivity | intros H; injection H; auto].
Qed.

Lemma distinct_NoDup l : distinct l = true -> List.NoDup l.
Proof.
  induction l as [|x l IH]; simpl; [constructor|].
  rewrite andb_true_iff, negb_true_iff. intros [Hx Hl].
  constructor; [|auto].
  intros Hin. assert (existsb (str_eqb x) l = true); [|congruence].
  apply existsb_exists. exists x. split; [exact Hin|].
  now apply str_eqb_eq.
Qed.

(** The scoring loop counts the keywords found and lists them in registry
    order. *)
Lemma count_keywords bl kws n m :
  fold_left (count_keyword bl) kws (n, m)
  = ((n + List.length (List.filter (fun kw => contains kw bl) kws))%nat,
     m ++ List.filter (fun kw => contains kw bl) kws).
Proof.
  revert n m. induction kws as [|kw kws IH]; intros n m; simpl.
  - now rewrite Nat.add_0_r, app_nil_r.
  - unfold count_keyword at 2. destruct (contains kw bl); simpl.
    + rewrite IH, <- app_assoc. simpl. f_equal. lia.
    + apply IH.
Qed.

Lemma score_profile_eq bl p :
  score_profile bl p
  = {| score := adjusted (raw_score bl p);
       matched_keywords :=
         List.filter (fun kw => contains kw bl) (p_keywords p) |}.
Proof.
  unfold score_profile. rewrite count_keywords. reflexivity.
Qed.

Lemma raw_score_bound bl p :
  (raw_score bl p <= List.length (p_keywords p))%nat.
Proof. unfold raw_score. apply filter_length_le. Qed.

Lemma order_agrees_spec bound a b :
  order_agrees bound = true -> (a <= bound)%nat -> (b <= bound)%nat ->
  (adjusted a <? adjusted b)%float = (a <? b)%nat.
Proof.
  unfold order_agrees. intros H Ha Hb.
  rewrite forallb_forall in H.
  assert (Hia : In a (seq 0 (S bound))) by (apply in_seq; lia).
  specialize (H a Hia). rewrite forallb_forall in H.
  assert (Hib : In b (seq 0 (S bound))) by (apply in_seq; lia).
  specialize (H b Hib). now apply eqb_prop in H.
Qed.

Lemma registry_order : order_agrees max_keywords = true.
Proof. vm_compute. reflexivity. Qed.

Lemma registry_keywords :
  forallb (fun p => (List.length (p_keywords p) <=? max_keywords)%nat
                    && distinct (p_keywords p)) user_profiles = true.
Proof. vm_compute. reflexivity. Qed.

Lemma adjusted_ltb a b :
  (a <= max_keywords)%nat -> (b <= max_keywords)%nat ->
  (adjusted a <? adjusted b)%float = (a <? b)%nat.
Proof. apply order_agrees_spec, registry_order. Qed.

Lemma argmax_state_stable {V} (lt : V -> V -> Prop) zero l st :
  argmax_state lt zero l st -> stable_argmax lt zero l (fst st).
Proof.
  unfold argmax_state, stable_argmax. destruct (fst st) as [k|].
  - intros (pre & post & H). exists pre, (snd st), post. exact H.
  - tauto.
Qed.

(** The arg-max loop over raw counts keeps its state an arg-max state. *)
Lemma better_raw_state l pre st :
  argmax_state Nat.lt O pre st ->
  argmax_state Nat.lt O (pre ++ l) (fold_left better_raw l st).
Proof.
  revert pre st. induction l as [|[k' n'] l IH]; intros pre st Hst; simpl.
  - now rewrite app_nil_r.
  - replace (pre ++ (k', n') :: l) with ((pre ++ [(k', n')]) ++ l)
      by now rewrite <- app_assoc.
    apply IH. destruct st as [k n]. unfold better_raw. cbn [fst snd].
    unfold argmax_state in *. cbn [fst snd] in *.
    destruct (Nat.ltb_spec n n') as [Hlt | Hge]; cbn [fst snd].
    + exists pre, []. split; [reflexivity|].
      split; [lia|]. split; [|constructor].
      destruct k as [k|].
      * destruct Hst as (p1 & p2 & -> & H0 & H1 & H2).
        apply Forall_app. split.
        -- eapply List.Forall_impl; [|exact H1]. cbn beta. intros; lia.
        -- constructor; [exact Hlt|].
           eapply List.Forall_impl; [|exact H2]. cbn beta. intros; lia.
      * destruct Hst as [-> H0].
        eapply List.Forall_impl; [|exact H0]. cbn beta. intros; lia.
    + destruct k as [k|].
      * destruct Hst as (p1 & p2 & -> & H0 & H1 & H2).
        exists p1, (p2 ++ [(k', n')]).
        split; [now rewrite <- app_assoc|].
        split; [exact H0|]. split; [exact H1|].
        apply Forall_app. split; [exact H2|].
        constructor; [cbn; lia | constructor].
      * destruct Hst as [-> H0]. split; [reflexivity|].
        apply Forall_app. split; [exact H0|].
        constructor; [cbn; lia | constructor].
Qed.

Lemma better_raw_bound l st b :
  (snd st <= b)%nat -> Forall (fun e => (snd e <= b)%nat) l ->
  (snd (fold_left better_raw l st) <= b)%nat.
Proof.
  revert st. induction l as [|e l IH]; intros st Hst Hl; simpl;
    [exact Hst|].
  inversion Hl as [|? ? He Hl']; subst.
  apply IH; [|exact Hl'].
  unfold better_raw. now destruct (snd st <? snd e)%nat.
Qed.

(** The loop over adjusted scores and the loop over raw counts move in
    step. *)
Lemma find_best_raw registry bl k0 n0 :
  Forall (fun p => (raw_score bl p <= max_keywords)%nat) registry ->
  (n0 <= max_keywords)%nat ->
  fold_left better (score_all registry bl) (k0, adjusted n0)
  = (fst (fold_left better_raw (raw_scores registry bl) (k0, n0)),
     adjusted (snd (fold_left better_raw (raw_scores registry bl)
                      (k0, n0)))).
Proof.
  intros Hreg. revert k0 n0.
  induction Hreg as [|p registry Hp Hreg IH]; intros k0 n0 Hn0;
    [reflexivity|].
  cbn [score_all raw_scores map fold_left].
  unfold better at 2, better_raw at 2 4. cbn [fst snd].
  rewrite score_profile_eq. cbn [score].
  rewrite (adjusted_ltb _ _ Hn0 Hp).
  destruct (n0 <? raw_score bl p)%nat; now apply IH.
Qed.

Lemma registry_raw_bound bl :
  Forall (fun p => (raw_score bl p <= max_keywords)%nat) user_profiles.
Proof.
  pose proof registry_keywords as H. rewrite forallb_forall in H.
  apply List.Forall_forall. intros p Hp.
  specialize (H p Hp). apply andb_prop in H as [H _].
  apply Nat.leb_le in H. pose proof (raw_score_bound bl p). lia.
Qed.

Lemma find_best_registry bl :
  find_best (score_all user_profiles bl)
  = (fst (fold_left better_raw (raw_scores user_profiles bl) (None, O)),
     adjusted (snd (fold_left better_raw (raw_scores user_profiles bl)
                      (None, O)))).
Proof.
  unfold find_best. change 0%float with (adjusted O).
  apply find_best_raw; [apply registry_raw_bound|].
  unfold max_keywords. lia.
Qed.

Lemma float_lt_raw a b :
  (a <= max_keywords)%nat -> (b <= max_keywords)%nat ->
  float_lt (adjusted a) (adjusted b) <-> (a < b)%nat.
Proof.
  intros Ha Hb. unfold float_lt. rewrite (adjusted_ltb _ _ Ha Hb).
  apply Nat.ltb_lt.
Qed.

(** An arg-max state over raw counts is one over adjusted scores. *)
Lemma argmax_state_adjusted (l : list (string * nat)) st :
  Forall (fun e => (snd e <= max_keywords)%nat) l ->
  argmax_state Nat.lt O l st ->
  argmax_state float_lt 0%float
    (map (fun e => (fst e, adjusted (snd e))) l)
    (fst st, adjusted (snd st)).
Proof.
  intros Hl. destruct st as [[k|] n]; unfold argmax_state; cbn [fst snd].
  - intros (pre & post & -> & H0 & H1 & H2).
    apply Forall_app in Hl as [Hpre Hrest].
    inversion Hrest as [|? ? Hn Hpost]; subst. cbn [snd] in Hn.
    exists (map (fun e => (fst e, adjusted (snd e))) pre),
           (map (fun e => (fst e, adjusted (snd e))) post).
    split; [now rewrite map_app|].
    split; [|split].
    + change 0%float with (adjusted O).
      apply float_lt_raw; [unfold max_keywords; lia | exact Hn |].
      exact H0.
    + apply List.Forall_forall. intros e He.
      apply in_map_iff in He as (e' & <- & He'). cbn [snd].
      rewrite List.Forall_forall in Hpre, H1.
      apply float_lt_raw; [exact (Hpre e' He') | exact Hn |].
      exact (H1 e' He').
    + apply List.Forall_forall. intros e He.
      apply in_map_iff in He as (e' & <- & He'). cbn [snd].
      rewrite List.Forall_forall in Hpost, H2.
      rewrite float_lt_raw; [exact (H2 e' He') | exact Hn |].
      exact (Hpost e' He').
  - intros [-> H0]. split; [reflexivity|].
    apply List.Forall_forall. intros e He.
    apply in_map_iff in He as (e' & <- & He'). cbn [snd].
    rewrite List.Forall_forall in Hl, H0.
    change 0%float with (adjusted O).
    rewrite float_lt_raw; [exact (H0 e' He') | unfold max_keywords; lia |].
    exact (Hl e' He').
Qed.

Lemma adjusted_scores_eq registry bl :
  adjusted_scores registry bl
  = map (fun e => (fst e, adjusted (snd e))) (raw_scores registry bl).
Proof.
  unfold adjusted_scores, raw_scores. rewrite map_map.
  apply map_ext. intros p. now rewrite score_profile_eq.
Qed.

Lemma raw_scores_bound bl :
  Forall (fun e => (snd e <= max_keywords)%nat) (raw_scores user_profiles bl).
Proof.
  unfold raw_scores. apply Forall_map. apply (registry_raw_bound bl).
Qed.

Lemma raw_state bl :
  argmax_state Nat.lt O (raw_scores user_profiles bl)
    (fold_left better_raw (raw_scores user_profiles bl) (None, O)).
Proof.
  apply (better_raw_state _ [] (None, O)).
  split; [reflexivity | constructor].
Qed.

Lemma registry_keys :
  forallb (fun p => negb (String.eqb (p_key p) "")) user_profiles = true.
Proof. vm_compute. reflexivity. Qed.

(** A profile found by the arg-max loop becomes the dominant profile. *)
Lemma resolve_best bl k :
  fst (find_best (score_all user_profiles bl)) = Some k ->
  fst (fst (resolve user_profiles bl)) = Some k.
Proof.
  pose proof (find_best_registry bl) as E.
  pose proof (raw_state bl) as St.
  pose proof (better_raw_bound (raw_scores user_profiles bl) (None, O)
                max_keywords (Nat.le_0_l _) (raw_scores_bound bl)) as Hb.
  destruct (fold_left better_raw (raw_scores user_profiles bl) (None, O))
    as [kr n].
  cbn [fst snd] in E, Hb. rewrite E. cbn [fst]. intros ->.
  destruct St as (pre & post & Hl & Hn & _). cbn [snd] in Hl, Hn.
  assert (Hin : In (k, n) (raw_scores user_profiles bl)).
  { rewrite Hl. apply in_or_app. right. now left. }
  apply in_map_iff in Hin as (p & Hp & Hin).
  injection Hp as Hk _.
  assert (Htr : truthy (Some k) = true).
  { pose proof registry_keys as H. rewrite forallb_forall in H.
    specialize (H p Hin). now rewrite Hk in H. }
  assert (Hpos : (0 <? adjusted n)%float = true).
  { change 0%float with (adjusted O).
    rewrite adjusted_ltb; [now apply Nat.ltb_lt | | exact Hb].
    unfold max_keywords. lia. }
  destruct (lookup_profile user_profiles k) as [q|] eqn:Hq.
  - unfold resolve. rewrite E. cbv beta iota zeta.
    rewrite Htr, Hpos. cbn [andb]. now rewrite Hq.
  - exfalso. unfold lookup_profile in Hq.
    apply (find_none _ _ Hq) in Hin. rewrite Hk, String.eqb_refl in Hin.
    discriminate.
Qed.

Lemma profile_scores_eq U registry text cur :
  profile_scores (generate_with U registry text cur)
  = adjusted_scores registry (lower U text).
Proof.
  unfold generate_with.
  destruct (resolve registry (lower U text)) as [[dom prefs] desc].
  cbn [profile_scores]. unfold score_all, adjusted_scores.
  now rewrite map_map.
Qed.

(** C8. For every profile of the registry the keywords are pairwise
    distinct, the matched keywords are those occurring in the lower-cased
    text and the score is the adjustment of their number [n], which is 0
    for [n = 0] and [n * (1 + n * 0.1)] in double arithmetic otherwise;
    these are the scores reported. The profile selected is the first one
    with a positive adjusted score that no profile exceeds: the profiles
    before it score strictly less, so of two profiles with equal scores
    the earlier one is selected; it is reported as the dominant profile. *)
Theorem C8_classifier U text cur :
  let bl := lower U text in
  let res := generate_recommendations U text cur in
  (forall p, In p user_profiles ->
     List.NoDup (p_keywords p) /\
     matched_keywords (score_profile bl p)
       = List.filter (fun kw => contains kw bl) (p_keywords p) /\
     score (score_profile bl p) = adjusted (raw_score bl p)) /\
  adjusted O = 0%float /\
  (forall n,
     adjusted (S n)
     = (float_of_nat (S n)
        * (1 + float_of_nat (S n) * 0x1.999999999999ap-4))%float) /\
  profile_scores res = adjusted_scores user_profiles bl /\
  stable_argmax float_lt 0%float (adjusted_scores user_profiles bl)
    (fst (find_best (score_all user_profiles bl))) /\
  (forall k, fst (find_best (score_all user_profiles bl)) = Some k ->
             dominant_profile_key res = Some k).
Proof.
  cbv zeta.
  split; [|split; [reflexivity | split; [reflexivity|]]].
  - intros p Hp. rewrite score_profile_eq. split; [|split; reflexivity].
    pose proof registry_keywords as H. rewrite forallb_forall in H.
    specialize (H p Hp). apply andb_prop in H as [_ H].
    now apply distinct_NoDup.
  - split; [apply profile_scores_eq|]. split.
    + rewrite find_best_registry, adjusted_scores_eq. cbn [fst].
      apply (argmax_state_stable float_lt 0%float _
               (fst (fold_left better_raw
                       (raw_scores user_profiles (lower U text)) (None, O)),
                adjusted (snd (fold_left better_raw
                       (raw_scores user_profiles (lower U text))
                       (None, O))))).
      apply argmax_state_adjusted;
        [apply raw_scores_bound | apply raw_state].
    + intros k Hk. unfold generate_recommendations.
      rewrite RecommenderFacts.dominant_eq. now apply resolve_best.
Qed.

(** C9. On the counts a text can reach (at most 39, the longest keyword
    list) the adjustment is strictly increasing, and the profile selected
    under adjusted scores is the one the same loop selects under raw
    counts: the first profile with a positive count that no profile
    exceeds. *)
Theorem C9_adjustment_keeps_winner U text :
  let bl := lower U text in
  (forall a b, (a < b)%nat -> (b <= max_keywords)%nat ->
     float_lt (adjusted a) (adjusted b)) /\
  (forall p, In p user_profiles -> (raw_score bl p <= max_keywords)%nat) /\
  fst (find_best (score_all user_profiles bl))
    = fst (fold_left better_raw (raw_scores user_profiles bl) (None, O)) /\
  stable_argmax Nat.lt O (raw_scores user_profiles bl)
    (fst (find_best (score_all user_profiles bl))).
Proof.
  cbv zeta. split; [|split; [|split]].
  - intros a b Hab Hb. apply float_lt_raw; lia.
  - apply List.Forall_forall, registry_raw_bound.
  - now rewrite find_best_registry.
  - rewrite find_best_registry. cbn [fst].
    apply argmax_state_stable, raw_state.
Qed.

End ClassifierFacts.

(* ===================================================================== *)
(** ** The question matcher *)
(* ===================================================================== *)

Module BotFacts.
Import Py Bot Spec.

Lemma Qgtb_lt a b : Qgtb a b = true <-> Qlt b a.
Proof.
  unfold Qgtb. rewrite negb_true_iff. split.
  - intros H. apply Qnot_le_lt. intros Hle.
    apply Qle_bool_iff in Hle. congruence.
  - intros H. apply not_true_is_false. intros Hle.
    apply Qle_bool_iff in Hle. now apply (Qlt_not_le _ _ H).
Qed.

Lemma Qgtb_le a b : Qgtb a b = false <-> Qle a b.
Proof.
  unfold Qgtb. rewrite negb_false_iff. apply Qle_bool_iff.
Qed.

Lemma floor_positive : Qlt 0 floor.
Proof. reflexivity. Qed.

Section Matcher.
Variable U : Unicode.
Variable total_score : pystr -> FaqItem -> Q.
Variable common_words : pystr -> FaqItem -> list pystr.

Local Abbreviation consider := (consider total_score common_words).
Local Abbreviation step := (consider_entry total_score common_words).
Local Abbreviation state := (best_state total_score common_words).

(** The scan of one program's list: the value is the pure fold, and every
    item is logged as scored. *)
Lemma for_each_consider ql pn items st log :
  for_each (consider ql pn) items st log
  = (fold_left (step ql) (map (pair pn) items) st,
     log ++ map (pair pn) items).
Proof.
  revert st log. induction items as [|item items IH]; intros st log.
  - cbn. now rewrite app_nil_r.
  - cbn [for_each map fold_left]. unfold bind at 1.
    assert (E : consider ql pn st item log
                = (step ql st (pn, item), log ++ [(pn, item)])).
    { unfold Bot.consider, consider_entry, score_entry, record_scored,
        bind, ret. cbn [fst snd].
      now destruct (Qgtb _ (snd st) && Qgtb _ floor). }
    rewrite E, IH, <- app_assoc. reflexivity.
Qed.

Lemma for_each_scan ql programs st log :
  for_each (scan_program total_score common_words ql) programs st log
  = (fold_left (step ql) (entries programs) st, log ++ entries programs).
Proof.
  revert st log. induction programs as [|[pn pd] programs IH];
    intros st log.
  - cbn. now rewrite app_nil_r.
  - cbn [for_each entries flat_map]. unfold bind at 1.
    unfold scan_program at 1. cbn [fst snd].
    destruct (faq pd) as [items|].
    + rewrite for_each_consider, IH, fold_left_app, <- app_assoc.
      reflexivity.
    + unfold ret. rewrite IH. reflexivity.
Qed.

(** The scan keeps its state a best state of the entries seen. *)
Lemma step_state ql l seen st :
  state ql seen st -> state ql (seen ++ l) (fold_left (step ql) l st).
Proof.
  revert seen st. induction l as [|e l IH]; intros seen st Hst; simpl.
  - now rewrite app_nil_r.
  - replace (seen ++ e :: l) with ((seen ++ [e]) ++ l)
      by now rewrite <- app_assoc.
    apply IH. clear IH. destruct st as [best best_score].
    unfold consider_entry, best_state in *. cbn [fst snd] in *.
    set (sc := fun x : pystr * FaqItem => total_score ql (snd x)) in *.
    change (total_score ql (snd e)) with (sc e).
    destruct (Qgtb (sc e) best_score) eqn:E1;
      [destruct (Qgtb (sc e) floor) eqn:E2|]; cbn [andb fst snd].
    + apply Qgtb_lt in E1, E2.
      exists seen, e, []. repeat split; auto.
      destruct best as [m|].
      * destruct Hst as (p1 & e0 & p2 & -> & _ & Hs & _ & H1 & H2).
        rewrite Hs in E1.
        apply Forall_app. split.
        -- eapply List.Forall_impl; [|exact H1]. cbn beta.
           intros x Hx. eapply Qlt_trans; eauto.
        -- constructor; [exact E1|].
           eapply List.Forall_impl; [|exact H2]. cbn beta.
           intros x Hx. eapply Qle_lt_trans; eauto.
      * destruct Hst as [_ H0].
        eapply List.Forall_impl; [|exact H0]. cbn beta.
        intros x Hx. eapply Qle_lt_trans; eauto.
    + apply Qgtb_lt in E1. apply Qgtb_le in E2.
      destruct best as [m|].
      * destruct Hst as (p1 & e0 & p2 & -> & _ & Hs & Hf & _).
        exfalso. rewrite Hs in E1.
        apply (Qlt_irrefl floor).
        eapply Qlt_le_trans; [exact Hf|].
        eapply Qle_trans; [apply Qlt_le_weak; exact E1 | exact E2].
      * destruct Hst as [Hs H0]. split; [exact Hs|].
        apply Forall_app. split; [exact H0 | now repeat constructor].
    + apply Qgtb_le in E1.
      destruct best as [m|].
      * destruct Hst as (p1 & e0 & p2 & -> & Hm & Hs & Hf & H1 & H2).
        exists p1, e0, (p2 ++ [e]).
        split; [now rewrite <- app_assoc|].
        repeat split; auto.
        apply Forall_app. split; [exact H2|].
        constructor; [now rewrite <- Hs | constructor].
      * destruct Hst as [Hs H0]. split; [exact Hs|].
        apply Forall_app. split; [exact H0|].
        constructor; [|constructor]. cbn beta.
        rewrite Hs in E1. eapply Qle_trans; [exact E1|].
        apply Qlt_le_weak, floor_positive.
Qed.

Lemma relevant_iff q :
  is_relevant_question U q = false <->
  Forall (fun kw => contains kw (lower U q) = false) relevant_keywords.
Proof.
  unfold is_relevant_question. split.
  - intros H. apply List.Forall_forall. intros kw Hkw.
    apply not_true_is_false. intros Hc.
    assert (existsb (fun keyword => contains keyword (lower U q))
              relevant_keywords = true); [|congruence].
    apply existsb_exists. eauto.
  - intros H. apply not_true_is_false. intros Hex.
    apply existsb_exists in Hex as (kw & Hkw & Hc).
    rewrite List.Forall_forall in H. specialize (H kw Hkw). congruence.
Qed.

Variable programs_data : list (pystr * Program).

Local Abbreviation find_best_answer :=
  (find_best_answer U total_score common_words programs_data).

(** A question that passes the gate has every entry scored, once, in scan
    order, and the answer is the state the scan ends in. *)
Lemma relevant_scans_all q log :
  is_relevant_question U q = true ->
  find_best_answer q log
  = (fst (fold_left (step (lower U q)) (entries programs_data)
            (None, 0%Q)),
     log ++ entries programs_data).
Proof.
  intros H. unfold Bot.find_best_answer. rewrite H. cbn [negb].
  unfold bind. rewrite for_each_scan. reflexivity.
Qed.

(** The state the scan of all entries ends in is a best state of the
    entries. *)
Lemma final_state ql :
  state ql (entries programs_data)
    (fold_left (step ql) (entries programs_data) (None, 0%Q)).
Proof.
  apply (step_state ql (entries programs_data) [] (None, 0%Q)).
  unfold best_state. cbn [fst snd]. split; [reflexivity|constructor].
Qed.

(** The value of the loop body is the pure step. *)
Lemma consider_value ql pn st item log :
  fst (consider ql pn st item log) = step ql st (pn, item).
Proof.
  unfold Bot.consider, consider_entry, score_entry, record_scored,
    bind, ret. cbn [fst snd].
  destruct (Qgtb (total_score ql item) (snd st)
            && Qgtb (total_score ql item) floor); reflexivity.
Qed.

Lemma fold_consider ql log l st :
  fold_left (fun st e => fst (consider ql (fst e) st (snd e) log)) l st
  = fold_left (step ql) l st.
Proof.
  revert st. induction l as [|[pn item] l IH]; intros st; [reflexivity|].
  cbn [fold_left fst snd]. rewrite consider_value. apply IH.
Qed.

(** Two ways of splitting a list at an element. *)
Lemma split_cases {A} (pre pre' : list A) e e' post post' :
  pre ++ e :: post = pre' ++ e' :: post' ->
  (pre = pre' /\ e = e' /\ post = post') \/
  (exists mid, pre' = pre ++ e :: mid /\ post = mid ++ e' :: post') \/
  (exists mid, pre = pre' ++ e' :: mid /\ post' = mid ++ e :: post).
Proof.
  revert pre'. induction pre as [|x pre IH]; intros [|y pre'] H;
    cbn [app] in H.
  - injection H as -> ->. now left.
  - injection H as -> ->. right. left. now exists pre'.
  - injection H as -> <-. right. right. now exists pre.
  - injection H as -> H.
    destruct (IH _ H)
      as [(-> & -> & ->) | [(mid & -> & ->) | (mid & -> & ->)]].
    + now left.
    + right. left. now exists mid.
    + right. right. now exists mid.
Qed.

(** C4. The loop body replaces the running best by the candidate exactly
    when the candidate's score is strictly above the best score and
    strictly above the floor 0.2, and keeps the state otherwise. A
    question that passes the relevance gate is answered by running this
    body over every entry in scan order, from no match and best score 0,
    and returning the best match it ends with. Hence a match [m] is
    returned exactly when the question is relevant and [m] is made from
    the first entry, in scan order, of greatest score, that score being
    above the floor: the entries before it score strictly less and no
    entry after it scores more, so an entry that ties with it does not
    replace it. A returned match has a score above the floor. *)
Theorem C4_floor_and_ties :
  (forall ql pn st item log,
     let total := total_score ql item in
     (Qlt (snd st) total /\ Qlt floor total ->
      fst (consider ql pn st item log)
      = (Some (make_match total_score common_words ql pn item), total)) /\
     (~ (Qlt (snd st) total /\ Qlt floor total) ->
      fst (consider ql pn st item log) = st)) /\
  (forall q log,
     is_relevant_question U q = true ->
     fst (find_best_answer q log)
     = fst (fold_left
              (fun st e => fst (consider (lower U q) (fst e) st (snd e) log))
              (entries programs_data) (None, 0%Q))) /\
  (forall q log m,
     fst (find_best_answer q log) = Some m <->
     is_relevant_question U q = true /\
     exists pre e post,
       entries programs_data = pre ++ e :: post /\
       m = make_match total_score common_words (lower U q) (fst e) (snd e) /\
       Qlt floor (total_score (lower U q) (snd e)) /\
       Forall (fun x => Qlt (total_score (lower U q) (snd x))
                            (total_score (lower U q) (snd e))) pre /\
       Forall (fun x => Qle (total_score (lower U q) (snd x))
                            (total_score (lower U q) (snd e))) post) /\
  (forall q log m,
     fst (find_best_answer q log) = Some m -> Qlt floor (m_score m)).
Proof.
  assert (Hsome : forall q log m,
     fst (find_best_answer q log) = Some m ->
     is_relevant_question U q = true /\
     exists pre e post,
       entries programs_data = pre ++ e :: post /\
       m = make_match total_score common_words (lower U q) (fst e) (snd e) /\
       Qlt floor (total_score (lower U q) (snd e)) /\
       Forall (fun x => Qlt (total_score (lower U q) (snd x))
                            (total_score (lower U q) (snd e))) pre /\
       Forall (fun x => Qle (total_score (lower U q) (snd x))
                            (total_score (lower U q) (snd e))) post).
  { intros q log m H.
    destruct (is_relevant_question U q) eqn:Hrel.
    - split; [reflexivity|].
      rewrite (relevant_scans_all q log Hrel) in H. cbn [fst] in H.
      pose proof (final_state (lower U q)) as Hst.
      unfold best_state in Hst. rewrite H in Hst.
      destruct Hst as (pre & e & post & E & -> & _ & Hf & H1 & H2).
      exists pre, e, post. auto.
    - unfold Bot.find_best_answer in H. rewrite Hrel in H. discriminate. }
  split; [|split; [|split]].
  - intros ql pn st item log. cbv zeta.
    unfold Bot.consider, score_entry, record_scored, bind, ret.
    rewrite <- !Qgtb_lt.
    destruct (Qgtb (total_score ql item) (snd st));
      destruct (Qgtb (total_score ql item) floor); cbn [andb fst];
      split; intros H; try reflexivity;
      try (exfalso; apply H; now split);
      destruct H; discriminate.
  - intros q log Hrel.
    rewrite (relevant_scans_all q log Hrel), fold_consider. reflexivity.
  - intros q log m. split; [apply Hsome|].
    intros (Hrel & pre & e & post & E & -> & Hf & H1 & H2).
    rewrite (relevant_scans_all q log Hrel). cbn [fst].
    pose proof (final_state (lower U q)) as Hst.
    unfold best_state in Hst.
    destruct (fst (fold_left (step (lower U q)) (entries programs_data)
                     (None, 0%Q))) as [m'|].
    + destruct Hst as (pre' & e' & post' & E' & -> & _ & Hf' & H1' & H2').
      rewrite E in E'.
      destruct (split_cases _ _ _ _ _ _ E')
        as [(_ & -> & _) | [(mid & -> & ->) | (mid & -> & ->)]].
      * reflexivity.
      * exfalso.
        apply Forall_app in H1' as [_ H1']. apply Forall_inv in H1'.
        apply Forall_app in H2 as [_ H2]. apply Forall_inv in H2.
        cbn beta in H1', H2. exact (Qlt_not_le _ _ H1' H2).
      * exfalso.
        apply Forall_app in H1 as [_ H1]. apply Forall_inv in H1.
        apply Forall_app in H2' as [_ H2']. apply Forall_inv in H2'.
        cbn beta in H1, H2'. exact (Qlt_not_le _ _ H1 H2').
    + exfalso. destruct Hst as [_ H0]. rewrite E in H0.
      apply Forall_app in H0 as [_ H0]. apply Forall_inv in H0.
      cbn beta in H0. exact (Qlt_not_le _ _ Hf H0).
  - intros q log m H.
    destruct (Hsome q log m H) as (_ & pre & e & post & _ & -> & Hf & _).
    exact Hf.
Qed.

(** C5. A question whose lower-cased text contains no relevance keyword is
    answered with [None] at once: the log of scored entries is returned as
    it was, so no entry of any program has been scored. *)
Theorem C5_out_of_domain q log :
  Forall (fun kw => contains kw (lower U q) = false) relevant_keywords ->
  find_best_answer q log = (None, log).
Proof.
  intros H. apply relevant_iff in H.
  unfold Bot.find_best_answer. now rewrite H.
Qed.

End Matcher.

Lemma greeting_has_no_keyword :
  Forall (fun kw => contains kw (lower basic greeting) = false)
         relevant_keywords.
Proof. apply relevant_iff. vm_compute. reflexivity. Defined.

Lemma C5_out_of_domain_witness :
  Forall (fun kw => contains kw (lower basic greeting) = false)
         relevant_keywords /\
  entries sample_programs <> [] /\
  find_best_answer basic unit_score no_words sample_programs greeting []
  = (None, []).
Proof.
  split; [exact greeting_has_no_keyword|].
  split; [vm_compute; discriminate|].
  exact (C5_out_of_domain basic unit_score no_words sample_programs
           greeting [] greeting_has_no_keyword).
Defined.

End BotFacts.

(* ===================================================================== *)
(** ** The model at work *)
(* ===================================================================== *)

Module Examples.
Import Py Re Parser Categorizer Recommender Bot Spec.

(** A merged token of four digits is one digit of credits and three of
    hours; without a section header the type is inferred. *)
Example merged_token :
  map course_fields
      (all_courses (extract_curriculum_data basic
                      (u "2Машинное обучение 1306")))
  = [(u "Машинное обучение", 1, 306, 2, elective)].
Proof. vm_compute. reflexivity. Qed.

(** The leading digits give way when the name would otherwise be empty. *)
Example leading_digits_backtrack :
  map course_fields (all_courses (extract_curriculum_data basic (u "12 3")))
  = [(u "2", 3, 0, 1, elective)].
Proof. vm_compute. reflexivity. Qed.

Example sample_text_courses :
  map course_fields (all_courses (extract_curriculum_data basic sample_text))
  = [(u "Воркшоп по созданию продукта", 3, 108, 1, mandatory);
     (u "Машинное обучение", 1, 306, 2, elective);
     (u "Этика", 3, 0, 2, elective)].
Proof. vm_compute. reflexivity. Qed.

(** The keywords of the category registry are in lower case already, so
    a hit in the lower-cased name is a hit regardless of case. *)
Example categories_lower_case :
  forallb (fun cat =>
             forallb (fun kw => str_eqb (lower basic kw) kw) (keywords cat))
          categories = true.
Proof. vm_compute. reflexivity. Qed.

Example sample_buckets :
  map (fun e => (fst e, List.length (snd e)))
      (categorize_subjects basic sample_curriculum)
  = [("machine_learning", 3%nat); ("programming", 1%nat);
     ("computer_vision", 0%nat); ("nlp", 0%nat); ("data_science", 1%nat);
     ("systems", 0%nat); ("product", 0%nat); ("other", 1%nat)].
Proof. vm_compute. reflexivity. Qed.

(** Four, three and two courses from the three preferred categories, the
    courses of equal credits in their original order. *)
Example student_ranking :
  let res := generate_recommendations basic (u "Я студент")
               ranking_curriculum in
  dominant_profile_key res = Some "student" /\
  map rec_fields (recommendations res)
  = [(u "ML 2", 8, "machine_learning", 3);
     (u "ML 1", 6, "machine_learning", 3);
     (u "ML 4", 6, "machine_learning", 3);
     (u "ML 5", 4, "machine_learning", 3);
     (u "Python", 3, "programming", 2);
     (u "Data engineering", 5, "data_science", 1);
     (u "Статистика", 5, "data_science", 1)].
Proof. vm_compute. split; reflexivity. Qed.

(** Two profiles match one keyword each; the earlier one is selected. *)
Example equal_scores_first_wins :
  let res := generate_recommendations basic (u "Пишу backend")
               ranking_curriculum in
  map fst (List.filter (fun e => (snd e =? adjusted 1)%float)
                       (profile_scores res))
  = ["fullstack_developer"; "backend_developer"] /\
  dominant_profile_key res = Some "fullstack_developer".
Proof. vm_compute. split; reflexivity. Qed.

(** With equal scores for all entries the first entry is the answer, and
    both entries have been scored. *)
Example first_entry_wins :
  let q := u "Сколько стоит обучение?" in
  let out := find_best_answer basic unit_score no_words sample_programs
               q [] in
  option_map m_question (fst out) = Some q /\
  snd out = entries sample_programs /\
  List.length (entries sample_programs) = 2%nat.
Proof. vm_compute. repeat split; reflexivity. Qed.

End Examples.

(* ===================================================================== *)
(** ** Further properties of the extractor *)
(* ===================================================================== *)

Module ParserMore.
Import Py Re Parser Spec Terms PyFacts ReFacts ParserFacts.

Lemma of_type_snoc t l c :
  of_type t (l ++ [c])
  = of_type t l ++ (if section_eqb (type c) t then [c] else []).
Proof. unfold of_type. rewrite List.filter_app. reflexivity. Qed.

Lemma of_semester_snoc n l c :
  of_semester n (l ++ [c])
  = of_semester n l ++ (if semester c =? n then [c] else []).
Proof. unfold of_semester. rewrite List.filter_app. reflexivity. Qed.

Lemma of_semester_none n l :
  (forall c, In c l -> semester c <> n) -> of_semester n l = [].
Proof.
  intros H. unfold of_semester.
  rewrite (filter_ext_in _ (fun _ => false)); [apply filter_false|].
  intros c Hc. apply Z.eqb_neq. now apply H.
Qed.

Lemma of_type_lengths l :
  (List.length (of_type mandatory l) + List.length (of_type elective l)
   = List.length l)%nat.
Proof.
  unfold of_type. induction l as [|c l IH]; [reflexivity|].
  simpl. destruct (type c); simpl; lia.
Qed.

Lemma of_type_In t l c : In c (of_type t l) -> In c l.
Proof. unfold of_type. rewrite filter_In. tauto. Qed.

(** A semester without a bucket has no course. *)
Lemma absent_semester cur n :
  lists_agree cur -> buckets_agree cur -> semesters cur !! n = None ->
  of_semester n (mandatory_courses cur) = [] /\
  of_semester n (elective_courses cur) = [].
Proof.
  intros [Hm He] [Hk _] Hn.
  split; apply of_semester_none; intros c Hc E;
    [rewrite Hm in Hc | rewrite He in Hc];
    apply of_type_In in Hc; apply (Hk c Hc); congruence.
Qed.

Lemma semester_bucket_agree cur n :
  lists_agree cur -> buckets_agree cur ->
  let b := semester_bucket n (init_semester n (semesters cur)) in
  b_mandatory b = of_semester n (mandatory_courses cur) /\
  b_elective b = of_semester n (elective_courses cur).
Proof.
  intros Hl Hb. cbv zeta.
  destruct (init_semester_lookup n (semesters cur)) as [E _].
  assert (Eb : semester_bucket n (init_semester n (semesters cur))
               = semester_bucket n (semesters cur)).
  { unfold semester_bucket at 1. now rewrite E. }
  rewrite Eb. unfold semester_bucket.
  destruct (semesters cur !! n) as [b|] eqn:En.
  - now apply (proj2 Hb).
  - cbn [b_mandatory b_elective].
    destruct (absent_semester cur n Hl Hb En) as [H1 H2].
    now rewrite H1, H2.
Qed.

Lemma init_semester_agree cur n :
  lists_agree cur -> buckets_agree cur ->
  buckets_agree
    {| program_name := program_name cur;
       semesters := init_semester n (semesters cur);
       elective_courses := elective_courses cur;
       mandatory_courses := mandatory_courses cur;
       all_courses := all_courses cur |}.
Proof.
  intros Hl Hb. destruct (init_semester_lookup n (semesters cur)) as [E1 E2].
  split; cbn [semesters all_courses mandatory_courses elective_courses].
  - intros c Hc. destruct (Z.eq_dec (semester c) n) as [-> | Hne].
    + rewrite E1. discriminate.
    + rewrite (E2 _ Hne). now apply (proj1 Hb).
  - intros k b Hk. destruct (Z.eq_dec k n) as [-> | Hne].
    + rewrite E1 in Hk. injection Hk as <-.
      unfold semester_bucket.
      destruct (semesters cur !! n) as [b|] eqn:En.
      * now apply (proj2 Hb).
      * cbn [b_mandatory b_elective].
        destruct (absent_semester cur n Hl Hb En) as [H1 H2].
        now rewrite H1, H2.
    + rewrite (E2 _ Hne) in Hk. now apply (proj2 Hb).
Qed.

Lemma add_course_lists cur c :
  lists_agree cur -> lists_agree (add_course cur c).
Proof.
  intros [Hm He]. unfold add_course, lists_agree.
  destruct (type c) eqn:Et;
    cbn [mandatory_courses elective_courses all_courses];
    rewrite !of_type_snoc, Et; cbn [section_eqb];
    rewrite ?app_nil_r; split; congruence.
Qed.

Lemma add_course_buckets cur c :
  lists_agree cur -> buckets_agree cur -> buckets_agree (add_course cur c).
Proof.
  intros Hl Hb.
  pose proof (semester_bucket_agree cur (semester c) Hl Hb) as [Bm Be].
  destruct (init_semester_lookup (semester c) (semesters cur)) as [_ E2].
  assert (Hother : forall k b l,
            k <> semester c ->
            init_semester (semester c) (semesters cur) !! k = Some b ->
            (b_mandatory b = of_semester k (mandatory_courses cur) /\
             b_elective b = of_semester k (elective_courses cur)) /\
            of_semester k (l ++ [c]) = of_semester k l).
  { intros k b l Hne Hk. rewrite (E2 _ Hne) in Hk. split.
    - now apply (proj2 Hb).
    - rewrite of_semester_snoc.
      destruct (Z.eqb_spec (semester c) k); [congruence|].
      apply app_nil_r. }
  unfold add_course.
  destruct (type c); split;
    cbn [semesters all_courses mandatory_courses elective_courses].
  all: try (intros c' Hc';
            destruct (Z.eq_dec (semester c') (semester c)) as [-> | Hne];
            [rewrite lookup_insert_eq; discriminate|];
            rewrite lookup_insert_ne by congruence;
            rewrite (E2 _ Hne);
            apply in_app_or in Hc' as [Hc' | [<- | []]];
            [now apply (proj1 Hb) | congruence]).
  all: intros k b Hk;
       destruct (Z.eq_dec k (semester c)) as [-> | Hne];
       [ rewrite lookup_insert_eq in Hk; injection Hk as <-;
         cbn [b_mandatory b_elective];
         rewrite ?of_semester_snoc, ?Z.eqb_refl, Bm, Be; auto
       | rewrite lookup_insert_ne in Hk by congruence;
         destruct (Hother k b (mandatory_courses cur) Hne Hk) as [[H1 H2] H3];
         destruct (Hother k b (elective_courses cur) Hne Hk) as [_ H4];
         rewrite ?H3, ?H4; auto ].
Qed.

Section WithUnicode.
Variable U : Unicode.

Lemma process_line_agree st raw :
  lists_agree (curriculum st) /\ buckets_agree (curriculum st) ->
  lists_agree (curriculum (process_line U st raw)) /\
  buckets_agree (curriculum (process_line U st raw)).
Proof.
  intros [Hl Hb]. unfold process_line.
  destruct (strip raw) as [|x line]; [now split|].
  generalize (x :: line). intros l.
  destruct (search (semester_re U) l) as [g|].
  { cbn [curriculum]. split; [exact Hl | now apply init_semester_agree]. }
  destruct (contains (u "Обязательные дисциплины") l); [now split|].
  destruct (contains (u "Пул выборных дисциплин") l
            || contains (u "выборных") (lower U l)); [now split|].
  destruct (course_of_line U (current_section st) l) as [c|]; [|now split].
  cbn [curriculum]. split;
    [now apply add_course_lists | now apply add_course_buckets].
Qed.

Lemma scan_agree ls st :
  lists_agree (curriculum st) /\ buckets_agree (curriculum st) ->
  lists_agree (curriculum (fold_left (process_line U) ls st)) /\
  buckets_agree (curriculum (fold_left (process_line U) ls st)).
Proof.
  revert st. induction ls as [|raw ls IH]; intros st H; [exact H|].
  apply IH, process_line_agree, H.
Qed.

Lemma initial_agree text :
  lists_agree (curriculum (initial_state text)) /\
  buckets_agree (curriculum (initial_state text)).
Proof.
  split; [split; reflexivity|]. split.
  - intros c [].
  - intros n b H. cbn in H. rewrite lookup_empty in H. discriminate.
Qed.

Lemma extracted_agree text :
  lists_agree (extract_curriculum_data U text).
Proof.
  unfold extract_curriculum_data, scan.
  exact (proj1 (scan_agree (split_on newline text) (initial_state text)
                  (initial_agree text))).
Qed.

(** X1. In every extracted curriculum the mandatory list and the elective
    list are the courses of that type among all courses, in parse order;
    so each course is in exactly one of them and the sizes add up. *)
Theorem extracted_lists_partition text :
  let cur := extract_curriculum_data U text in
  mandatory_courses cur = of_type mandatory (all_courses cur) /\
  elective_courses cur = of_type elective (all_courses cur) /\
  (List.length (mandatory_courses cur) + List.length (elective_courses cur)
   = List.length (all_courses cur))%nat.
Proof.
  cbv zeta. unfold extract_curriculum_data, scan.
  destruct (scan_agree (split_on newline text) (initial_state text)
              (initial_agree text)) as [[Hm He] _].
  split; [exact Hm|]. split; [exact He|].
  rewrite Hm, He. apply of_type_lengths.
Qed.

(** X2. In every extracted curriculum each course has a bucket for the
    semester number written on its own line, and the bucket of a semester
    holds exactly the mandatory and the elective courses with that
    number, in parse order; a bucket made by a semester header alone is
    empty. *)
Theorem extracted_semester_buckets text :
  let cur := extract_curriculum_data U text in
  (forall c, In c (all_courses cur) ->
             semesters cur !! semester c <> None) /\
  (forall n b, semesters cur !! n = Some b ->
     b_mandatory b = of_semester n (mandatory_courses cur) /\
     b_elective b = of_semester n (elective_courses cur)).
Proof.
  cbv zeta. unfold extract_curriculum_data, scan.
  exact (proj2 (scan_agree (split_on newline text) (initial_state text)
                  (initial_agree text))).
Qed.

Lemma course_of_line_type sec line c :
  course_of_line U (Some sec) line = Some c -> type c = sec.
Proof.
  unfold course_of_line.
  destruct (rmatch (course_re U) line) as [g|]; [|discriminate].
  destruct (split_credits U (group 3 g)) as [cr hr].
  intros H. injection H as <-. reflexivity.
Qed.

Lemma process_line_section st raw :
  current_section st <> None ->
  current_section (process_line U st raw) <> None.
Proof.
  intros H. unfold process_line.
  destruct (strip raw) as [|x line]; [exact H|].
  generalize (x :: line). intros l.
  destruct (search (semester_re U) l); [exact H|].
  destruct (contains (u "Обязательные дисциплины") l); [discriminate|].
  destruct (contains (u "Пул выборных дисциплин") l
            || contains (u "выборных") (lower U l)); [discriminate|].
  destruct (course_of_line U (current_section st) l); exact H.
Qed.

Lemma section_kept st ls :
  current_section st <> None ->
  current_section (fold_left (process_line U) ls st) <> None.
Proof.
  revert st. induction ls as [|raw ls IH]; intros st H; [exact H|].
  cbn [fold_left]. apply IH, process_line_section, H.
Qed.

(** X3. Once a section header has been read, the section tracker stays
    set whatever lines follow, and a line that adds a course adds it with
    the type the tracker has when the line is read: the name of the
    course is no longer consulted. *)
Theorem header_decides_type st pre raw :
  current_section st <> None ->
  let before := fold_left (process_line U) pre st in
  let after := process_line U before raw in
  exists sec,
    current_section before = Some sec /\
    current_section after <> None /\
    (all_courses (curriculum after) = all_courses (curriculum before) \/
     exists c,
       all_courses (curriculum after)
       = all_courses (curriculum before) ++ [c] /\
       type c = sec).
Proof.
  intros Hs. cbv zeta.
  pose proof (section_kept st pre Hs) as Hb. revert Hb.
  generalize (fold_left (process_line U) pre st). intros before Hb.
  destruct (current_section before) as [sec|] eqn:E; [|congruence].
  exists sec. split; [reflexivity|].
  split; [apply process_line_section; congruence|].
  destruct (process_line_courses U before raw) as [H | (c & Hc & H)];
    [left; exact H|].
  right. exists c. split; [exact H|].
  rewrite E in Hc. exact (course_of_line_type _ _ _ Hc).
Qed.

(** X4. A line is read as a course exactly when it consists of one or
    more decimal digits, a non-empty name without a line break, one or
    more whitespace characters and one or more decimal digits, with at
    most whitespace after them. *)
Theorem course_line_shape sec line :
  course_of_line U sec line <> None <-> course_shape U line.
Proof.
  split.
  - unfold course_of_line.
    destruct (rmatch (course_re U) line) as [g|] eqn:E; [|congruence].
    intros _.
    destruct (course_match_shape U _ _ E)
      as (lead & nm & ws & tok & tail & El & _ & _ & _ & H1 & H2 & H3 & H4
          & H5 & H6 & H7 & H8 & H9).
    exists lead, nm, ws, tok, tail.
    repeat split; auto;
      intros ->; cbn in *; lia.
  - intros (lead & nm & ws & tok & tail & -> & H1 & H2 & H3 & H4 & H5 & H6
            & H7 & H8 & H9).
    assert (L : forall l : pystr, l <> [] -> (1 <= List.length l)%nat).
    { intros [|? ?] H; [congruence | cbn; lia]. }
    assert (E : rmatch (course_re U)
                  (lead ++ nm ++ ws ++ tok ++ tail) <> None).
    { unfold rmatch, course_re.
      apply exec_rep_complete; auto.
      apply exec_rep_complete; auto.
      apply exec_rep_complete; auto.
      apply exec_rep_complete; auto.
      rewrite <- (app_nil_r tail).
      apply exec_rep_complete; [apply Nat.le_0_l | exact H9 |].
      discriminate. }
    unfold course_of_line.
    destruct (rmatch (course_re U) _) as [g|]; [|congruence].
    destruct (split_credits U (group 3 g)). discriminate.
Qed.

Lemma int_of_acc_nonneg (s : pystr) acc :
  digit_values U -> forallb (is_decimal U) s = true -> 0 <= acc ->
  0 <= fold_left (fun a c => 10 * a + decimal_value U c) s acc.
Proof.
  intros HU. revert acc. induction s as [|c s IH]; intros acc Hs Hacc;
    [exact Hacc|].
  cbn [forallb] in Hs. apply andb_prop in Hs as [Hc Hs].
  cbn [fold_left]. apply IH; [exact Hs|].
  pose proof (HU c Hc). lia.
Qed.

Lemma int_of_nonneg s :
  digit_values U -> forallb (is_decimal U) s = true -> 0 <= int_of U s.
Proof. intros HU Hs. apply int_of_acc_nonneg; [exact HU | exact Hs | lia]. Qed.

Lemma int_of_first_digit s :
  digit_values U -> forallb (is_decimal U) s = true ->
  0 <= int_of U (firstn 1 s) <= 9.
Proof.
  intros HU Hs. destruct s as [|c s]; [unfold int_of; cbn; lia|].
  cbn [forallb] in Hs. apply andb_prop in Hs as [Hc _].
  cbn [firstn]. rewrite firstn_O. unfold int_of. cbn [fold_left].
  pose proof (HU c Hc). lia.
Qed.

Lemma forallb_skipn {A} (f : A -> bool) n l :
  forallb f l = true -> forallb f (skipn n l) = true.
Proof.
  revert l. induction n as [|n IH]; intros [|x l] H; cbn; auto.
  cbn in H. apply andb_prop in H as [_ H]. now apply IH.
Qed.

(** X5. When decimal digits have the values 0 to 9, the credits, hours
    and semester of every extracted course are non-negative, and a course
    with non-zero hours has credits of a single digit: hours only come
    from a token of four digits or more, whose first digit alone is the
    credits. *)
Theorem extracted_numbers text c :
  digit_values U ->
  In c (all_courses (extract_curriculum_data U text)) ->
  0 <= credits c /\ 0 <= hours c /\ 0 <= semester c /\
  (hours c <> 0 -> credits c <= 9).
Proof.
  intros HU Hc. unfold extract_curriculum_data, scan in Hc.
  apply scan_courses in Hc as [[] | (raw & sec & _ & Hc)].
  unfold course_of_line in Hc.
  destruct (rmatch (course_re U) (strip raw)) as [g|] eqn:E;
    [|discriminate].
  destruct (course_match_shape U _ _ E)
    as (lead & nm & ws & tok & tail & _ & G1 & _ & G3 & _ & Hl & _ & _ & _
        & _ & _ & Ht & _).
  rewrite G1, G3 in Hc.
  pose proof (int_of_nonneg lead HU Hl) as Hsem.
  pose proof (int_of_nonneg tok HU Ht) as Htok.
  pose proof (int_of_first_digit tok HU Ht) as Hfst.
  pose proof (int_of_nonneg (skipn 1 tok) HU (forallb_skipn _ 1 _ Ht))
    as Hrest.
  destruct (split_credits_rule U tok) as [[_ Hs] | [_ Hs]];
    rewrite Hs in Hc; injection Hc as <-;
    cbn [credits hours semester]; repeat split; lia.
Qed.

Lemma run_no_digit s :
  no_digit U s = true -> run (is_decimal U) s = O.
Proof.
  destruct s as [|c s]; [reflexivity|]. unfold no_digit. cbn.
  intros H. apply andb_prop in H as [H _].
  apply negb_true_iff in H. now rewrite H.
Qed.

Lemma exec_no_digit p s g greedy grp :
  no_digit U s = true ->
  exec (Rep (is_decimal U) 1 greedy grp :: p) s g = None.
Proof.
  intros H. cbn [exec]. rewrite (run_no_digit s H).
  unfold counts. now destruct greedy.
Qed.

Lemma search_no_digit p s greedy grp :
  no_digit U s = true ->
  search (Rep (is_decimal U) 1 greedy grp :: p) s = None.
Proof.
  induction s as [|c s IH]; intros H.
  - cbn [search]. now rewrite (exec_no_digit p [] [] greedy grp H).
  - cbn [search]. rewrite (exec_no_digit p (c :: s) [] greedy grp H).
    apply IH. unfold no_digit in *. cbn in H.
    now apply andb_prop in H as [_ H].
Qed.

Lemma no_digit_lstrip s : no_digit U s = true -> no_digit U (lstrip s) = true.
Proof.
  induction s as [|c s IH]; intros H; [reflexivity|].
  cbn [lstrip]. destruct (is_space c); [|exact H].
  apply IH. unfold no_digit in *. cbn in H.
  now apply andb_prop in H as [_ H].
Qed.

Lemma no_digit_rev s : no_digit U s = true -> no_digit U (rev s) = true.
Proof.
  unfold no_digit. rewrite !forallb_forall. intros H c Hc.
  apply H. now apply in_rev.
Qed.

Lemma no_digit_strip s : no_digit U s = true -> no_digit U (strip s) = true.
Proof.
  intros H. unfold strip, rstrip.
  now apply no_digit_rev, no_digit_lstrip, no_digit_rev, no_digit_lstrip.
Qed.

Lemma no_digit_lines s :
  no_digit U s = true ->
  Forall (fun l => no_digit U l = true) (split_on newline s).
Proof.
  induction s as [|c s IH]; intros H.
  - repeat constructor.
  - unfold no_digit in H. cbn in H. apply andb_prop in H as [Hc H].
    specialize (IH H). cbn [split_on].
    destruct (char_eqb c newline); [now constructor|].
    destruct (split_on newline s) as [|w ws].
    + constructor; [|constructor]. unfold no_digit. cbn. now rewrite Hc.
    + inversion IH as [|? ? Hw Hws]; subst. constructor; [|exact Hws].
      unfold no_digit in *. cbn. now rewrite Hc.
Qed.

Lemma process_line_no_digit st raw :
  no_digit U raw = true ->
  curriculum (process_line U st raw) = curriculum st.
Proof.
  intros H. apply no_digit_strip in H. unfold process_line.
  destruct (strip raw) as [|x line]; [reflexivity|].
  revert H. generalize (x :: line). intros l H.
  unfold semester_re. rewrite (search_no_digit _ l true (Some 1%nat) H).
  destruct (contains (u "Обязательные дисциплины") l); [reflexivity|].
  destruct (contains (u "Пул выборных дисциплин") l
            || contains (u "выборных") (lower U l)); [reflexivity|].
  unfold course_of_line, rmatch, course_re.
  now rewrite (exec_no_digit _ l [] true (Some 1%nat) H).
Qed.

(** X6. A text without any decimal digit yields no course and no
    semester bucket, whatever headers and other lines it holds. *)
Theorem no_digit_no_course text :
  no_digit U text = true ->
  let cur := extract_curriculum_data U text in
  all_courses cur = [] /\ mandatory_courses cur = [] /\
  elective_courses cur = [] /\ semesters cur = ∅.
Proof.
  intros H. cbv zeta. unfold extract_curriculum_data, scan.
  assert (E : forall ls st,
            Forall (fun l => no_digit U l = true) ls ->
            curriculum (fold_left (process_line U) ls st) = curriculum st).
  { induction ls as [|raw ls IH]; intros st Hls; [reflexivity|].
    inversion Hls as [|? ? Hraw Hrest]; subst. cbn [fold_left].
    rewrite (IH _ Hrest). now apply process_line_no_digit. }
  rewrite (E _ _ (no_digit_lines text H)). repeat split.
Qed.

Lemma process_line_name st raw :
  program_name (curriculum (process_line U st raw))
  = program_name (curriculum st).
Proof.
  unfold process_line.
  destruct (strip raw) as [|x line]; [reflexivity|].
  generalize (x :: line). intros l.
  destruct (search (semester_re U) l); [reflexivity|].
  destruct (contains (u "Обязательные дисциплины") l); [reflexivity|].
  destruct (contains (u "Пул выборных дисциплин") l
            || contains (u "выборных") (lower U l)); [reflexivity|].
  destruct (course_of_line U (current_section st) l) as [c|];
    [|reflexivity].
  cbn [curriculum]. unfold add_course. now destruct (type c).
Qed.

Lemma scan_name ls st :
  program_name (curriculum (fold_left (process_line U) ls st))
  = program_name (curriculum st).
Proof.
  revert st. induction ls as [|raw ls IH]; intros st; [reflexivity|].
  cbn [fold_left]. rewrite IH. apply process_line_name.
Qed.

End WithUnicode.

Lemma search_lit_none t p s :
  contains t s = false -> search (Lit t :: p) s = None.
Proof.
  induction s as [|c s IH]; cbn [contains search exec]; intros H;
    apply orb_false_elim in H as [H1 H2]; rewrite H1; auto.
Qed.

Lemma exec_lit_or_eos t s g g' :
  exec [LitOrEos t] s g = Some g' -> g' = g.
Proof.
  cbn [exec]. destruct (startswith t s); [now intros [= <-]|].
  destruct (at_end s); [now intros [= <-] | discriminate].
Qed.

(** The first group of a match of [program_re] holds no line break. *)
Lemma program_match_group text g :
  search program_re text = Some g -> forallb dot (group 1 g) = true.
Proof.
  intros H. apply search_sound in H as (pre & s & _ & H).
  unfold program_re in H.
  apply exec_lit in H as [_ H].
  apply exec_rep in H as (ws & r1 & _ & _ & _ & H).
  apply exec_rep in H as (nm & r2 & _ & _ & Hnm & H).
  apply exec_lit_or_eos in H. subst g. exact Hnm.
Qed.

Lemma strip_In c s : In c (strip s) -> In c s.
Proof.
  intros H. unfold strip in H.
  destruct (rstrip_prefix (lstrip s)) as [t1 E1].
  destruct (lstrip_suffix s) as [t2 E2].
  rewrite E2. apply in_or_app. right.
  rewrite E1. apply in_or_app. now left.
Qed.

Lemma strip_first s c r : strip s = c :: r -> is_space c = false.
Proof.
  unfold strip. intros H.
  destruct (rstrip_prefix (lstrip s)) as [t E]. rewrite H in E.
  exact (lstrip_head _ _ _ E).
Qed.

(** X7. The program name of an extracted curriculum never contains a line
    break and neither starts nor ends with whitespace; it is empty when
    the text does not contain the label. The lines of the text do not
    change it. *)
Theorem program_name_shape U text :
  let nm := program_name (extract_curriculum_data U text) in
  ~ In newline nm /\
  (forall c r, nm = c :: r -> is_space c = false) /\
  (forall r c, nm = r ++ [c] -> is_space c = false) /\
  (contains (u "ОП") text = false -> nm = []).
Proof.
  cbv zeta. unfold extract_curriculum_data, scan. rewrite scan_name.
  cbn [initial_state curriculum program_name].
  destruct (search program_re text) as [g|] eqn:E.
  - split; [|split; [|split]].
    + intros Hin. apply strip_In in Hin.
      pose proof (program_match_group _ _ E) as Hdot.
      rewrite forallb_forall in Hdot. specialize (Hdot _ Hin).
      unfold dot, char_eqb in Hdot. now rewrite N.eqb_refl in Hdot.
    + intros c r. apply strip_first.
    + intros r c. unfold strip. apply rstrip_last.
    + intros Hno. unfold program_re in E.
      rewrite (search_lit_none _ _ _ Hno) in E. discriminate.
  - split; [intros []|]. split; [discriminate|].
    split; [|reflexivity].
    intros r c H. destruct r; discriminate.
Qed.

Lemma basic_digit_values : digit_values basic.
Proof.
  intros c H. cbn in *. unfold ascii_digit in H.
  apply andb_prop in H as [H1 H2].
  apply N.leb_le in H1. apply N.leb_le in H2. lia.
Defined.

Lemma extracted_numbers_witness :
  digit_values basic /\
  In sample_course (all_courses (extract_curriculum_data basic sample_text))
  /\ 0 <= credits sample_course /\ 0 <= hours sample_course /\
  0 <= semester sample_course /\
  (hours sample_course <> 0 -> credits sample_course <= 9).
Proof.
  assert (H : In sample_course
                (all_courses (extract_curriculum_data basic sample_text)))
    by (vm_compute; right; left; reflexivity).
  split; [exact basic_digit_values|]. split; [exact H|].
  exact (extracted_numbers basic sample_text sample_course
           basic_digit_values H).
Defined.

Lemma no_digit_no_course_witness :
  no_digit basic prose = true /\
  contains (u "Обязательные дисциплины") prose = true /\
  let cur := extract_curriculum_data basic prose in
  all_courses cur = [] /\ mandatory_courses cur = [] /\
  elective_courses cur = [] /\ semesters cur = ∅.
Proof.
  assert (H : no_digit basic prose = true) by (vm_compute; reflexivity).
  split; [exact H|]. split; [vm_compute; reflexivity|].
  exact (no_digit_no_course basic prose H).
Defined.

Lemma header_decides_type_witness :
  current_section header_state <> None /\
  let before := fold_left (process_line basic) workshop_lines header_state in
  let after := process_line basic before workshop_line in
  exists sec,
    current_section before = Some sec /\
    current_section after <> None /\
    (all_courses (curriculum after) = all_courses (curriculum before) \/
     exists c,
       all_courses (curriculum after)
       = all_courses (curriculum before) ++ [c] /\
       type c = sec).
Proof.
  assert (H1 : current_section header_state <> None) by discriminate.
  split; [exact H1|].
  exact (header_decides_type basic header_state workshop_lines
           workshop_line H1).
Defined.

End ParserMore.

(* ===================================================================== *)
(** ** Further properties of the recommendation engine *)
(* ===================================================================== *)

Module RecommenderMore.
Import Py Parser Categorizer Recommender PySort Spec Terms.
Import PySortFacts CategorizerFacts RecommenderFacts ClassifierFacts.

Lemma raw_positive_iff bl p :
  (0 < raw_score bl p)%nat <->
  exists kw, In kw (p_keywords p) /\ contains kw bl = true.
Proof.
  unfold raw_score. split.
  - destruct (List.filter _ (p_keywords p)) as [|kw l] eqn:E;
      [cbn; lia|].
    intros _. exists kw.
    apply (proj1 (filter_In (fun keyword => contains keyword bl) kw
                    (p_keywords p))).
    rewrite E. now left.
  - intros (kw & Hin & Hc).
    assert (H : In kw (List.filter (fun keyword => contains keyword bl)
                                   (p_keywords p)))
      by (apply filter_In; auto).
    destruct (List.filter _ (p_keywords p)); [destruct H | cbn; lia].
Qed.

Lemma keyword_occurs_iff bl :
  keyword_occurs bl <->
  exists p, In p user_profiles /\ (0 < raw_score bl p)%nat.
Proof.
  unfold keyword_occurs. split.
  - intros (p & kw & Hp & Hkw & Hc). exists p. split; [exact Hp|].
    apply raw_positive_iff. eauto.
  - intros (p & Hp & Hr). apply raw_positive_iff in Hr as (kw & Hkw & Hc).
    eauto.
Qed.

Lemma registry_keys_distinct : List.NoDup (map p_key user_profiles).
Proof.
  apply NoDup_ListNoDup. apply (bool_decide_unpack _).
  vm_compute. reflexivity.
Qed.

Lemma find_by_key {A} (key : A -> string) l x :
  List.NoDup (map key l) -> In x l ->
  find (fun y => String.eqb (key y) (key x)) l = Some x.
Proof.
  induction l as [|y l IH]; intros Hnd Hin; [destruct Hin|].
  cbn [map] in Hnd. inversion Hnd as [|? ? Hy Hl]; subst.
  cbn [find]. destruct Hin as [-> | Hin].
  - now rewrite String.eqb_refl.
  - destruct (String.eqb_spec (key y) (key x)) as [E | _].
    + exfalso. apply Hy. rewrite E. now apply in_map.
    + now apply IH.
Qed.

Lemma find_map_key {A B} (key : A -> string) (f : A -> B) l k :
  find (fun e => String.eqb (fst e) k) (map (fun x => (key x, f x)) l)
  = option_map (fun x => (key x, f x))
      (find (fun x => String.eqb (key x) k) l).
Proof.
  induction l as [|y l IH]; [reflexivity|].
  cbn [map find fst]. now destruct (String.eqb (key y) k).
Qed.

(** The two ways [resolve] ends: with the first profile of greatest
    positive count, or, when no profile scores, with a fallback. *)
Lemma resolve_cases bl :
  (exists p,
     In p user_profiles /\ (0 < raw_score bl p)%nat /\
     fst (find_best (score_all user_profiles bl)) = Some (p_key p) /\
     resolve user_profiles bl = (Some (p_key p), preferences p,
                                 p_description p))
  \/ (Forall (fun p => raw_score bl p = O) user_profiles /\
      fst (find_best (score_all user_profiles bl)) = None /\
      resolve user_profiles bl = fallback bl).
Proof.
  pose proof (find_best_registry bl) as E.
  pose proof (raw_state bl) as St.
  pose proof (better_raw_bound (raw_scores user_profiles bl) (None, O)
                max_keywords (Nat.le_0_l _) (raw_scores_bound bl)) as Hb.
  destruct (fold_left better_raw (raw_scores user_profiles bl) (None, O))
    as [[k|] n]; cbn [fst snd] in E, Hb; unfold argmax_state in St;
    cbn [fst snd] in St.
  - left. destruct St as (pre & post & Hl & Hn & _).
    assert (Hin : In (k, n) (raw_scores user_profiles bl)).
    { rewrite Hl. apply in_or_app. right. now left. }
    apply in_map_iff in Hin as (p & Hp & Hin).
    injection Hp as Hk Hr. subst k n.
    exists p. split; [exact Hin|]. split; [exact Hn|].
    split; [now rewrite E|].
    assert (Htr : truthy (Some (p_key p)) = true).
    { pose proof registry_keys as H. rewrite forallb_forall in H.
      exact (H p Hin). }
    assert (Hpos : (0 <? adjusted (raw_score bl p))%float = true).
    { change 0%float with (adjusted O).
      rewrite adjusted_ltb; [now apply Nat.ltb_lt | | exact Hb].
      unfold max_keywords. lia. }
    assert (Hq : lookup_profile user_profiles (p_key p) = Some p).
    { apply (find_by_key p_key); [apply registry_keys_distinct|exact Hin]. }
    unfold resolve. rewrite E. cbv beta iota zeta.
    rewrite Htr, Hpos. cbn [andb]. now rewrite Hq.
  - right. destruct St as [-> H0]. split; [|split; [now rewrite E|]].
    + unfold raw_scores in H0. rewrite Forall_map in H0.
      eapply List.Forall_impl; [|exact H0]. cbn. intros p Hp.
      unfold Nat.lt in Hp. lia.
    + unfold resolve. rewrite E. cbv beta iota zeta.
      cbn [truthy andb]. reflexivity.
Qed.

Lemma enumerate_from_In {A} (l : list A) i j x :
  In (j, x) (enumerate_from i l) ->
  i <= j < i + Z.of_nat (List.length l) /\ In x l.
Proof.
  revert i. induction l as [|y l IH]; intros i H; [destruct H|].
  cbn [enumerate_from] in H. destruct H as [H | H].
  - injection H as <- <-. cbn [List.length]. split; [lia | now left].
  - apply IH in H as [H1 H2]. cbn [List.length]. split; [lia | now right].
Qed.

Lemma filter_length_perm {A} (f : A -> bool) l l' :
  Permutation l l' ->
  List.length (List.filter f l) = List.length (List.filter f l').
Proof.
  induction 1 as [|x l l' _ IH|x y l|l l' l'' _ IH1 _ IH2]; cbn;
    try reflexivity.
  - destruct (f x); cbn; now rewrite IH.
  - destruct (f x), (f y); reflexivity.
  - congruence.
Qed.

Lemma filter_priority k dom desc cats n i cat :
  List.filter (fun r => priority r =? k) (picks dom desc cats n (i, cat))
  = if n - i =? k then picks dom desc cats n (i, cat) else [].
Proof.
  unfold picks. cbn [fst snd].
  induction (top_electives cats i cat) as [|s l IH];
    [now destruct (n - i =? k)|].
  cbn [map List.filter recommend priority]. rewrite IH.
  now destruct (n - i =? k).
Qed.

Lemma picks_length dom desc cats n i cat :
  (List.length (picks dom desc cats n (i, cat))
   <= Z.to_nat (Z.max 1 (4 - i)))%nat.
Proof.
  unfold picks. rewrite length_map. apply top_electives_length.
Qed.

Section WithUnicode.
Variable U : Unicode.

Lemma user_profile_eq registry text cur :
  user_profile (generate_with U registry text cur)
  = snd (resolve registry (lower U text)).
Proof.
  unfold generate_with.
  now destruct (resolve registry (lower U text)) as [[dom prefs] desc].
Qed.

Lemma matched_eq registry text cur :
  r_matched_keywords (generate_with U registry text cur)
  = let scores := score_all registry (lower U text) in
    let best_profile := fst (find_best scores) in
    if truthy best_profile then
      match best_profile with
      | Some k =>
        match find (fun e => String.eqb (fst e) k) scores with
        | Some e => matched_keywords (snd e)
        | None => []
        end
      | None => []
      end
    else [].
Proof.
  unfold generate_with.
  now destruct (resolve registry (lower U text)) as [[dom prefs] desc].
Qed.

Lemma distribution_eq registry text cur :
  category_distribution (generate_with U registry text cur)
  = map (fun e => (fst e, List.length (snd e))) (categorize_subjects U cur)
  /\ analysis (generate_with U registry text cur)
  = {| total_courses := List.length (all_courses cur);
       n_elective_courses := List.length (elective_courses cur);
       categories_found :=
         List.length
           (List.filter (fun e => negb (Nat.eqb (List.length (snd e)) 0))
                        (categorize_subjects U cur)) |}.
Proof.
  unfold generate_with.
  now destruct (resolve registry (lower U text)) as [[dom prefs] desc].
Qed.

(** The candidate pool for the three preferences of a text. *)
Lemma pool_three text cur :
  exists dom a b c desc,
    resolve user_profiles (lower U text) = (dom, [a; b; c], desc) /\
    candidates U user_profiles text cur
    = picks dom desc (categorize_subjects U cur) 3 (0, a)
      ++ picks dom desc (categorize_subjects U cur) 3 (1, b)
      ++ picks dom desc (categorize_subjects U cur) 3 (2, c).
Proof.
  pose proof (resolve_three (lower U text)) as Hlen.
  rewrite candidates_eq.
  destruct (resolve user_profiles (lower U text)) as [[dom prefs] desc].
  cbn [fst snd] in Hlen.
  destruct prefs as [|a [|b [|c [|]]]]; try discriminate Hlen.
  exists dom, a, b, c, desc. split; [reflexivity|].
  change (enumerate [a; b; c]) with [(0, a); (1, b); (2, c)].
  cbn [flat_map List.length]. rewrite app_nil_r. reflexivity.
Qed.

Lemma pool_length text cur :
  (List.length (candidates U user_profiles text cur) <= 9)%nat.
Proof.
  destruct (pool_three text cur) as (dom & a & b & c & desc & _ & ->).
  rewrite !length_app.
  pose proof (picks_length dom desc (categorize_subjects U cur) 3 0 a).
  pose proof (picks_length dom desc (categorize_subjects U cur) 3 1 b).
  pose proof (picks_length dom desc (categorize_subjects U cur) 3 2 c).
  change (Z.to_nat (Z.max 1 (4 - 0))) with 4%nat in *.
  change (Z.to_nat (Z.max 1 (4 - 1))) with 3%nat in *.
  change (Z.to_nat (Z.max 1 (4 - 2))) with 2%nat in *.
  lia.
Qed.

(** The final cut to ten entries drops nothing. *)
Lemma recommendations_all text cur :
  recommendations (generate_recommendations U text cur)
  = sort_desc pair_ltb rank_key (candidates U user_profiles text cur).
Proof.
  unfold generate_recommendations. rewrite recommendations_eq.
  apply firstn_all2. rewrite sort_desc_length.
  pose proof (pool_length text cur). lia.
Qed.

(** Where a recommendation comes from. *)
Lemma recommendation_source text cur r :
  In r (recommendations (generate_recommendations U text cur)) ->
  In (subject r) (all_courses cur) /\
  type (subject r) = elective /\
  bucket_of U categories (subject r) = category r /\
  In (category r) (snd (fst (resolve user_profiles (lower U text)))) /\
  1 <= priority r <= 3.
Proof.
  rewrite recommendations_all. intros Hr. apply sort_desc_In in Hr.
  rewrite candidates_eq in Hr.
  pose proof (resolve_three (lower U text)) as Hlen.
  destruct (resolve user_profiles (lower U text)) as [[dom prefs] desc].
  cbn [fst snd] in *.
  apply in_flat_map in Hr as ([i cat] & He & Hr).
  apply enumerate_from_In in He as [Hi Hcat].
  unfold picks in Hr. cbn [fst snd] in Hr.
  apply in_map_iff in Hr as (s & <- & Hs).
  cbn [subject category priority recommend].
  unfold top_electives in Hs.
  apply firstn_In, sort_desc_In, filter_In in Hs as [Hs Ht].
  unfold categorize_subjects in Hs. rewrite categorize_get in Hs.
  apply filter_In in Hs as [Hs Hb]. apply String.eqb_eq in Hb.
  repeat split; auto; try lia.
  now destruct (type s).
Qed.

(** X8. Every recommendation is an elective course of the curriculum,
    carries the category that course was put in, comes from one of the
    preferred categories, and has a priority between 1 and 3: a mandatory
    course is never recommended. *)
Theorem recommended_are_electives text cur r :
  In r (recommendations (generate_recommendations U text cur)) ->
  In (subject r) (all_courses cur) /\
  type (subject r) = elective /\
  bucket_of U categories (subject r) = category r /\
  In (category r) (snd (fst (resolve user_profiles (lower U text)))) /\
  1 <= priority r <= 3.
Proof. apply recommendation_source. Qed.

(** X9. For a curriculum produced by the extractor, every recommended
    course is one of its elective courses, the number of elective courses
    reported is the number of courses of type elective, and the total
    reported is that number plus the number of mandatory courses. *)
Theorem extracted_then_recommended text doc :
  let cur := extract_curriculum_data U doc in
  let res := generate_recommendations U text cur in
  (forall r, In r (recommendations res) ->
             In (subject r) (elective_courses cur)) /\
  n_elective_courses (analysis res)
    = List.length (of_type elective (all_courses cur)) /\
  total_courses (analysis res)
    = (n_elective_courses (analysis res)
       + List.length (mandatory_courses cur))%nat.
Proof.
  cbv zeta.
  pose proof (ParserMore.extracted_agree U doc) as [Hm He].
  revert Hm He. generalize (extract_curriculum_data U doc).
  intros cur Hm He.
  split; [|split].
  - intros r Hr.
    destruct (recommendation_source _ _ _ Hr) as (H1 & H2 & _).
    rewrite He. unfold of_type. apply filter_In. split; [exact H1|].
    rewrite H2. reflexivity.
  - unfold generate_recommendations.
    destruct (distribution_eq user_profiles text cur) as [_ ->].
    cbn [n_elective_courses]. rewrite He. reflexivity.
  - unfold generate_recommendations.
    destruct (distribution_eq user_profiles text cur) as [_ ->].
    cbn [n_elective_courses total_courses]. rewrite Hm, He.
    pose proof (ParserMore.of_type_lengths (all_courses cur)). lia.
Qed.

Lemma recommendation_counts text cur :
  let rs := recommendations (generate_recommendations U text cur) in
  (List.length rs <= 9)%nat /\
  (List.length (List.filter (fun r => (priority r =? 3)%Z) rs) <= 4)%nat /\
  (List.length (List.filter (fun r => (priority r =? 2)%Z) rs) <= 3)%nat /\
  (List.length (List.filter (fun r => (priority r =? 1)%Z) rs) <= 2)%nat /\
  Permutation rs (candidates U user_profiles text cur).
Proof.
  cbv zeta. rewrite recommendations_all.
  assert (P : Permutation
                (sort_desc pair_ltb rank_key
                   (candidates U user_profiles text cur))
                (candidates U user_profiles text cur))
    by apply sort_desc_perm.
  split; [rewrite sort_desc_length; apply pool_length|].
  rewrite !(filter_length_perm _ _ _ P).
  split; [|split; [|split; [|exact P]]];
    destruct (pool_three text cur) as (dom & a & b & c & desc & _ & ->);
    rewrite !List.filter_app, !filter_priority, !length_app;
    cbn [Z.sub Z.eqb Z.add Z.opp Z.pos_sub Pos.eqb Pos.pred_double
         Z.succ_double Z.pred_double Z.double List.length];
    rewrite ?Nat.add_0_r.
  - apply (picks_length dom desc _ 3 0 a).
  - apply (picks_length dom desc _ 3 1 b).
  - apply (picks_length dom desc _ 3 2 c).
Qed.

(** X10. There are never more than nine recommendations - at most four of
    priority 3, three of priority 2 and two of priority 1 - so the cut to
    ten entries at the end never removes one: every candidate picked is
    returned. *)
Theorem at_most_nine text cur :
  let rs := recommendations (generate_recommendations U text cur) in
  (List.length rs <= 9)%nat /\
  (List.length (List.filter (fun r => (priority r =? 3)%Z) rs) <= 4)%nat /\
  (List.length (List.filter (fun r => (priority r =? 2)%Z) rs) <= 3)%nat /\
  (List.length (List.filter (fun r => (priority r =? 1)%Z) rs) <= 2)%nat /\
  Permutation rs (candidates U user_profiles text cur).
Proof. apply recommendation_counts. Qed.

Lemma registry_not_generic :
  forallb (fun p => negb (String.eqb (p_key p) "general_developer"))
          user_profiles = true.
Proof. vm_compute. reflexivity. Qed.

Lemma raw_zero bl p kw :
  raw_score bl p = O -> In kw (p_keywords p) -> contains kw bl = false.
Proof.
  intros H Hin. apply not_true_is_false. intros Hc.
  assert (0 < raw_score bl p)%nat; [|lia].
  apply raw_positive_iff. eauto.
Qed.

Lemma no_keyword_iff bl :
  ~ keyword_occurs bl <->
  Forall (fun p => raw_score bl p = O) user_profiles.
Proof.
  rewrite keyword_occurs_iff, List.Forall_forall. split.
  - intros H p Hp. destruct (raw_score bl p) eqn:E; [reflexivity|].
    exfalso. apply H. exists p. split; [exact Hp | lia].
  - intros H (p & Hp & Hr). specialize (H p Hp). lia.
Qed.

(** Three of the five generic words are keywords of the first profile. *)
Lemma generic_words_scored bl :
  Forall (fun p => raw_score bl p = O) user_profiles ->
  contains (u "программист") bl = false /\
  contains (u "разработчик") bl = false /\
  contains (u "developer") bl = false.
Proof.
  intros H. rewrite List.Forall_forall in H.
  assert (E : exists p,
            In p user_profiles /\ In (u "программист") (p_keywords p) /\
            In (u "разработчик") (p_keywords p) /\
            In (u "developer") (p_keywords p)).
  { eexists. split; [left; reflexivity|]. cbn [p_keywords].
    split; [do 5 right; left; reflexivity|].
    split; [do 4 right; left; reflexivity|].
    do 6 right; left; reflexivity. }
  destruct E as (p & Hp & H1 & H2 & H3). specialize (H p Hp).
  split; [exact (raw_zero _ _ _ H H1)|].
  split; [exact (raw_zero _ _ _ H H2) | exact (raw_zero _ _ _ H H3)].
Qed.

Lemma fallback_cases bl :
  Forall (fun p => raw_score bl p = O) user_profiles ->
  fallback bl
  = if contains (u "код") bl || contains (u "code") bl
    then (Some "general_developer",
          ["programming"; "systems"; "machine_learning"],
          u "Разработчик (общий профиль)")
    else (None, ["machine_learning"; "programming"; "data_science"],
          u "Не определен").
Proof.
  intros H. destruct (generic_words_scored bl H) as (H1 & H2 & H3).
  unfold fallback. cbn [existsb]. rewrite H1, H2, H3.
  cbn [orb]. now rewrite orb_false_r.
Qed.

(** X11. A profile of the registry is reported as dominant exactly when
    some keyword of the registry occurs in the lower-cased text; the
    description reported is then that profile's, and the matched keywords
    reported are its keywords occurring in the text, of which there is at
    least one. *)
Theorem determined_iff_keyword text cur :
  let bl := lower U text in
  let res := generate_recommendations U text cur in
  keyword_occurs bl <->
  exists p,
    In p user_profiles /\
    dominant_profile_key res = Some (p_key p) /\
    user_profile res = p_description p /\
    r_matched_keywords res
      = List.filter (fun kw => contains kw bl) (p_keywords p) /\
    r_matched_keywords res <> [].
Proof.
  cbv zeta. unfold generate_recommendations.
  rewrite dominant_eq, user_profile_eq, matched_eq. cbv zeta.
  destruct (resolve_cases (lower U text))
    as [(p & Hp & Hr & Hb & E) | (H0 & Hb & E)]; rewrite E, Hb.
  - split; [intros _ | intros _; apply keyword_occurs_iff; eauto].
    exists p. split; [exact Hp|]. split; [reflexivity|].
    split; [reflexivity|].
    assert (Htr : truthy (Some (p_key p)) = true).
    { pose proof registry_keys as H. rewrite forallb_forall in H.
      exact (H p Hp). }
    rewrite Htr. unfold score_all.
    rewrite (find_map_key p_key (score_profile (lower U text))).
    rewrite (find_by_key p_key _ _ registry_keys_distinct Hp).
    cbn [option_map snd]. rewrite score_profile_eq. cbn [matched_keywords].
    split; [reflexivity|].
    unfold raw_score in Hr.
    destruct (List.filter _ (p_keywords p)); [cbn in Hr; lia | discriminate].
  - split.
    + intros H. exfalso. now apply (proj2 (no_keyword_iff _) H0).
    + intros (p & Hp & Hd & _). exfalso.
      rewrite (fallback_cases _ H0) in Hd.
      pose proof registry_not_generic as Hg. rewrite forallb_forall in Hg.
      specialize (Hg p Hp).
      destruct (contains (u "код") (lower U text)
                || contains (u "code") (lower U text));
        cbn [fst] in Hd; [|discriminate].
      injection Hd as Hd. rewrite <- Hd, String.eqb_refl in Hg.
      discriminate.
Qed.

(** X12. The general-developer fallback is reported exactly when no
    keyword of the registry occurs and the text contains one of the two
    generic words that are not registry keywords; no profile at all is
    reported exactly when neither occurs. With no registry keyword in the
    text no matched keyword is reported and every profile score is 0. *)
Theorem fallback_profiles text cur :
  let bl := lower U text in
  let res := generate_recommendations U text cur in
  (dominant_profile_key res = Some "general_developer" <->
   ~ keyword_occurs bl /\
   (contains (u "код") bl = true \/ contains (u "code") bl = true)) /\
  (dominant_profile_key res = None <->
   ~ keyword_occurs bl /\
   contains (u "код") bl = false /\ contains (u "code") bl = false) /\
  (~ keyword_occurs bl ->
   r_matched_keywords res = [] /\
   Forall (fun e => snd e = 0%float) (profile_scores res)).
Proof.
  cbv zeta. unfold generate_recommendations.
  rewrite dominant_eq, matched_eq, profile_scores_eq. cbv zeta.
  destruct (resolve_cases (lower U text))
    as [(p & Hp & Hr & Hb & E) | (H0 & Hb & E)]; rewrite E, Hb.
  - assert (Hk : keyword_occurs (lower U text))
      by (apply keyword_occurs_iff; eauto).
    pose proof registry_not_generic as Hg. rewrite forallb_forall in Hg.
    specialize (Hg p Hp). cbn [fst].
    split; [|split].
    + split; [|tauto]. intros H. injection H as H.
      rewrite H, String.eqb_refl in Hg. discriminate.
    + split; [discriminate | tauto].
    + tauto.
  - pose proof (proj2 (no_keyword_iff _) H0) as Hn.
    rewrite (fallback_cases _ H0).
    destruct (contains (u "код") (lower U text)) eqn:E1;
      destruct (contains (u "code") (lower U text)) eqn:E2;
      cbn [orb fst truthy].
    all: split; [|split].
    all: try (split; [intros _; auto | reflexivity]).
    all: try (split; [discriminate | intros (_ & ? & ?); discriminate]).
    all: try (split; [discriminate | intros (_ & [?|?]); discriminate]).
    all: try (split; [intros _; auto | reflexivity]).
    all: intros _; (split; [reflexivity|]);
         rewrite adjusted_scores_eq; unfold raw_scores; rewrite map_map;
         apply Forall_map; cbn [snd];
         (eapply List.Forall_impl; [|exact H0]); cbn beta;
         intros q Hq; now rewrite Hq.
Qed.

Lemma find_counts (d : categorized) k :
  count_of k (map (fun e => (fst e, List.length (snd e))) d)
  = List.length (get k d).
Proof.
  unfold count_of, get. induction d as [|e d IH]; [reflexivity|].
  cbn [map find fst]. now destruct (String.eqb (fst e) k).
Qed.

Lemma filter_counts (d : categorized) :
  List.filter (fun e => negb (Nat.eqb (snd e) 0))
              (map (fun e => (fst e, List.length (snd e))) d)
  = map (fun e => (fst e, List.length (snd e)))
        (List.filter (fun e => negb (Nat.eqb (List.length (snd e)) 0)) d).
Proof.
  induction d as [|e d IH]; [reflexivity|].
  cbn [map List.filter snd].
  destruct (Nat.eqb (List.length (snd e)) 0); cbn [negb map];
    now rewrite IH.
Qed.

Lemma no_bucket_no_course (d : categorized) :
  List.filter (fun e => negb (Nat.eqb (List.length (snd e)) 0)) d = [] ->
  total_size d = O.
Proof.
  unfold total_size. induction d as [|e d IH]; [reflexivity|].
  cbn [List.filter].
  destruct (Nat.eqb_spec (List.length (snd e)) 0) as [E | _];
    cbn [negb]; [|discriminate].
  intros H. specialize (IH H). unfold list_sum in *.
  cbn [map fold_right]. rewrite E, IH. reflexivity.
Qed.

Lemma categorize_total cur :
  total_size (categorize_subjects U cur) = List.length (all_courses cur).
Proof.
  unfold categorize_subjects, categorize_with.
  rewrite fold_total; [reflexivity|].
  intros c. now apply entries_of_bucket.
Qed.

(** X13. The category distribution reported has the eight bucket keys in
    registry order, the count of a key is the number of courses put in
    that bucket, the counts add up to the total number of courses
    reported, and the number of categories found is the number of
    non-zero counts: at most 8, and at least 1 as soon as the curriculum
    has a course. *)
Theorem distribution_adds_up text cur :
  let res := generate_recommendations U text cur in
  map fst (category_distribution res) = bucket_keys /\
  (forall k,
     count_of k (category_distribution res)
     = List.length
         (List.filter (fun c => String.eqb (bucket_of U categories c) k)
                      (all_courses cur))) /\
  list_sum (map snd (category_distribution res))
    = total_courses (analysis res) /\
  total_courses (analysis res) = List.length (all_courses cur) /\
  categories_found (analysis res)
    = List.length (List.filter (fun e => negb (Nat.eqb (snd e) 0))
                               (category_distribution res)) /\
  (categories_found (analysis res) <= 8)%nat /\
  (all_courses cur <> [] -> (1 <= categories_found (analysis res))%nat).
Proof.
  cbv zeta. unfold generate_recommendations.
  destruct (distribution_eq user_profiles text cur) as [-> ->].
  cbn [total_courses categories_found].
  assert (Hk : map fst (categorize_subjects U cur) = bucket_keys)
    by apply categorize_keys.
  split; [now rewrite map_map|].
  split.
  { intros k. rewrite find_counts. unfold categorize_subjects.
    now rewrite categorize_get. }
  split.
  { rewrite map_map. cbn [snd]. apply categorize_total. }
  split; [reflexivity|].
  split; [now rewrite filter_counts, length_map|].
  split.
  - etransitivity; [apply filter_length_le|].
    rewrite <- (length_map fst), Hk. reflexivity.
  - intros Hne.
    destruct (List.filter _ (categorize_subjects U cur)) eqn:E;
      [|cbn; lia].
    exfalso. apply no_bucket_no_course in E.
    rewrite categorize_total in E.
    destruct (all_courses cur); [congruence | discriminate].
Qed.

Lemma top_empty_iff cats i cat :
  top_electives cats i cat = [] <-> electives_of cats cat = [].
Proof.
  unfold top_electives. fold (electives_of cats cat).
  split; intros H.
  - apply (f_equal (@List.length Course)) in H.
    rewrite length_firstn, sort_desc_length in H. cbn [List.length] in H.
    destruct (electives_of cats cat); [reflexivity|].
    cbn [List.length] in H. lia.
  - rewrite H. cbn [sort_desc]. apply firstn_nil.
Qed.

(** X14. The list of recommendations is empty exactly when none of the
    three preferred categories has an elective course; in particular for
    a curriculum without courses. *)
Theorem no_recommendation_iff text cur :
  recommendations (generate_recommendations U text cur) = [] <->
  Forall (fun cat => electives_of (categorize_subjects U cur) cat = [])
         (snd (fst (resolve user_profiles (lower U text)))).
Proof.
  rewrite recommendations_all.
  destruct (pool_three text cur) as (dom & a & b & c & desc & -> & ->).
  cbn [fst snd].
  assert (S : forall l : list Recommendation,
            sort_desc pair_ltb rank_key l = [] <-> l = []).
  { intros l. split; [|now intros ->].
    intros H. apply (f_equal (@List.length Recommendation)) in H.
    rewrite sort_desc_length in H. now destruct l. }
  rewrite S. unfold picks. cbn [fst snd].
  split.
  - intros H. apply app_eq_nil in H as [H1 H].
    apply app_eq_nil in H as [H2 H3].
    apply map_eq_nil in H1, H2, H3.
    apply top_empty_iff in H1, H2, H3. now repeat constructor.
  - intros H. inversion H as [|? ? H1 H']; subst.
    inversion H' as [|? ? H2 H'']; subst.
    inversion H'' as [|? ? H3 _]; subst.
    apply (top_empty_iff _ 0) in H1. apply (top_empty_iff _ 1) in H2.
    apply (top_empty_iff _ 2) in H3.
    now rewrite H1, H2, H3.
Qed.

End WithUnicode.

Lemma recommended_are_electives_witness :
  In sample_rec
     (recommendations
        (generate_recommendations basic plain_bio sample_curriculum)) /\
  In (subject sample_rec) (all_courses sample_curriculum) /\
  type (subject sample_rec) = elective /\
  bucket_of basic categories (subject sample_rec) = category sample_rec /\
  In (category sample_rec)
     (snd (fst (resolve user_profiles (lower basic plain_bio)))) /\
  1 <= priority sample_rec <= 3.
Proof.
  assert (H : In sample_rec
                (recommendations
                   (generate_recommendations basic plain_bio
                      sample_curriculum)))
    by (vm_compute; left; reflexivity).
  split; [exact H|].
  exact (recommended_are_electives basic plain_bio sample_curriculum
           sample_rec H).
Defined.

End RecommenderMore.

(* ===================================================================== *)
(** ** More on the question matcher *)
(* ===================================================================== *)

Module BotMore.
Import Py Bot Spec Terms.
Import BotFacts.

Section Matcher.
Variable U : Unicode.
Variable total_score : pystr -> FaqItem -> Q.
Variable common_words : pystr -> FaqItem -> list pystr.
Variable programs_data : list (pystr * Program).

Local Abbreviation find_best_answer :=
  (find_best_answer U total_score common_words programs_data).
Local Abbreviation step := (consider_entry total_score common_words).

Lemma entries_length programs :
  List.length (entries programs) = list_sum (map faq_size programs).
Proof.
  induction programs as [|[pn pd] programs IH]; [reflexivity|].
  change (list_sum (map faq_size ((pn, pd) :: programs)))
    with (faq_size (pn, pd) + list_sum (map faq_size programs))%nat.
  cbn [entries flat_map]. rewrite length_app. fold (entries programs).
  rewrite IH. f_equal. unfold faq_size. cbn [snd fst].
  destruct (faq pd); [rewrite length_map|]; reflexivity.
Qed.

(** X15. The matcher returns no answer in exactly two cases: the question
    does not pass the relevance gate, or no entry of any program scores
    above the floor 0.2. *)
Theorem no_answer_iff q log :
  fst (find_best_answer q log) = None <->
  is_relevant_question U q = false \/
  Forall (fun e => Qle (total_score (lower U q) (snd e)) floor)
         (entries programs_data).
Proof.
  destruct (is_relevant_question U q) eqn:Hrel.
  - rewrite (relevant_scans_all U total_score common_words programs_data
               q log Hrel).
    cbn [fst].
    pose proof (final_state total_score common_words programs_data
                  (lower U q)) as Hst.
    unfold best_state in Hst.
    destruct (fst (fold_left (step (lower U q)) (entries programs_data)
                     (None, 0%Q))) as [m|].
    + split; [discriminate|]. intros [H|H]; [discriminate|]. exfalso.
      destruct Hst as (pre & e & post & E & _ & _ & Hf & _).
      rewrite E in H. apply Forall_app in H as [_ H].
      apply Forall_inv in H. cbn beta in H.
      exact (Qlt_not_le _ _ Hf H).
    + split; [|reflexivity]. intros _. right. exact (proj2 Hst).
  - unfold Bot.find_best_answer. rewrite Hrel. cbn [negb ret fst].
    split; [now left | reflexivity].
Qed.

(** X16. A question that passes the relevance gate has every FAQ entry
    scored exactly once, program by program in the order of the
    dictionary and item by item in the order of each list; any other
    question has none scored. The number of scorings is the total number
    of FAQ items, programs without the key 'faq' adding none. *)
Theorem scored_once_in_order q log :
  snd (find_best_answer q log)
  = log ++ (if is_relevant_question U q then entries programs_data
            else []) /\
  List.length (entries programs_data)
  = list_sum (map faq_size programs_data).
Proof.
  split; [|apply entries_length].
  destruct (is_relevant_question U q) eqn:Hrel.
  - rewrite (relevant_scans_all U total_score common_words programs_data
               q log Hrel). reflexivity.
  - unfold Bot.find_best_answer. rewrite Hrel. cbn [negb ret snd].
    now rewrite app_nil_r.
Qed.

End Matcher.
End BotMore.

(* ===================================================================== *)
(** ** Program match and the profile store *)
(* ===================================================================== *)

Module AdvisorMore.
Import Py Advisor Terms.

Section Match.
Variable U : Unicode.

Local Ltac branches :=
  repeat match goal with
         | |- context [if ?b then _ else _] => destruct b eqn:?
         end.

(** X17. The program match is one of the five values 45, 50, 80, 85 and
    90, so the clamp to 0..100 never changes a score; and the function of
    the demo computes the same value as the method of the bot on every
    input, the program's description playing no part. *)
Theorem program_match_values background program_data :
  In (Advisor.calculate_program_match U background program_data)
     [45; 50; 80; 85; 90] /\
  Demo.calculate_program_match U background program_data
  = Advisor.calculate_program_match U background program_data.
Proof.
  split; [|reflexivity].
  unfold Advisor.calculate_program_match. cbv zeta.
  generalize (lower U background) (lower U (get_str (title program_data))).
  intros b t. branches; cbv; tauto.
Qed.

(** X18. The highest value 90 is given exactly when the background names
    a systems word, names no developer word and no manager word, and the
    title of the program contains the word for high-load; the lowest
    value 45 exactly when a developer's background meets a product
    program that is neither the AI nor the software one, or a manager's
    background without developer words meets an AI program that is not a
    product one. *)
Theorem extreme_scores background program_data :
  let b := lower U background in
  let has := title_has U program_data in
  (Advisor.calculate_program_match U background program_data = 90 <->
   any_in developer_words b = false /\
   any_in manager_words b = false /\
   any_in systems_words b = true /\
   has (u "высоконагруженные") = true) /\
  (Advisor.calculate_program_match U background program_data = 45 <->
   (any_in developer_words b = true /\
    has (u "искусственный интеллект") = false /\
    has (u "программное обеспечение") = false /\
    has (u "продукт") = true) \/
   (any_in developer_words b = false /\
    any_in manager_words b = true /\
    has (u "продукт") = false /\
    has (u "искусственный интеллект") = true)).
Proof.
  cbv zeta.
  unfold Advisor.calculate_program_match, title_has, developer_words,
    manager_words, systems_words. cbv zeta.
  generalize (lower U background) (lower U (get_str (title program_data))).
  intros b t.
  generalize (any_in [u "программист"; u "разработчик"; u "python"; u "код"]
                b)
             (any_in [u "менеджер"; u "продукт"; u "product"; u "бизнес"] b)
             (any_in [u "системы"; u "архитектура"; u "highload";
                      u "нагрузка"] b)
             (contains (u "искусственный интеллект") t)
             (contains (u "программное обеспечение") t)
             (contains (u "продукт") t)
             (contains (u "высоконагруженные") t).
  intros dev mgr sys ai sw prod hl.
  destruct dev, mgr, sys, ai, sw, prod, hl; cbv;
    (split; split; intros H; try discriminate H; try tauto;
     repeat match goal with
            | H : _ /\ _ |- _ => destruct H
            | H : _ \/ _ |- _ => destruct H
            end; discriminate).
Qed.

End Match.

(** X19. The command /profile with arguments stores their join by single
    spaces as the user's background, creating the profile if the user had
    none and keeping the other fields of an existing one; the profiles of
    all other users are untouched. Without arguments the store is left as
    it was. *)
Theorem profile_update user_profiles user_id args :
  let profiles := fst (profile_handler user_profiles user_id args) in
  (forall other, other <> user_id ->
     profiles !! other = user_profiles !! other) /\
  (args = [] -> profiles = user_profiles) /\
  (args <> [] ->
   profiles !! user_id
   = Some {| background := join (u " ") args;
             interests := interests (profile_of user_profiles user_id);
             experience_level :=
               experience_level (profile_of user_profiles user_id);
             preferred_program :=
               preferred_program (profile_of user_profiles user_id) |}).
Proof.
  cbv zeta. unfold profile_handler, profile_of.
  destruct args as [|a args].
  - cbn [fst]. split; [|split].
    + intros other _. reflexivity.
    + intros _. reflexivity.
    + intros H. now contradiction H.
  - cbv zeta. generalize (join (u " ") (a :: args)). intros bg.
    destruct (user_profiles !! user_id) as [p|] eqn:E.
    + rewrite E. cbn [fst]. split; [|split].
      * intros other Ho. apply lookup_insert_ne. congruence.
      * discriminate.
      * intros _. apply lookup_insert_eq.
    + rewrite lookup_insert_eq. cbn [fst]. split; [|split].
      * intros other Ho. rewrite !lookup_insert_ne by congruence.
        reflexivity.
      * discriminate.
      * intros _. apply lookup_insert_eq.
Qed.

End AdvisorMore.

(* ===================================================================== *)
(** ** What [get_recommendations] shows *)
(* ===================================================================== *)

Module RenderMore.
Import Py PySort Parser Categorizer Recommender Render Spec Terms.
Import PySortFacts CategorizerFacts.

(** *** Escaping *)

Lemma replace_char_app old new a b :
  replace_char old new (a ++ b)
  = replace_char old new a ++ replace_char old new b.
Proof. apply flat_map_app. Qed.

Lemma replace_char_single old new x :
  replace_char old new [x] = if N.eqb x old then new else [x].
Proof. unfold replace_char, char_eqb. cbn [flat_map]. apply app_nil_r. Qed.

Local Ltac pass x c :=
  rewrite replace_char_single;
  destruct (N.eqb_spec x c) as [->|?]; [vm_compute; reflexivity|].

Lemma escape_cons x name :
  escape_name (x :: name) = escape_one x ++ escape_name name.
Proof.
  unfold escape_name. change (x :: name) with ([x] ++ name).
  rewrite !replace_char_app. f_equal.
  pass x star. pass x underscore. pass x lbracket. pass x rbracket.
  pass x lparen. pass x rparen.
  unfold escape_one, special, char_eqb. cbn [existsb].
  rewrite !(proj2 (N.eqb_neq _ _)) by assumption. reflexivity.
Qed.

Lemma escape_flat name : escape_name name = flat_map escape_one name.
Proof.
  induction name as [|x name IH]; [reflexivity|].
  rewrite escape_cons, IH. reflexivity.
Qed.

Lemma special_backslash : special backslash = false.
Proof. reflexivity. Qed.

Lemma escape_guarded b name :
  guarded b (flat_map escape_one name) = true.
Proof.
  revert b. induction name as [|x name IH]; intros b; [reflexivity|].
  cbn [flat_map]. unfold escape_one at 1.
  destruct (special x) eqn:E; cbn [app guarded].
  - rewrite special_backslash, E, IH. unfold char_eqb.
    rewrite N.eqb_refl. reflexivity.
  - rewrite E, IH. reflexivity.
Qed.

Lemma guarded_split b pre c post :
  guarded b (pre ++ c :: post) = true -> special c = true ->
  (pre = [] /\ b = true) \/ exists pre', pre = pre' ++ [backslash].
Proof.
  revert b. induction pre as [|x pre IH]; intros b H Hc.
  - cbn [app guarded] in H. rewrite Hc in H.
    apply andb_true_iff in H as [H _]. cbn [negb orb] in H. now left.
  - cbn [app guarded] in H. apply andb_true_iff in H as [_ H]. right.
    destruct (IH _ H Hc) as [[-> Hx]|[pre' ->]].
    + exists []. apply N.eqb_eq in Hx. now subst x.
    + now exists (x :: pre').
Qed.

Lemma escape_head name d r :
  flat_map escape_one name = d :: r -> special d = false.
Proof.
  destruct name as [|x name]; [discriminate|].
  cbn [flat_map]. unfold escape_one at 1.
  destruct (special x) eqn:E; cbn [app]; intros [= <- _];
    [exact special_backslash | exact E].
Qed.

Lemma unescape_two c d r :
  unescape (c :: d :: r)
  = if char_eqb c backslash && special d then d :: unescape r
    else c :: unescape (d :: r).
Proof. reflexivity. Qed.

Lemma unescape_escape name : unescape (flat_map escape_one name) = name.
Proof.
  induction name as [|x name IH]; [reflexivity|].
  cbn [flat_map]. unfold escape_one at 1.
  destruct (special x) eqn:E; cbn [app].
  - rewrite unescape_two, E. unfold char_eqb. rewrite N.eqb_refl.
    cbn [andb]. now rewrite IH.
  - destruct (flat_map escape_one name) as [|d r] eqn:R.
    + cbn [unescape] in *. now rewrite <- IH.
    + rewrite unescape_two, (escape_head _ _ _ R), andb_false_r.
      now rewrite IH.
Qed.

(** X20. Escaping a course name puts one backslash in front of each of
    the six characters asterisk, underscore, square brackets and round
    brackets and changes nothing else, the six passes acting as a single
    one; so in the escaped name each of them stands right after a
    backslash, dropping those backslashes gives the name back, and two
    different names are never shown alike. *)
Theorem escaped_name name :
  escape_name name = flat_map escape_one name /\
  (forall pre c post,
     escape_name name = pre ++ c :: post -> special c = true ->
     exists pre', pre = pre' ++ [backslash]) /\
  unescape (escape_name name) = name /\
  (forall other, escape_name other = escape_name name -> other = name).
Proof.
  split; [apply escape_flat|]. split; [|split].
  - intros pre c post H Hc. rewrite escape_flat in H.
    pose proof (escape_guarded false name) as G. rewrite H in G.
    destruct (guarded_split _ _ _ _ G Hc) as [[_ Hb]|Hp];
      [discriminate | exact Hp].
  - rewrite escape_flat. apply unescape_escape.
  - intros other H. rewrite !escape_flat in H.
    rewrite <- (unescape_escape other), H. apply unescape_escape.
Qed.

(** *** Sorted lists *)

Lemma sorted_app {A} (R : A -> A -> Prop) l1 l2 a b :
  StronglySorted R (l1 ++ l2) -> In a l1 -> In b l2 -> R a b.
Proof.
  induction l1 as [|x l1 IH]; intros H Ha Hb; [contradiction|].
  cbn [app] in H. apply StronglySorted_inv in H as [Hs Hf].
  destruct Ha as [->|Ha]; [|now apply IH].
  rewrite List.Forall_forall in Hf. apply Hf, in_or_app. now right.
Qed.

Lemma sorted_filter {A} (R : A -> A -> Prop) f l :
  StronglySorted R l -> StronglySorted R (List.filter f l).
Proof.
  induction 1 as [|x l Hl IH Hx]; cbn [List.filter]; [constructor|].
  destruct (f x); [|exact IH]. constructor; [exact IH|].
  rewrite List.Forall_forall in *. intros y Hy.
  apply filter_In in Hy as [Hy _]. auto.
Qed.

Lemma filter_all {A} (f : A -> bool) l :
  (forall x, In x l -> f x = true) -> List.filter f l = l.
Proof.
  induction l as [|x l IH]; intros H; [reflexivity|].
  cbn [List.filter]. rewrite (H x) by now left.
  f_equal. apply IH. intros y Hy. apply H. now right.
Qed.

Lemma Nltb_asym a b : Nat.ltb a b = true -> Nat.ltb b a = false.
Proof. rewrite Nat.ltb_lt, Nat.ltb_ge. lia. Qed.

Lemma Ngeb_trans a b c :
  Nat.ltb a b = false -> Nat.ltb b c = false -> Nat.ltb a c = false.
Proof. rewrite !Nat.ltb_ge. lia. Qed.

Lemma list_sum_pos l :
  (0 < list_sum l)%nat <-> exists n, In n l /\ (0 < n)%nat.
Proof.
  induction l as [|x l IH].
  - cbn. split; [lia | intros (n & [] & _)].
  - change (list_sum (x :: l)) with (x + list_sum l)%nat. split.
    + intros H. destruct x as [|x].
      * destruct (proj1 IH H) as (n & Hn & Hp).
        exists n. split; [now right | exact Hp].
      * exists (S x). split; [now left | lia].
    + intros (n & [->|Hn] & Hp); [lia|].
      assert (0 < list_sum l)%nat by (apply IH; eauto). lia.
Qed.

(** *** The recommendations shown *)

Lemma high_priority_count (l : list Recommendation) :
  (forall r, In r l -> priority r <= 3) ->
  List.length (List.filter (fun r => 2 <=? priority r) l)
  = (List.length (List.filter (fun r => (priority r =? 3)%Z) l)
     + List.length (List.filter (fun r => (priority r =? 2)%Z) l))%nat.
Proof.
  induction l as [|x l IH]; intros H; [reflexivity|].
  cbn [List.filter].
  assert (Hx : priority x <= 3) by (apply H; now left).
  assert (IH' := IH (fun r Hr => H r (or_intror Hr))).
  destruct (Z.leb_spec 2 (priority x)), (Z.eqb_spec (priority x) 3),
    (Z.eqb_spec (priority x) 2); cbn [List.length]; lia.
Qed.

(** *** The top categories *)

Lemma top_general (d : list (string * nat)) :
  let top := top_categories d in
  (List.length top <= 5)%nat /\
  (forall e, In e top -> In e d /\ (0 < snd e)%nat) /\
  StronglySorted (fun a b => (snd b <= snd a)%nat) top /\
  (forall e e', In e top -> In e' d -> ~ In e' top ->
                (snd e' <= snd e)%nat) /\
  (forall e, In e d -> (0 < snd e)%nat -> top <> []).
Proof.
  cbv zeta. unfold top_categories.
  set (sorted := sort_desc Nat.ltb snd d).
  assert (Hs : StronglySorted (ge Nat.ltb snd) sorted)
    by (apply sort_desc_sorted; [exact Nltb_asym | exact Ngeb_trans]).
  assert (Hin : forall e, In e sorted <-> In e d)
    by (intros e; apply sort_desc_In).
  split; [|split; [|split; [|split]]].
  - etransitivity; [apply filter_length_le|].
    rewrite length_firstn. lia.
  - intros e He. apply filter_In in He as [He Hp].
    apply firstn_In in He. apply Hin in He.
    apply Nat.ltb_lt in Hp. now split.
  - apply sorted_filter, firstn_sorted.
    eapply RecommenderFacts.sorted_weaken; [|exact Hs].
    intros a b H. unfold ge in H. apply Nat.ltb_ge in H. exact H.
  - intros e e' He He' Hn.
    apply filter_In in He as [He _].
    apply Hin in He'. rewrite <- (firstn_skipn 5 sorted) in He', Hs.
    apply in_app_or in He' as [He'|He'].
    + destruct (Nat.ltb 0 (snd e')) eqn:E.
      * exfalso. apply Hn. apply filter_In. now split.
      * apply Nat.ltb_ge in E. lia.
    + pose proof (sorted_app _ _ _ _ _ Hs He He') as H.
      unfold ge in H. apply Nat.ltb_ge in H. exact H.
  - intros e He Hp. apply Hin in He.
    destruct sorted as [|h t]; [contradiction|].
    apply StronglySorted_inv in Hs as [_ Hf].
    assert (Hh : (0 < snd h)%nat).
    { destruct He as [->|He]; [exact Hp|].
      rewrite List.Forall_forall in Hf. specialize (Hf e He).
      unfold ge in Hf. apply Nat.ltb_ge in Hf. lia. }
    cbn [firstn List.filter]. apply Nat.ltb_lt in Hh. rewrite Hh.
    discriminate.
Qed.

Section WithUnicode.
Variable U : Unicode.

(** X21. Of the at most nine recommendations the first eight are shown:
    either all of them, or all but the last one, which then has
    priority 1. A recommendation of priority 2 or 3 is always shown. *)
Theorem shown_cut text cur :
  let res := generate_recommendations U text cur in
  (shown res = recommendations res \/
   exists r, recommendations res = shown res ++ [r] /\ priority r = 1) /\
  (forall r, In r (recommendations res) -> 2 <= priority r ->
             In r (shown res)).
Proof.
  cbv zeta. unfold shown.
  pose proof (RecommenderMore.recommendation_counts U text cur) as C.
  cbv zeta in C. destruct C as (Hlen & H3 & H2 & _ & _).
  assert (Hr : forall r,
             In r (recommendations (generate_recommendations U text cur)) ->
             1 <= priority r <= 3)
    by (intros r Hr; apply (RecommenderMore.recommendation_source U _ _ _ Hr)).
  assert (Hs : StronglySorted (ge pair_ltb rank_key)
                 (recommendations (generate_recommendations U text cur))).
  { rewrite RecommenderMore.recommendations_all.
    apply sort_desc_sorted; [exact pair_ltb_asym | exact pair_geb_trans]. }
  revert Hlen H3 H2 Hr Hs.
  generalize (recommendations (generate_recommendations U text cur)).
  intros rs Hlen H3 H2 Hr Hs.
  assert (Hcut : firstn 8 rs = rs \/
                 exists r, rs = firstn 8 rs ++ [r] /\ priority r = 1).
  { pose proof (firstn_skipn 8 rs) as E.
    pose proof (length_skipn 8 rs) as Lk.
    pose proof (length_firstn 8 rs) as Lf.
    destruct (skipn 8 rs) as [|r tl].
    - left. now rewrite app_nil_r in E.
    - right. cbn [List.length] in Lk.
      destruct tl as [|r' tl]; [|cbn [List.length] in Lk; lia].
      exists r. split; [now symmetry|].
      assert (Hin : In r rs) by (rewrite <- E; apply in_or_app; right;
                                 now left).
      pose proof (Hr r Hin) as Hp.
      destruct (Z.eq_dec (priority r) 1) as [|Hne]; [assumption|].
      exfalso.
      assert (Hall : forall x, In x rs -> (2 <=? priority x) = true).
      { intros x Hx. apply Z.leb_le. rewrite <- E in Hx, Hs.
        apply in_app_or in Hx as [Hx|[<-|[]]]; [|lia].
        pose proof (sorted_app _ _ _ _ _ Hs Hx (or_introl eq_refl)) as G.
        unfold ge in G. apply pair_ltb_ge in G.
        unfold rank_key in G. cbn [fst snd] in G. lia. }
      pose proof (high_priority_count rs (fun x Hx => proj2 (Hr x Hx)))
        as Hc.
      rewrite (filter_all _ _ Hall) in Hc. lia. }
  split; [exact Hcut|].
  intros r Hin Hp. destruct Hcut as [->|(r0 & E & Hp0)]; [exact Hin|].
  rewrite E in Hin. apply in_app_or in Hin as [Hin|[<-|[]]];
    [exact Hin | lia].
Qed.

Lemma distribution_sum text cur :
  list_sum
    (map snd (category_distribution (generate_recommendations U text cur)))
  = List.length (all_courses cur).
Proof.
  unfold generate_recommendations.
  destruct (RecommenderMore.distribution_eq U user_profiles text cur)
    as [-> _].
  rewrite map_map. cbn [snd]. apply RecommenderMore.categorize_total.
Qed.

(** X22. The top categories shown are at most five entries of the
    category distribution, each with a count above 0, in descending order
    of count; an entry of the distribution that is not shown has a count
    no greater than any entry shown. None is shown exactly when the
    curriculum has no course. *)
Theorem top_categories_shown text cur :
  let dist :=
    category_distribution (generate_recommendations U text cur) in
  let top := top_categories dist in
  (List.length top <= 5)%nat /\
  (forall e, In e top -> In e dist /\ (0 < snd e)%nat) /\
  StronglySorted (fun a b => (snd b <= snd a)%nat) top /\
  (forall e e', In e top -> In e' dist -> ~ In e' top ->
                (snd e' <= snd e)%nat) /\
  (top = [] <-> all_courses cur = []).
Proof.
  cbv zeta.
  pose proof (distribution_sum text cur) as Hsum.
  revert Hsum.
  generalize (category_distribution (generate_recommendations U text cur)).
  intros dist Hsum.
  destruct (top_general dist) as (H1 & H2 & H3 & H4 & H5).
  split; [exact H1|]. split; [exact H2|]. split; [exact H3|].
  split; [exact H4|]. split.
  - intros Htop. destruct (all_courses cur) as [|c l]; [reflexivity|].
    exfalso.
    assert (Hp : (0 < list_sum (map snd dist))%nat)
      by (rewrite Hsum; cbn [List.length]; lia).
    apply list_sum_pos in Hp as (n & Hn & Hp).
    apply in_map_iff in Hn as (e & <- & He).
    exact (H5 e He Hp Htop).
  - intros Hnil. rewrite Hnil in Hsum. cbn [List.length] in Hsum.
    destruct (top_categories dist) as [|e t] eqn:E; [reflexivity|].
    exfalso. destruct (H2 e (or_introl eq_refl)) as [He Hp].
    assert (0 < list_sum (map snd dist))%nat; [|lia].
    apply list_sum_pos. exists (snd e). split; [|exact Hp].
    apply in_map. exact He.
Qed.

End WithUnicode.
End RenderMore.

(* ===================================================================== *)
(** ** The further models at work *)
(* ===================================================================== *)

Module MoreExamples.
Import Py Parser Advisor Render Terms.

(** Two users set their profiles; each keeps their own. *)
Example profiles_kept_apart :
  let store :=
    fst (profile_handler
           (fst (profile_handler ∅ alice [u "Я"; u "программист"]))
           bob [u "менеджер"]) in
  background (profile_of store alice) = u "Я программист" /\
  background (profile_of store bob) = u "менеджер".
Proof. vm_compute. split; reflexivity. Qed.

(** A developer of high-load systems gets the base value for the
    high-load program: the developer branch is taken first. *)
Example developer_of_systems :
  Advisor.calculate_program_match basic (u "Разработчик highload систем")
    {| title := Some (u "Высоконагруженные системы");
       description := None |} = 50.
Proof. vm_compute. reflexivity. Qed.

(** Under an elective header a workshop is read as elective, although
    its name alone would make it mandatory. *)
Example workshop_under_header :
  all_courses (curriculum (process_line basic header_state workshop_line))
  = [workshop_course] /\
  all_courses
    (curriculum (process_line basic (initial_state []) workshop_line))
  = [{| name := name workshop_course; credits := 3; hours := 108;
        semester := 1; type := mandatory |}].
Proof. vm_compute. split; reflexivity. Qed.

Example brackets_escaped :
  escape_name bracketed = u "ML\_1 \[basics\]".
Proof. vm_compute. reflexivity. Qed.

Example counts_ranked :
  top_categories [("machine_learning", 2%nat); ("programming", 0%nat);
                  ("other", 5%nat); ("systems", 2%nat)]
  = [("other", 5%nat); ("machine_learning", 2%nat); ("systems", 2%nat)].
Proof. vm_compute. reflexivity. Qed.

End MoreExamples.
